(** * Print-job lifecycle engine of qz_tray_print: a shallow embedding

    The Odoo models [qz.print.job] (models/qz_print_job.py) and [qz.printer]
    (models/qz_printer.py) are embedded as records kept in finite maps keyed
    by database id.  Methods of the models become computations in a small
    state-and-exception monad over the database; a Python exception leaves
    the writes made before it in place, as it does inside one Odoo
    transaction. *)

From Stdlib Require Import ZArith String Ascii List DecimalString DecimalNat Bool Lia.
From stdpp Require Import gmap strings list.

Local Open Scope Z_scope.

(** ** Python string helpers *)

Module PyStr.

(** [str.lower()] on ASCII text. *)
Definition lower_ascii (c : ascii) : ascii :=
  let n := nat_of_ascii c in
  if (Nat.leb 65 n && Nat.leb n 90)%bool then ascii_of_nat (n + 32) else c.

Fixpoint lower (s : string) : string :=
  match s with
  | EmptyString => EmptyString
  | String c r => String (lower_ascii c) (lower r)
  end.

(** [needle in hay]. *)
Fixpoint contains (needle hay : string) : bool :=
  match hay with
  | EmptyString => String.prefix needle EmptyString
  | String _ r => String.prefix needle hay || contains needle r
  end.

(** [s.startswith(p)]. *)
Definition startswith (s p : string) : bool := String.prefix p s.

(** [s.split(sep)] for a one-character separator: [split_from acc s]
    carries the (reversed) piece being read. *)
Fixpoint split_from (sep : ascii) (acc : string) (s : string) : list string :=
  match s with
  | EmptyString => [acc]
  | String c r =>
      if Ascii.eqb c sep then acc :: split_from sep EmptyString r
      else split_from sep (acc +:+ String c EmptyString) r
  end.

Definition split (sep : ascii) (s : string) : list string :=
  split_from sep EmptyString s.

(** [', '.join(l)]. *)
Fixpoint join (sep : string) (l : list string) : string :=
  match l with
  | [] => EmptyString
  | [x] => x
  | x :: r => x +:+ sep +:+ join sep r
  end.

(** ['%d' % z]. *)
Definition of_Z (z : Z) : string := NilZero.string_of_int (Z.to_int z).

(** Truth value of an optional string: [False], [None] and [''] are falsy. *)
Definition truthy (o : option string) : bool :=
  match o with
  | Some (String _ _) => true
  | _ => false
  end.

(** ['%s' % v] for a field that reads [False] when unset. *)
Definition show (o : option string) : string :=
  match o with Some s => s | None => "False" end.

End PyStr.

(** ** Data model *)

Inductive State := draft | queued | printing | completed | failed | cancelled.

Inductive DataFormat := pdf | html | escpos | zpl.

Inductive PrinterType := receipt | label | document | other.

#[global] Instance State_eq_dec : EqDecision State.
Proof. solve_decision. Defined.
#[global] Instance DataFormat_eq_dec : EqDecision DataFormat.
Proof. solve_decision. Defined.
#[global] Instance PrinterType_eq_dec : EqDecision PrinterType.
Proof. solve_decision. Defined.

(** A [fields.Datetime] value is carried as its rendering in the server
    format ['YYYY-MM-DD HH:MM:SS'], which is what ['%s' % value] prints
    and whose lexicographic order is the chronological one. *)
Definition Datetime := string.

(** [qz.printer]: the fields read by the job engine and by printer
    selection. *)
Record Printer := mkPrinter {
  p_name : string;
  printer_type : PrinterType;
  location_id : option Z;
  department : option string;
  is_default : bool;
  p_priority : Z;
  active : bool;
  supports_pdf : bool;
  supports_html : bool;
  supports_escpos : bool;
  supports_zpl : bool
}.

(** [qz.print.job]. Fields that read [False] when unset are options. *)
Record Job := mkJob {
  name : option string;
  document_type : string;
  printer_id : option Z;
  user_id : Z;
  state : State;
  data : option (list Byte.byte);
  data_format : DataFormat;
  template_id : option Z;
  template_data : option string;
  copies : Z;
  priority : Z;
  error_message : option string;
  retry_count : Z;
  submitted_date : option Datetime;
  completed_date : option Datetime;
  parent_model : option string;
  parent_id : option Z
}.

(** The [ir.config_parameter] keys read by the engine, already parsed:
    [qz_tray.retry_enabled], [qz_tray.retry_count], [qz_tray.retry_delay]
    and [qz_tray.email_notifications_enabled]. *)
Record Config := mkConfig {
  retry_enabled : bool;
  max_retries : Z;
  retry_delay : Z;
  email_enabled : bool
}.

(** The [ir.sequence] with code ['qz.print.job'], when one is installed:
    [seq_render] prints a number the way the sequence is configured
    (prefix, padding, suffix) and [seq_next] is the next number. *)
Record Sequence := mkSequence {
  seq_render : nat -> string;
  seq_next : nat
}.

(** The database and the environment of a call. [admin_calls] lists the
    jobs for which [_notify_admin_failure] was invoked, [mail_stage] those
    for which it went past the [email_notifications_enabled] gate to the
    mail transport. *)
Record World := mkWorld {
  jobs : gmap Z Job;
  printers : gmap Z Printer;
  config : Config;
  clock : Datetime;
  uid : Z;
  next_job_id : Z;
  next_printer_id : Z;
  job_sequence : option Sequence;
  admin_calls : list Z;
  mail_stage : list Z
}.

Definition with_jobs (js : gmap Z Job) (w : World) : World :=
  mkWorld js (printers w) (config w) (clock w) (uid w) (next_job_id w)
          (next_printer_id w) (job_sequence w) (admin_calls w) (mail_stage w).

Definition with_sequence (sq : option Sequence) (w : World) : World :=
  mkWorld (jobs w) (printers w) (config w) (clock w) (uid w) (next_job_id w)
          (next_printer_id w) sq (admin_calls w) (mail_stage w).

(** ** Exceptions and the method monad *)

Inductive Exn :=
| ValidationError (msg : string)
| TypeError (msg : string)
| MissingError (msg : string)
| IntegrityError (msg : string)
| IndexError (msg : string).

(** [str(e)]. *)
Definition exn_str (e : Exn) : string :=
  match e with
  | ValidationError m | TypeError m | MissingError m | IntegrityError m
  | IndexError m => m
  end.

Inductive Result (A : Type) :=
| Ok (a : A)
| Raise (e : Exn).
Arguments Ok {A} a.
Arguments Raise {A} e.

Definition M (A : Type) : Type := World -> Result A * World.

Definition ret {A} (a : A) : M A := fun w => (Ok a, w).

Definition bind {A B} (m : M A) (k : A -> M B) : M B :=
  fun w => match m w with
           | (Ok a, w') => k a w'
           | (Raise e, w') => (Raise e, w')
           end.

Definition raise {A} (e : Exn) : M A := fun w => (Raise e, w).

(** [try: m except Exception as e: h e]. *)
Definition try_except {A} (m : M A) (h : Exn -> M A) : M A :=
  fun w => match m w with
           | (Ok a, w') => (Ok a, w')
           | (Raise e, w') => h e w'
           end.

Definition get_world : M World := fun w => (Ok w, w).

Notation "'do' x <- m ; k" := (bind m (fun x => k))
  (at level 10, x name, m at level 100, k at level 200).
Notation "'run' m ; k" := (bind m (fun _ => k))
  (at level 10, m at level 100, k at level 200).

(** [fields.Datetime.now()]. *)
Definition now : M Datetime := fun w => (Ok (clock w), w).

Definition get_config : M Config := fun w => (Ok (config w), w).

(** Reading the record behind [self]. *)
Definition read (jid : Z) : M Job :=
  fun w => match jobs w !! jid with
           | Some j => (Ok j, w)
           | None => (Raise (MissingError "Record does not exist or has been deleted."), w)
           end.

(** [self.printer_id] as a record: [None] for an empty recordset. *)
Definition printer_of (w : World) (j : Job) : option Printer :=
  match printer_id j with
  | Some p => printers w !! p
  | None => None
  end.

Definition get_printer (j : Job) : M (option Printer) :=
  fun w => (Ok (printer_of w j), w).

(** Field reads through a possibly empty recordset. *)
Definition pr_active (p : option Printer) : bool :=
  match p with Some p => active p | None => false end.

Definition pr_name (p : option Printer) : string :=
  match p with Some p => p_name p | None => "False" end.

(** ** [write] *)

(** One entry of the dict passed to [write]. *)
Inductive FieldVal :=
| F_state (s : State)
| F_error_message (m : option string)
| F_retry_count (n : Z)
| F_submitted_date (d : Datetime)
| F_completed_date (d : Datetime)
| F_name (n : string).

Definition set_field (j : Job) (v : FieldVal) : Job :=
  match v with
  | F_state s =>
      mkJob (name j) (document_type j) (printer_id j) (user_id j) s (data j)
            (data_format j) (template_id j) (template_data j) (copies j) (priority j)
            (error_message j) (retry_count j) (submitted_date j) (completed_date j)
            (parent_model j) (parent_id j)
  | F_error_message m =>
      mkJob (name j) (document_type j) (printer_id j) (user_id j) (state j) (data j)
            (data_format j) (template_id j) (template_data j) (copies j) (priority j)
            m (retry_count j) (submitted_date j) (completed_date j)
            (parent_model j) (parent_id j)
  | F_retry_count n =>
      mkJob (name j) (document_type j) (printer_id j) (user_id j) (state j) (data j)
            (data_format j) (template_id j) (template_data j) (copies j) (priority j)
            (error_message j) n (submitted_date j) (completed_date j)
            (parent_model j) (parent_id j)
  | F_submitted_date d =>
      mkJob (name j) (document_type j) (printer_id j) (user_id j) (state j) (data j)
            (data_format j) (template_id j) (template_data j) (copies j) (priority j)
            (error_message j) (retry_count j) (Some d) (completed_date j)
            (parent_model j) (parent_id j)
  | F_completed_date d =>
      mkJob (name j) (document_type j) (printer_id j) (user_id j) (state j) (data j)
            (data_format j) (template_id j) (template_data j) (copies j) (priority j)
            (error_message j) (retry_count j) (submitted_date j) (Some d)
            (parent_model j) (parent_id j)
  | F_name n =>
      mkJob (Some n) (document_type j) (printer_id j) (user_id j) (state j) (data j)
            (data_format j) (template_id j) (template_data j) (copies j) (priority j)
            (error_message j) (retry_count j) (submitted_date j) (completed_date j)
            (parent_model j) (parent_id j)
  end.

Definition apply_vals (j : Job) (vals : list FieldVal) : Job :=
  fold_left set_field vals j.

(** The three [@api.constrains] checks of the job model. *)
Definition _check_copies (j : Job) : Result unit :=
  if copies j <? 1 then Raise (ValidationError "Number of copies must be at least 1")
  else Ok tt.

Definition _check_priority (j : Job) : Result unit :=
  if priority j <? 0 then Raise (ValidationError "Priority cannot be negative")
  else Ok tt.

Definition _check_retry_count (j : Job) : Result unit :=
  if retry_count j <? 0 then Raise (ValidationError "Retry count cannot be negative")
  else Ok tt.

Definition writes_retry_count (v : FieldVal) : bool :=
  match v with F_retry_count _ => true | _ => false end.

(** [self.write(vals)]: the constraint of a field runs when the field is
    in [vals]; of the constrained fields the engine only ever writes
    [retry_count].  A failed constraint raises and stores nothing. *)
Definition write (jid : Z) (vals : list FieldVal) : M unit :=
  do j <- read jid;
  let j' := apply_vals j vals in
  match (if existsb writes_retry_count vals then _check_retry_count j' else Ok tt) with
  | Raise e => raise e
  | Ok _ => fun w => (Ok tt, with_jobs (<[jid := j']> (jobs w)) w)
  end.

(** ** The job engine: [submit_job], [process_job], [retry_job],
    [cancel_job], [mark_completed], [mark_failed] *)

Definition nl : string := String (ascii_of_nat 10) EmptyString.

(** Truth value of a [Binary] field: unset and [b''] are falsy. *)
Definition data_truthy (d : option (list Byte.byte)) : bool :=
  match d with
  | Some (_ :: _) => true
  | _ => false
  end.

Definition format_str (f : DataFormat) : string :=
  match f with
  | pdf => "pdf"
  | html => "html"
  | escpos => "escpos"
  | zpl => "zpl"
  end.

Definition submit_job (jid : Z) : M Z :=
  do j <- read jid;
  if (negb (data_truthy (data j)) && negb (bool_decide (is_Some (template_id j))))%bool then
    raise (ValidationError "Print job must have either data or a template")
  else if negb (bool_decide (is_Some (printer_id j))) then
    raise (ValidationError "Print job must have a printer assigned")
  else
    do p <- get_printer j;
    if negb (pr_active p) then
      do t <- now;
      run write jid [F_submitted_date t; F_state queued;
                     F_error_message (Some ("Printer " +:+ pr_name p +:+
                        " is offline. Job queued for later processing."))];
      ret jid
    else
      do t <- now;
      run write jid [F_submitted_date t; F_state queued];
      ret jid.

(** The [if]/[elif] chain over the four capability flags. *)
Definition format_supported (f : DataFormat) (p : option Printer) : bool :=
  match p with
  | None => false
  | Some p =>
      if (bool_decide (f = pdf) && supports_pdf p)%bool then true
      else if (bool_decide (f = html) && supports_html p)%bool then true
      else if (bool_decide (f = escpos) && supports_escpos p)%bool then true
      else if (bool_decide (f = zpl) && supports_zpl p)%bool then true
      else false
  end.

Definition transient_keywords : list string :=
  ["timeout"; "connection"; "network"; "offline"; "unavailable"; "busy"]%string.

Definition _is_transient_error (error_message : string) : bool :=
  let error_lower := PyStr.lower error_message in
  existsb (fun keyword => PyStr.contains keyword error_lower) transient_keywords.

Definition process_job (jid : Z) : M bool :=
  do j <- read jid;
  if negb (bool_decide (state j = queued \/ state j = failed)) then ret false
  else
    try_except
      (run write jid [F_state printing];
       do p <- get_printer j;
       if negb (pr_active p) then
         raise (ValidationError ("Printer " +:+ pr_name p +:+ " is not active"))
       else if negb (format_supported (data_format j) p) then
         raise (ValidationError ("Printer " +:+ pr_name p +:+ " does not support format "
                                 +:+ format_str (data_format j)))
       else ret true)
      (fun e =>
         let error_msg := exn_str e in
         let is_transient := _is_transient_error error_msg in
         if is_transient then
           run write jid [F_state failed; F_error_message (Some error_msg)];
           ret false
         else
           do t <- now;
           run write jid [F_state failed; F_error_message (Some error_msg);
                          F_completed_date t];
           ret false).

(** [_notify_admin_failure]: the call is logged; the mail path is entered
    only when [qz_tray.email_notifications_enabled] is set.  Every failure
    past that gate is caught and logged by the source, so the method
    always returns. *)
Definition _notify_admin_failure (jid : Z) : M unit :=
  fun w =>
    let calls := admin_calls w ++ [jid] in
    let mails := if email_enabled (config w) then mail_stage w ++ [jid] else mail_stage w in
    (Ok tt, mkWorld (jobs w) (printers w) (config w) (clock w) (uid w) (next_job_id w)
                    (next_printer_id w) (job_sequence w) calls mails).

(** The delay computed (and not used) by [retry_job]. *)
Definition backoff_delay (retry_delay new_retry_count : Z) : Z :=
  retry_delay * 2 ^ (new_retry_count - 1).

Definition retry_job (jid : Z) : M bool :=
  do j <- read jid;
  if negb (bool_decide (state j = failed)) then ret false
  else
    do c <- get_config;
    if negb (retry_enabled c) then ret false
    else if max_retries c <=? retry_count j then
      do t <- now;
      match error_message j with
      | None => raise (TypeError "unsupported operand type(s) for +: 'bool' and 'str'")
      | Some m =>
          run write jid [F_completed_date t;
                         F_error_message (Some (m +:+ nl +:+ "Maximum retry count exceeded"))];
          run _notify_admin_failure jid;
          ret false
      end
    else if negb (_is_transient_error (default EmptyString (error_message j))) then
      do t <- now;
      run write jid [F_completed_date t];
      ret false
    else
      let new_retry_count := retry_count j + 1 in
      let _ := backoff_delay (retry_delay c) new_retry_count in
      match error_message j with
      | None => raise (TypeError "unsupported operand type(s) for +: 'bool' and 'str'")
      | Some m =>
          do t <- now;
          run write jid [F_state queued; F_retry_count new_retry_count;
                         F_error_message (Some (m +:+ nl +:+ "Retry attempt " +:+
                            PyStr.of_Z new_retry_count +:+ " at " +:+ t))];
          process_job jid
      end.

Definition cancel_job (jid : Z) : M bool :=
  do j <- read jid;
  if bool_decide (state j = completed \/ state j = cancelled) then ret false
  else
    do t <- now;
    run write jid [F_state cancelled; F_completed_date t];
    ret true.

Definition mark_completed (jid : Z) : M bool :=
  do t <- now;
  run write jid [F_state completed; F_completed_date t; F_error_message None];
  ret true.

Definition mark_failed (jid : Z) (error_message : string) : M bool :=
  run write jid [F_state failed; F_error_message (Some error_message)];
  run (if _is_transient_error error_message then
         run retry_job jid; ret tt
       else
         do t <- now;
         run write jid [F_completed_date t];
         _notify_admin_failure jid);
  ret true.

(** ** Printer selection: [get_default_printer], [_select_best_printer] *)

(** Truth value of an optional id argument: [None], [False] and [0] are falsy. *)
Definition truthy_id (o : option Z) : bool :=
  match o with
  | Some z => negb (z =? 0)
  | None => false
  end.

(** Insertion into a list sorted by [le]; an element goes before the first
    one it may precede, so that [sort_by] keeps the order of ties. *)
Fixpoint insert_by {A} (le : A -> A -> bool) (x : A) (l : list A) : list A :=
  match l with
  | [] => [x]
  | y :: r => if le x y then x :: l else y :: insert_by le x r
  end.

(** A stable sort, as Python's [sort] and [sorted] are. *)
Definition sort_by {A} (le : A -> A -> bool) (l : list A) : list A :=
  foldr (insert_by le) [] l.

(** [_order = 'priority desc, name'] of the printer model; records equal on
    both keys are listed by id. *)
Definition printer_order (a b : Z * Printer) : bool :=
  if p_priority (snd b) <? p_priority (snd a) then true
  else if p_priority (snd a) <? p_priority (snd b) then false
  else match String.compare (p_name (snd a)) (p_name (snd b)) with
       | Lt => true
       | Gt => false
       | Eq => fst a <=? fst b
       end.

(** The search domain built by [get_default_printer]. *)
Definition in_domain (ptype : option PrinterType) (location : option Z)
    (dept : option string) (p : Printer) : bool :=
  (active p
   && match ptype with
      | Some t => bool_decide (printer_type p = t)
      | None => true
      end
   && (if truthy_id location
       then bool_decide (location_id p = location) || bool_decide (location_id p = None)
       else true)
   && (if PyStr.truthy dept
       then bool_decide (department p = dept) || bool_decide (department p = None)
       else true))%bool.

(** [self.search(domain)] on printers. *)
Definition search_printers (w : World) (ptype : option PrinterType)
    (location : option Z) (dept : option string) : list (Z * Printer) :=
  sort_by printer_order
    (filter (fun r => in_domain ptype location dept (snd r) = true)
            (map_to_list (printers w))).

(** The score computed in the loop of [_select_best_printer]. *)
Definition printer_score (location : option Z) (dept : option string) (p : Printer) : Z :=
  let score := 0 in
  let score :=
    if (truthy_id location && bool_decide (location_id p = location))%bool then score + 1000
    else if bool_decide (location_id p = None) then score + 100
    else score in
  let score :=
    if (PyStr.truthy dept && bool_decide (department p = dept))%bool then score + 500
    else if negb (PyStr.truthy (department p)) then score + 50
    else score in
  let score := if is_default p then score + 10000 else score in
  score + p_priority p.

Definition _select_best_printer (candidates : list (Z * Printer))
    (location : option Z) (dept : option string) : option (Z * Printer) :=
  match candidates with
  | [] => None
  | [p] => Some p
  | _ =>
      let scored_printers :=
        map (fun p => (printer_score location dept (snd p), p)) candidates in
      let scored_printers :=
        sort_by (fun a b => fst b <=? fst a) scored_printers in
      match scored_printers with
      | best :: _ => Some (snd best)
      | [] => None
      end
  end.

Definition get_default_printer (w : World) (ptype : option PrinterType)
    (location : option Z) (dept : option string) : option (Z * Printer) :=
  let found := search_printers w ptype location dept in
  match found with
  | [] => None
  | _ => _select_best_printer found location dept
  end.

(** ** Creating jobs: [_get_default_name] and the [create] override *)

(** The dict passed to [create].  Required fields are plain, the others
    are optional and take the defaults of the field declarations. *)
Record JobVals := mkJobVals {
  v_name : option string;
  v_document_type : string;
  v_printer_id : Z;
  v_user_id : option Z;
  v_state : option State;
  v_data : option (list Byte.byte);
  v_data_format : DataFormat;
  v_template_id : option Z;
  v_template_data : option string;
  v_copies : option Z;
  v_priority : option Z;
  v_error_message : option string;
  v_retry_count : option Z;
  v_parent_model : option string;
  v_parent_id : option Z
}.

Fixpoint mapM {A B} (f : A -> M B) (l : list A) : M (list B) :=
  match l with
  | [] => ret []
  | x :: r => do y <- f x; do ys <- mapM f r; ret (y :: ys)
  end.

(** A [for] loop run for its effects. *)
Fixpoint forM {A} (l : list A) (f : A -> M unit) : M unit :=
  match l with
  | [] => ret tt
  | x :: r => run f x; forM r f
  end.

(** [self.env['ir.sequence'].next_by_code('qz.print.job')]: the next value
    of the sequence, or [False] when no sequence has that code. *)
Definition next_by_code : M (option string) :=
  fun w =>
    match job_sequence w with
    | None => (Ok None, w)
    | Some s =>
        (Ok (Some (seq_render s (seq_next s))),
         mkWorld (jobs w) (printers w) (config w) (clock w) (uid w) (next_job_id w)
                 (next_printer_id w) (Some (mkSequence (seq_render s) (S (seq_next s))))
                 (admin_calls w) (mail_stage w))
    end.

Definition _get_default_name : M string :=
  do sequence <- next_by_code;
  ret ("PrintJob-" +:+ (if PyStr.truthy sequence then PyStr.show sequence else "New")).

(** The record [create] builds from [vals] and the field defaults. *)
Definition new_job (v : JobVals) (nm : option string) (user : Z) : Job :=
  mkJob nm (v_document_type v) (Some (v_printer_id v)) user
        (default draft (v_state v)) (v_data v) (v_data_format v)
        (v_template_id v) (v_template_data v)
        (default 1 (v_copies v)) (default 5 (v_priority v))
        (v_error_message v) (default 0 (v_retry_count v))
        None None (v_parent_model v) (v_parent_id v).

(** The three constraints, run in turn on a new record. *)
Definition check_constraints (j : Job) : Result unit :=
  match _check_copies j with
  | Raise e => Raise e
  | Ok _ =>
      match _check_priority j with
      | Raise e => Raise e
      | Ok _ => _check_retry_count j
      end
  end.

(** [super().create] for one dict: defaults, the foreign key of
    [printer_id], the constraints, then the insertion under a fresh id. *)
Definition base_create (v : JobVals) : M Z :=
  do nm <- match v_name v with
           | Some n => ret n
           | None => _get_default_name
           end;
  do w <- get_world;
  let j := new_job v (Some nm) (default (uid w) (v_user_id v)) in
  if negb (bool_decide (is_Some (printers w !! v_printer_id v))) then
    raise (IntegrityError "insert or update on table qz_print_job violates foreign key constraint")
  else
    match check_constraints j with
    | Raise e => raise e
    | Ok _ =>
        fun w =>
          (Ok (next_job_id w),
           mkWorld (<[next_job_id w := j]> (jobs w)) (printers w) (config w) (clock w)
                   (uid w) (next_job_id w + 1) (next_printer_id w) (job_sequence w)
                   (admin_calls w) (mail_stage w))
    end.

(** The loop of the [create] override on one record. *)
Definition enhance_name (rid : Z) : M unit :=
  do record <- read rid;
  if (PyStr.truthy (name record)
      && PyStr.startswith (PyStr.show (name record)) "PrintJob-")%bool then
    do p <- get_printer record;
    let printer_name := match p with Some p => p_name p | None => "Unknown" end in
    let doc_type :=
      if PyStr.truthy (Some (document_type record)) then document_type record
      else "Document" in
    match PyStr.split "-" (PyStr.show (name record)) !! 1%nat with
    | None => raise (IndexError "list index out of range")
    | Some sequence_part =>
        write rid [F_name (doc_type +:+ "-" +:+ printer_name +:+ "-" +:+ sequence_part)]
    end
  else ret tt.

Definition create (vals_list : list JobVals) : M (list Z) :=
  do records <- mapM base_create vals_list;
  run forM records enhance_name;
  ret records.

(** [self.create(vals)] with one dict: the record is inserted, then named
    by the loop of the override. *)
Definition create_one (vals : JobVals) : M Z :=
  do record <- base_create vals;
  run enhance_name record;
  ret record.

(** ** Creating printers *)

(** Characters removed by [str.strip()]. *)
Definition is_space (c : ascii) : bool :=
  let n := nat_of_ascii c in
  ((Nat.leb 9 n && Nat.leb n 13) || (Nat.leb 28 n && Nat.leb n 32))%bool.

(** [not s.strip()]. *)
Fixpoint blank (s : string) : bool :=
  match s with
  | EmptyString => true
  | String c r => (is_space c && blank r)%bool
  end.

(** [_check_name_not_empty] *)
Definition _check_name_not_empty (p : Printer) : Result unit :=
  if (negb (PyStr.truthy (Some (p_name p))) || blank (p_name p))%bool then
    Raise (ValidationError "Printer name cannot be empty")
  else Ok tt.

(** [_check_priority] of the printer model. *)
Definition _check_printer_priority (p : Printer) : Result unit :=
  if p_priority p <? 0 then Raise (ValidationError "Priority cannot be negative")
  else Ok tt.

(** [name_unique] of [_sql_constraints]: is the name taken by a row? *)
Definition name_taken (w : World) (n : string) : bool :=
  existsb (fun r => String.eqb (p_name (snd r)) n) (map_to_list (printers w)).

(** [create] on the printer model: the [UNIQUE(name)] constraint of the
    table, then the two Python constraints. *)
Definition create_printer (p : Printer) : M Z :=
  do w <- get_world;
  if name_taken w (p_name p) then raise (IntegrityError "Printer name must be unique!")
  else
    match _check_name_not_empty p with
    | Raise e => raise e
    | Ok _ =>
        match _check_printer_priority p with
        | Raise e => raise e
        | Ok _ =>
            fun w =>
              (Ok (next_printer_id w),
               mkWorld (jobs w) (<[next_printer_id w := p]> (printers w)) (config w)
                       (clock w) (uid w) (next_job_id w) (next_printer_id w + 1)
                       (job_sequence w) (admin_calls w) (mail_stage w))
        end
    end.

(** ** Batching: [batch_label_jobs] *)

Definition label_types : list string := ["label"; "barcode"; "product_label"]%string.

Definition is_label_type (j : Job) : bool :=
  existsb (String.eqb (document_type j)) label_types.

(** The records of a recordset, in its order. *)
Definition read_all (ids : list Z) : M (list (Z * Job)) :=
  mapM (fun i => do j <- read i; ret (i, j)) ids.

(** Union of records in order of first occurrence. *)
Fixpoint uniq (seen : list Z) (l : list Z) : list Z :=
  match l with
  | [] => []
  | x :: r => if bool_decide (x ∈ seen) then uniq seen r else x :: uniq (x :: seen) r
  end.

(** [label_jobs.mapped('printer_id')] *)
Definition mapped_printer_id (rs : list (Z * Job)) : list Z :=
  uniq [] (omap (fun r => printer_id (snd r)) rs).

(** [label_jobs.sorted(key=lambda j: j.submitted_date)]: Python orders
    [False] with [False] and dates with dates, and raises when it has to
    compare one with the other. *)
Definition sorted_by_submitted_date (rs : list (Z * Job)) : Result (list (Z * Job)) :=
  if forallb (fun r => bool_decide (submitted_date (snd r) = None)) rs then Ok rs
  else if forallb (fun r => bool_decide (is_Some (submitted_date (snd r)))) rs then
    Ok (sort_by (fun a b => String.leb (PyStr.show (submitted_date (snd a)))
                                        (PyStr.show (submitted_date (snd b)))) rs)
  else Raise (TypeError "'<' not supported between instances of 'datetime.datetime' and 'bool'").

(** The ESC/POS paper-cut command [b'\x1D\x56\x00']. *)
Definition cut_paper : list Byte.byte := [Byte.x1d; Byte.x56; Byte.x00].

(** The loop that builds [combined_data]. *)
Definition combine_data (batch_format : DataFormat) (rs : list (Z * Job)) : list Byte.byte :=
  fold_left
    (fun combined_data r =>
       if data_truthy (data (snd r)) then
         combined_data ++ default [] (data (snd r)) ++
           match batch_format with
           | zpl => [Byte.x0a]
           | escpos => cut_paper
           | _ => []
           end
       else combined_data)
    rs [].

(** [max(label_jobs.mapped('priority'))] on a non-empty recordset. *)
Definition max_priority (first : Job) (rest : list (Z * Job)) : Z :=
  fold_left (fun m r => Z.max m (priority (snd r))) rest (priority first).

Definition batch_label_jobs (label_jobs : list Z) : M (list Z) :=
  match label_jobs with
  | [] => raise (ValidationError "No label jobs provided for batching")
  | [_] => ret label_jobs
  | _ =>
      do rs <- read_all label_jobs;
      do w <- get_world;
      let batch_printers := mapped_printer_id rs in
      if (1 <? length batch_printers)%nat then
        raise (ValidationError ("Cannot batch labels for different printers: " +:+
                 PyStr.join ", " (map (fun p => pr_name (printers w !! p)) batch_printers)))
      else
        match batch_printers with
        | [] => raise (IndexError "tuple index out of range")
        | printer :: _ =>
            let rs := filter (fun r => is_label_type (snd r) = true) rs in
            match rs with
            | [] => raise (ValidationError "No valid label jobs to batch")
            | (first_id, first) :: rest =>
                let batch_format := data_format first in
                match sorted_by_submitted_date rs with
                | Raise e => raise e
                | Ok sorted =>
                    let combined_data := combine_data batch_format sorted in
                    do batch_job <- create_one
                      (mkJobVals None "label_batch" printer (Some (user_id first)) None
                                 (Some combined_data) batch_format None None
                                 (Some 1) (Some (max_priority first rest))
                                 None None (Some "qz.print.job"%string) (Some first_id));
                    do b <- read batch_job;
                    run forM rs (fun r =>
                          do t <- now;
                          write (fst r)
                            [F_state cancelled;
                             F_error_message
                               (Some ("Combined into batch job " +:+ PyStr.show (name b)));
                             F_completed_date t]);
                    ret [batch_job]
                end
            end
        end
  end.

(** ** Records and worlds named in the statements *)

(** The world after one record was rewritten. *)
Definition upd (jid : Z) (j : Job) (w : World) : World :=
  with_jobs (<[jid := j]> (jobs w)) w.

(** What [submit_job] checks before it queues a job. *)
Definition submittable (j : Job) : Prop :=
  (data_truthy (data j) = true \/ is_Some (template_id j)) /\ is_Some (printer_id j).

(** The text of the [ValidationError] raised inside [process_job]. *)
Definition process_error (w : World) (j : Job) : string :=
  if pr_active (printer_of w j) then
    "Printer " +:+ pr_name (printer_of w j) +:+ " does not support format "
      +:+ format_str (data_format j)
  else "Printer " +:+ pr_name (printer_of w j) +:+ " is not active".

(** The record left by the [except] branch of [process_job]. *)
Definition process_failure (w : World) (j : Job) : Job :=
  if _is_transient_error (process_error w j) then
    apply_vals j [F_state failed; F_error_message (Some (process_error w j))]
  else
    apply_vals j [F_state failed; F_error_message (Some (process_error w j));
                  F_completed_date (clock w)].

(** The record left by [retry_job] when the retry budget is spent. *)
Definition exhausted (w : World) (j : Job) (m : string) : Job :=
  apply_vals j [F_completed_date (clock w);
                F_error_message (Some (m +:+ nl +:+ "Maximum retry count exceeded"))].

(** The record re-queued by [retry_job] before it calls [process_job]. *)
Definition requeued (w : World) (j : Job) (m : string) : Job :=
  apply_vals j [F_state queued; F_retry_count (retry_count j + 1);
                F_error_message (Some (m +:+ nl +:+ "Retry attempt " +:+
                   PyStr.of_Z (retry_count j + 1) +:+ " at " +:+ clock w))].

(** ** A job that keeps failing *)

(** The failure report of the print sink as [mark_failed] records it (its
    first statement), before any retry is attempted. *)
Definition record_failure (jid : Z) (error_message : string) : M unit :=
  write jid [F_state failed; F_error_message (Some error_message)].

(** [retry_job] called once per reported failure and once more at the end:
    [length failures + 1] calls, the job failing again with the next
    message of [failures] after each of the first ones. *)
Fixpoint retry_rounds (jid : Z) (failures : list string) : M bool :=
  match failures with
  | [] => retry_job jid
  | msg :: later =>
      run retry_job jid;
      run record_failure jid msg;
      retry_rounds jid later
  end.

(** Is the printer of the job online and able to print its format? *)
Definition printer_ready (w : World) (j : Job) : bool :=
  (pr_active (printer_of w j) && format_supported (data_format j) (printer_of w j))%bool.

(** ** Sequences that make job names unique *)

(** No ['-'] occurs in the text. *)
Fixpoint no_dash (s : string) : bool :=
  match s with
  | EmptyString => true
  | String c r => (negb (Ascii.eqb c "-") && no_dash r)%bool
  end.

(** The values of the sequence are not empty, hold no ['-'] and do not
    repeat. *)
Definition sequence_ok (s : Sequence) : Prop :=
  (forall n, seq_render s n <> EmptyString)
  /\ (forall n, no_dash (seq_render s n) = true)
  /\ (forall n k, seq_render s n = seq_render s k -> n = k).

(** The name ends in a value the sequence has already handed out. *)
Definition sequenced_name (s : Sequence) (nm : option string) : Prop :=
  exists a k, (k < seq_next s)%nat /\ nm = Some (a +:+ "-" +:+ seq_render s k).

(** A database whose jobs were all named by [create] from one well-behaved
    sequence: ids lie below the next id, every name ends in a used
    sequence value and no two jobs share a name. *)
Definition jobs_sequenced (w : World) : Prop :=
  exists s,
    job_sequence w = Some s
    /\ sequence_ok s
    /\ (forall i j, jobs w !! i = Some j -> i < next_job_id w /\ sequenced_name s (name j))
    /\ (forall i1 i2 j1 j2,
          i1 <> i2 -> jobs w !! i1 = Some j1 -> jobs w !! i2 = Some j2 -> name j1 <> name j2).

(** The constraints hold of the record [create] would build. *)
Definition vals_valid (v : JobVals) : Prop :=
  1 <= default 1 (v_copies v) /\ 0 <= default 5 (v_priority v)
  /\ 0 <= default 0 (v_retry_count v).

(** [record.document_type or 'Document'] *)
Definition doc_type_of (document_type : string) : string :=
  if PyStr.truthy (Some document_type) then document_type else "Document".

(** ** The record and the database left by [create] *)

(** The sequence value [_get_default_name] puts behind ['PrintJob-']. *)
Definition next_value (w : World) : string :=
  match job_sequence w with
  | Some s =>
      if PyStr.truthy (Some (seq_render s (seq_next s))) then seq_render s (seq_next s)
      else "New"
  | None => "New"
  end.

Definition advance_sequence (sq : option Sequence) : option Sequence :=
  match sq with
  | Some s => Some (mkSequence (seq_render s) (S (seq_next s)))
  | None => None
  end.

(** [name.split('-')[1]] of the default name built from [x]. *)
Definition sequence_part_of (x : string) : string :=
  default EmptyString (PyStr.split "-" ("PrintJob-" +:+ x) !! 1%nat).

(** The name the [create] override gives a record with a default name. *)
Definition created_name (w : World) (v : JobVals) : string :=
  doc_type_of (v_document_type v) +:+ "-" +:+
  match printers w !! v_printer_id v with
  | Some p => p_name p
  | None => "Unknown"
  end +:+ "-" +:+ sequence_part_of (next_value w).

Definition created_job (w : World) (v : JobVals) : Job :=
  new_job v (Some (created_name w v)) (default (uid w) (v_user_id v)).

Definition created_world (w : World) (v : JobVals) : World :=
  mkWorld (<[next_job_id w := created_job w v]> (jobs w)) (printers w) (config w)
          (clock w) (uid w) (next_job_id w + 1) (next_printer_id w)
          (advance_sequence (job_sequence w)) (admin_calls w) (mail_stage w).

(** ** The writes of [batch_label_jobs] *)

(** The dict written to every constituent of a batch. *)
Definition cancel_into (batch_name : option string) (t : Datetime) : list FieldVal :=
  [F_state cancelled;
   F_error_message (Some ("Combined into batch job " +:+ PyStr.show batch_name));
   F_completed_date t].

(** The dict passed to [create] for the batch job. *)
Definition batch_vals (printer : Z) (first_id : Z) (first : Job) (rest : list (Z * Job))
    (combined_data : list Byte.byte) : JobVals :=
  mkJobVals None "label_batch" printer (Some (user_id first)) None
            (Some combined_data) (data_format first) None None
            (Some 1) (Some (max_priority first rest))
            None None (Some "qz.print.job"%string) (Some first_id).

(** ** Recordsets fit for batching *)

(** Every record exists, is of a label type, sits on printer [p] and
    satisfies the priority constraint. *)
Definition batchable (w : World) (p : Z) (ids : list Z) : Prop :=
  Forall (fun i => exists j, jobs w !! i = Some j /\ is_label_type j = true
                             /\ printer_id j = Some p /\ 0 <= priority j) ids.

(** The records were all submitted, or none was. *)
Definition dates_uniform (w : World) (ids : list Z) : Prop :=
  Forall (fun i => exists j, jobs w !! i = Some j /\ submitted_date j = None) ids
  \/ Forall (fun i => exists j, jobs w !! i = Some j /\ is_Some (submitted_date j)) ids.

(** Ids are handed out in increasing order. *)
Definition ids_below_next (w : World) : Prop :=
  forall i, is_Some (jobs w !! i) -> i < next_job_id w.

(** ** Printers coming online: the [write] override of [qz.printer] and
    [_process_queued_jobs_on_activation] *)

Definition with_printers (ps : gmap Z Printer) (w : World) : World :=
  mkWorld (jobs w) ps (config w) (clock w) (uid w) (next_job_id w)
          (next_printer_id w) (job_sequence w) (admin_calls w) (mail_stage w).

(** One entry of the dict passed to [write] on a printer. *)
Inductive PrinterVal :=
| P_active (b : bool)
| P_priority (n : Z)
| P_is_default (b : bool).

Definition set_printer_field (p : Printer) (v : PrinterVal) : Printer :=
  match v with
  | P_active b =>
      mkPrinter (p_name p) (printer_type p) (location_id p) (department p) (is_default p)
                (p_priority p) b (supports_pdf p) (supports_html p) (supports_escpos p)
                (supports_zpl p)
  | P_priority n =>
      mkPrinter (p_name p) (printer_type p) (location_id p) (department p) (is_default p)
                n (active p) (supports_pdf p) (supports_html p) (supports_escpos p)
                (supports_zpl p)
  | P_is_default b =>
      mkPrinter (p_name p) (printer_type p) (location_id p) (department p) b
                (p_priority p) (active p) (supports_pdf p) (supports_html p)
                (supports_escpos p) (supports_zpl p)
  end.

Definition apply_printer_vals (p : Printer) (vals : list PrinterVal) : Printer :=
  fold_left set_printer_field vals p.

(** ['active' in vals and vals['active']]; a dict holds one entry per key,
    a list that repeats the key is read as Python reads a dict literal:
    the last entry stands. *)
Definition vals_activate (vals : list PrinterVal) : bool :=
  match last (omap (fun v => match v with P_active b => Some b | _ => None end) vals) with
  | Some b => b
  | None => false
  end.

Definition writes_priority (v : PrinterVal) : bool :=
  match v with P_priority _ => true | _ => false end.

Definition read_printer (pid : Z) : M Printer :=
  fun w => match printers w !! pid with
           | Some p => (Ok p, w)
           | None => (Raise (MissingError "Record does not exist or has been deleted."), w)
           end.

(** [super().write(vals)] on one printer record. *)
Definition base_write_printer (pid : Z) (vals : list PrinterVal) : M unit :=
  do p <- read_printer pid;
  let p' := apply_printer_vals p vals in
  match (if existsb writes_priority vals then _check_printer_priority p' else Ok tt) with
  | Raise e => raise e
  | Ok _ => fun w => (Ok tt, with_printers (<[pid := p']> (printers w)) w)
  end.

(** [order='submitted_date asc, priority desc, id asc']: may [a] stand
    before [b]?  In ascending order the database lists unset dates last. *)
Definition queue_order (a b : Z * Job) : bool :=
  let tie :=
    if priority (snd b) <? priority (snd a) then true
    else if priority (snd a) <? priority (snd b) then false
    else fst a <=? fst b in
  match submitted_date (snd a), submitted_date (snd b) with
  | Some x, Some y =>
      match String.compare x y with
      | Lt => true
      | Gt => false
      | Eq => tie
      end
  | Some _, None => true
  | None, Some _ => false
  | None, None => tie
  end.

(** [search([('printer_id', '=', pid), ('state', '=', 'queued')], order=...)] *)
Definition search_queued_jobs (w : World) (pid : Z) : list Z :=
  map fst
    (sort_by queue_order
       (filter (fun r => printer_id (snd r) = Some pid /\ state (snd r) = queued)
               (map_to_list (jobs w)))).

(** The loop of [_process_queued_jobs_on_activation], with its two
    counters. *)
Fixpoint drain_jobs (queued_jobs : list Z) (processed_count failed_count : Z) : M (Z * Z) :=
  match queued_jobs with
  | [] => ret (processed_count, failed_count)
  | job :: later =>
      do counts <-
        try_except
          (do success <- process_job job;
           if success then ret (processed_count + 1, failed_count)
           else ret (processed_count, failed_count + 1))
          (fun e => ret (processed_count, failed_count + 1));
      drain_jobs later (fst counts) (snd counts)
  end.

Definition _process_queued_jobs_on_activation (pid : Z) : M unit :=
  do w <- get_world;
  let queued_jobs := search_queued_jobs w pid in
  match queued_jobs with
  | [] => ret tt
  | _ => run drain_jobs queued_jobs 0 0; ret tt
  end.

(** The first loop of the override: the printers of [self] that go from
    inactive to active. *)
Fixpoint printers_coming_online (self : list Z) (vals : list PrinterVal) : M (list Z) :=
  match self with
  | [] => ret []
  | pid :: later =>
      do p <- read_printer pid;
      do found <- printers_coming_online later vals;
      if (vals_activate vals && negb (active p))%bool then ret (pid :: found)
      else ret found
  end.

(** [write] of [qz.printer]. *)
Definition printer_write (self : list Z) (vals : list PrinterVal) : M bool :=
  do printers_to_process <- printers_coming_online self vals;
  run forM self (fun pid => base_write_printer pid vals);
  run forM (uniq [] printers_to_process) _process_queued_jobs_on_activation;
  ret true.

(** What the drain leaves of a queued job: printing when the printer can
    take it, failed otherwise. *)
Definition drained (w : World) (j : Job) : Job :=
  if printer_ready w j then set_field j (F_state printing) else process_failure w j.

(** ** The queue processor: [process_queued_jobs] *)

(** [order='priority desc, id'] *)
Definition active_printer_order (a b : Z * Printer) : bool :=
  if p_priority (snd b) <? p_priority (snd a) then true
  else if p_priority (snd a) <? p_priority (snd b) then false
  else fst a <=? fst b.

(** [self.env['qz.printer'].search([('active', '=', True)], order=...)] *)
Definition search_active_printers (w : World) : list Z :=
  map fst
    (sort_by active_printer_order
       (filter (fun r => active (snd r) = true) (map_to_list (printers w)))).

(** The dict returned by [process_queued_jobs]; the key ['printers'] is
    absent from the dict returned when no printer is active. *)
Record QueueSummary := mkQueueSummary {
  s_processed : Z;
  s_failed : Z;
  s_printers : option Z;
  s_message : string
}.

(** [a - b] on recordsets. *)
Definition recordset_diff (a b : list Z) : list Z :=
  filter (fun i => i ∉ b) a.

(** [a | b] on recordsets. *)
Definition recordset_union (a b : list Z) : list Z :=
  a ++ filter (fun i => i ∉ a) b.

(** The inner loop: one job after the other, with the two counters. *)
Fixpoint process_each (queued_jobs : list Z) (processed_count failed_count : Z) : M (Z * Z) :=
  match queued_jobs with
  | [] => ret (processed_count, failed_count)
  | job :: later =>
      do counts <-
        try_except
          (do j <- read job;
           do p <- get_printer j;
           if negb (pr_active p) then ret (processed_count, failed_count)
           else
             do success <- process_job job;
             if success then ret (processed_count + 1, failed_count)
             else ret (processed_count, failed_count + 1))
          (fun e =>
             do j <- read job;
             let error_msg :=
               "Error processing job " +:+ PyStr.show (name j) +:+ ": " +:+ exn_str e in
             do t <- now;
             run write job [F_state failed; F_error_message (Some error_msg);
                            F_completed_date t];
             ret (processed_count, failed_count + 1));
      process_each later (fst counts) (snd counts)
  end.

(** The body of the loop over the active printers. *)
Definition process_printer_queue (printer : Z) (processed_count failed_count : Z)
    : M (Z * Z) :=
  do w <- get_world;
  let queued_jobs := search_queued_jobs w printer in
  match queued_jobs with
  | [] => ret (processed_count, failed_count)
  | _ =>
      do p <- read_printer printer;
      do queued_jobs <-
        (if bool_decide (printer_type p = label) then
           do rs <- read_all queued_jobs;
           let label_jobs := map fst (filter (fun r => is_label_type (snd r) = true) rs) in
           if (1 <? length label_jobs)%nat then
             try_except
               (do batch_job <- batch_label_jobs label_jobs;
                ret (recordset_union (recordset_diff queued_jobs label_jobs) batch_job))
               (fun e => ret queued_jobs)
           else ret queued_jobs
         else ret queued_jobs);
      process_each queued_jobs processed_count failed_count
  end.

Fixpoint process_printers (active_printers : list Z) (processed_count failed_count : Z)
    : M (Z * Z) :=
  match active_printers with
  | [] => ret (processed_count, failed_count)
  | printer :: later =>
      do counts <- process_printer_queue printer processed_count failed_count;
      process_printers later (fst counts) (snd counts)
  end.

Definition process_queued_jobs : M QueueSummary :=
  do w <- get_world;
  let active_printers := search_active_printers w in
  match active_printers with
  | [] => ret (mkQueueSummary 0 0 None "No active printers available")
  | _ =>
      do counts <- process_printers active_printers 0 0;
      let result_message :=
        "Processed " +:+ PyStr.of_Z (fst counts) +:+ " job(s), " +:+
        PyStr.of_Z (snd counts) +:+ " failed for " +:+
        PyStr.of_Z (Z.of_nat (length active_printers)) +:+ " active printer(s)" in
      ret (mkQueueSummary (fst counts) (snd counts)
                          (Some (Z.of_nat (length active_printers))) result_message)
  end.

(** ** What a run of the queue processor may write *)

(** A job queued on an active printer. *)
Definition queued_on_active (w : World) (k : Z) : Prop :=
  exists j pid p,
    jobs w !! k = Some j /\ state j = queued /\ printer_id j = Some pid
    /\ printers w !! pid = Some p /\ active p = true.

(** The ids a run started in [w0] may write to: the jobs queued on an
    active printer, and ids handed out after the start. *)
Definition may_write (w0 : World) (k : Z) : Prop :=
  queued_on_active w0 k \/ next_job_id w0 <= k.

(** The database during a run started in [w0]: the printers are those of
    [w0] and every job outside [may_write w0] is as it was. *)
Definition run_from (w0 w : World) : Prop :=
  printers w = printers w0
  /\ next_job_id w0 <= next_job_id w
  /\ ids_below_next w
  /\ forall k, may_write w0 k \/ jobs w !! k = jobs w0 !! k.

(** A computation that stays within the run, and whose results satisfy
    [post]. *)
Definition within_run (w0 : World) {A} (m : M A) (post : A -> Prop) : Prop :=
  forall w r w',
    run_from w0 w -> m w = (r, w') ->
    run_from w0 w' /\ forall a, r = Ok a -> post a.

(** ** What a run of the queue processor does when nothing is batched *)

(** The job [i] can be printed at once: its printer is active and supports
    its format. *)
Definition job_ready (w : World) (i : Z) : bool :=
  match jobs w !! i with
  | Some j => printer_ready w j
  | None => false
  end.

(** How many of the ids in [l] satisfy [f]. *)
Fixpoint count_jobs (f : Z -> bool) (l : list Z) : Z :=
  match l with
  | [] => 0
  | i :: r => (if f i then 1 else 0) + count_jobs f r
  end.

(** The jobs the run finds queued, printer after printer. *)
Definition queued_active_ids (w : World) : list Z :=
  flat_map (search_queued_jobs w) (search_active_printers w).

(** The job is queued on one of the printers [l]. *)
Definition queued_in (l : list Z) (j : Job) : bool :=
  (bool_decide (state j = queued)
   && match printer_id j with
      | Some pid => bool_decide (pid ∈ l)
      | None => false
      end)%bool.

(** What is left of a job once the queues of the printers [l] are
    drained. *)
Definition drain_on (l : list Z) (w : World) (j : Job) : Job :=
  if queued_in l j then drained w j else j.

(** A label job queued on the printer [pid]. *)
Definition label_job_queued_on (w : World) (pid i : Z) : Prop :=
  exists j, jobs w !! i = Some j /\ printer_id j = Some pid /\ state j = queued
            /\ is_label_type j = true.

(** No label printer has two label jobs in its queue. *)
Definition nothing_to_batch (w : World) : Prop :=
  forall pid p i1 i2,
    printers w !! pid = Some p -> printer_type p = label ->
    label_job_queued_on w pid i1 -> label_job_queued_on w pid i2 -> i1 = i2.

(** ** The print service: [qz.print.service] *)

(** The [printer] argument of the service methods: an id or a name. *)
Inductive PrinterRef :=
| ById (i : Z)
| ByName (n : string).

(** The double quote character, written inside several messages. *)
Definition dq : string := String (Ascii.ascii_of_nat 34) EmptyString.

(** [QZPrinter.search([('name', '=', n), ('active', '=', True)], limit=1)] *)
Definition search_by_name (w : World) (n : string) : option (Z * Printer) :=
  head (sort_by printer_order
          (filter (fun r => p_name (snd r) = n /\ active (snd r) = true)
                  (map_to_list (printers w)))).

(** [QZPrinter.search([('active', '=', True)], limit=1, order='priority desc')];
    records of equal priority are taken by id. *)
Definition search_fallback (w : World) : option (Z * Printer) :=
  head (sort_by active_printer_order
          (filter (fun r => active (snd r) = true) (map_to_list (printers w)))).

(** The selection value of [printer_type] a string stands for. *)
Definition printer_type_of_string (s : string) : option PrinterType :=
  if String.eqb s "receipt" then Some receipt
  else if String.eqb s "label" then Some label
  else if String.eqb s "document" then Some document
  else if String.eqb s "other" then Some other
  else None.

(** [QZPrinter.get_default_printer(printer_type=document_type, ...)] with
    the type as the string the service passes: a string that is no
    printer type matches no record. *)
Definition get_printer_for_type (w : World) (document_type : option string)
    (location : option Z) (department : option string) : option (Z * Printer) :=
  if PyStr.truthy document_type then
    match printer_type_of_string (PyStr.show document_type) with
    | Some t => get_default_printer w (Some t) location department
    | None => None
    end
  else get_default_printer w None location department.

(** [_get_printer]; [company] is [self.env.user.company_id.id], or [None]
    when the user has no company. *)
Definition _get_printer (company : option Z) (printer : option PrinterRef)
    (document_type : option string) (location : option Z) (department : option string)
    : M (option (Z * Printer)) :=
  do w <- get_world;
  let automatic :=
    let location := match location with None => company | Some _ => location end in
    match get_printer_for_type w document_type location department with
    | Some printer_record => ret (Some printer_record)
    | None => ret (search_fallback w)
    end in
  match printer with
  | Some (ById i) =>
      if negb (i =? 0) then
        match printers w !! i with
        | None =>
            raise (ValidationError ("Printer with ID " +:+ PyStr.of_Z i +:+ " not found"))
        | Some p =>
            if negb (active p) then
              raise (ValidationError ("Printer " +:+ dq +:+ p_name p +:+ dq +:+
                                      " is not active"))
            else ret (Some (i, p))
        end
      else automatic
  | Some (ByName n) =>
      if PyStr.truthy (Some n) then
        match search_by_name w n with
        | None =>
            raise (ValidationError ("Printer " +:+ dq +:+ n +:+ dq +:+
                                    " not found or not active"))
        | Some printer_record => ret (Some printer_record)
        end
      else automatic
  | None => automatic
  end.

(** [format_field_map.get(format)] *)
Definition format_field_map (format : string) : option (Printer -> bool) :=
  if String.eqb format "pdf" then Some supports_pdf
  else if String.eqb format "html" then Some supports_html
  else if String.eqb format "escpos" then Some supports_escpos
  else if String.eqb format "zpl" then Some supports_zpl
  else None.

Definition _printer_supports_format (printer : Printer) (format : string) : bool :=
  match format_field_map format with
  | None => false
  | Some field => field printer
  end.

Definition _detect_label_format (printer : Printer) : string :=
  if supports_zpl printer then "zpl"
  else if supports_escpos printer then "escpos"
  else if supports_html printer then "html"
  else if supports_pdf printer then "pdf"
  else "html".

(** [format] as a value of the selection [data_format]; [None] when it is
    not in [valid_formats]. *)
Definition format_of_string (format : string) : option DataFormat :=
  if String.eqb format "pdf" then Some pdf
  else if String.eqb format "html" then Some html
  else if String.eqb format "escpos" then Some escpos
  else if String.eqb format "zpl" then Some zpl
  else None.

(** [base64.b64encode] *)
Definition b64_digit (n : N) : Byte.byte :=
  default Byte.x00
    (Byte.of_N (if (n <? 26)%N then 65 + n
                else if (n <? 52)%N then 97 + (n - 26)
                else if (n <? 62)%N then 48 + (n - 52)
                else if (n =? 62)%N then 43
                else 47)%N).

Fixpoint b64encode (s : list Byte.byte) : list Byte.byte :=
  match s with
  | [] => []
  | [a] =>
      let n := (Byte.to_N a * 65536)%N in
      [b64_digit (n / 262144); b64_digit ((n / 4096) mod 64); Byte.x3d; Byte.x3d]
  | [a; b] =>
      let n := (Byte.to_N a * 65536 + Byte.to_N b * 256)%N in
      [b64_digit (n / 262144); b64_digit ((n / 4096) mod 64);
       b64_digit ((n / 64) mod 64); Byte.x3d]
  | a :: b :: c :: r =>
      let n := (Byte.to_N a * 65536 + Byte.to_N b * 256 + Byte.to_N c)%N in
      b64_digit (n / 262144) :: b64_digit ((n / 4096) mod 64)
        :: b64_digit ((n / 64) mod 64) :: b64_digit (n mod 64) :: b64encode r
  end.

(** The keyword arguments the service reads from [**options]; [None] is
    an absent key. *)
Record PrintOptions := mkPrintOptions {
  o_document_type : option string;
  o_copies : option Z;
  o_priority : option Z;
  o_template_id : option Z;
  o_template_data : option string;
  o_parent_model : option string;
  o_parent_id : option Z
}.

(** The dict [job_values] of [_create_print_job]. *)
Definition job_values (user : Z) (printer_record : Z) (data : list Byte.byte)
    (data_format : DataFormat) (options : PrintOptions) : JobVals :=
  mkJobVals None (default "other"%string (o_document_type options)) printer_record
            (Some user) (Some draft) (Some (b64encode data)) data_format
            (if truthy_id (o_template_id options) then o_template_id options else None)
            (if PyStr.truthy (o_template_data options) then o_template_data options else None)
            (Some (default 1 (o_copies options))) (Some (default 5 (o_priority options)))
            None None
            (if PyStr.truthy (o_parent_model options) then o_parent_model options else None)
            (if truthy_id (o_parent_id options) then o_parent_id options else None).

Definition _create_print_job (printer_record : Z) (data : list Byte.byte)
    (data_format : DataFormat) (options : PrintOptions) : M Z :=
  do w <- get_world;
  do job <- create_one (job_values (uid w) printer_record data data_format options);
  run submit_job job;
  ret job.

(** What the service raises: [UserError] itself, or an exception of the
    models. *)
Inductive ServiceExn :=
| UserError (m : string)
| ModelError (e : Exn).

Inductive Outcome (A : Type) :=
| Returned (a : A)
| Failed (e : ServiceExn).
Arguments Returned {A} a.
Arguments Failed {A} e.

(** The dict returned by [print_raw]. *)
Record PrintReceipt := mkPrintReceipt {
  job_id : Z;
  job_name : option string;
  printer : string;
  status : State
}.

(** [print_raw] on [bytes]. *)
Definition print_raw (company : option Z) (data : list Byte.byte) (format : string)
    (printer : option PrinterRef) (options : PrintOptions)
    : World -> Outcome PrintReceipt * World :=
  fun w =>
    match format_of_string format with
    | None =>
        (Failed (ModelError (ValidationError
           ("Invalid format " +:+ dq +:+ format +:+ dq +:+ ". Must be one of: " +:+
            PyStr.join ", " ["pdf"; "html"; "escpos"; "zpl"]%string))), w)
    | Some data_format =>
        match _get_printer company printer (o_document_type options) None None w with
        | (Raise e, w) => (Failed (ModelError e), w)
        | (Ok None, w) => (Failed (UserError "No printer available for printing"), w)
        | (Ok (Some (printer_id, printer_record)), w) =>
            if negb (_printer_supports_format printer_record format) then
              (Failed (ModelError (ValidationError
                 ("Printer " +:+ dq +:+ p_name printer_record +:+ dq +:+
                  " does not support format " +:+ dq +:+ format +:+ dq))), w)
            else
              match (do job <- _create_print_job printer_id data data_format options;
                     do j <- read job;
                     ret (mkPrintReceipt job (name j) (p_name printer_record) (state j))) w
              with
              | (Ok result, w) => (Returned result, w)
              | (Raise e, w) => (Failed (ModelError e), w)
              end
        end
    end.

Definition print_pdf (company : option Z) (pdf_data : list Byte.byte)
    (printer : option PrinterRef) (options : PrintOptions)
    : World -> Outcome PrintReceipt * World :=
  fun w =>
    match pdf_data with
    | [] => (Failed (ModelError (ValidationError "PDF data cannot be empty")), w)
    | _ => print_raw company pdf_data "pdf" printer options w
    end.

(** ** Printer discovery: [process_discovered_printers] *)

Definition receipt_keywords : list string :=
  ["receipt"; "pos"; "thermal"; "tm-"; "epson"]%string.

Definition label_keywords : list string :=
  ["label"; "zebra"; "zpl"; "barcode"]%string.

Definition document_keywords : list string :=
  ["laser"; "inkjet"; "office"; "hp"; "canon"; "brother"]%string.

Definition _detect_printer_type (printer_name : string) : PrinterType :=
  let name_lower := PyStr.lower printer_name in
  if existsb (fun keyword => PyStr.contains keyword name_lower) receipt_keywords then receipt
  else if existsb (fun keyword => PyStr.contains keyword name_lower) label_keywords then label
  else if existsb (fun keyword => PyStr.contains keyword name_lower) document_keywords
  then document
  else other.

(** The database with the field [system_name] of the printers, which is
    kept beside the printer records: the name of the printer in the
    operating system, absent for a record created without it. *)
Record Registry := mkRegistry {
  db : World;
  system_name : gmap Z string
}.

(** [self.search([('system_name', '=', printer_name)], limit=1)].  The
    model has a field [active], so the search leaves out the inactive
    records, as every search does that is not run with [active_test]
    disabled. *)
Definition search_system_name (r : Registry) (printer_name : string) : option (Z * Printer) :=
  head (sort_by printer_order
          (filter (fun x => active (snd x) = true
                            /\ system_name r !! fst x = Some printer_name)
                  (map_to_list (printers (db r))))).

(** The record [create] builds from the dict [vals] of the loop and the
    defaults of the fields. *)
Definition new_printer (printer_name : string) (printer_type : PrinterType) : Printer :=
  mkPrinter printer_name printer_type None None false 10 true true true false false.

(** The loop over [printer_list], with the two lists of names. *)
Fixpoint discover_each (printer_list : list string) (created_printers updated_printers : list string)
    (r : Registry) : Result (list string * list string) * Registry :=
  match printer_list with
  | [] => (Ok (created_printers, updated_printers), r)
  | printer_name :: later =>
      match search_system_name r printer_name with
      | Some (pid, existing_printer) =>
          match printer_write [pid] [P_active true] (db r) with
          | (Raise e, w) => (Raise e, mkRegistry w (system_name r))
          | (Ok _, w) =>
              discover_each later created_printers
                            (updated_printers ++ [p_name existing_printer])
                            (mkRegistry w (system_name r))
          end
      | None =>
          let printer_type := _detect_printer_type printer_name in
          match create_printer (new_printer printer_name printer_type) (db r) with
          | (Raise e, w) => (Raise e, mkRegistry w (system_name r))
          | (Ok pid, w) =>
              discover_each later (created_printers ++ [p_name (new_printer printer_name printer_type)])
                            updated_printers
                            (mkRegistry w (<[pid := printer_name]> (system_name r)))
          end
      end
  end.

(** The dict returned by [process_discovered_printers]; the two counts
    are absent from the dict returned for an empty list. *)
Record DiscoveryReport := mkDiscoveryReport {
  d_success : bool;
  d_message : string;
  created_count : option Z;
  updated_count : option Z
}.

Definition process_discovered_printers (printer_list : list string) (r : Registry)
    : Result DiscoveryReport * Registry :=
  match printer_list with
  | [] => (Ok (mkDiscoveryReport false "No printers found" None None), r)
  | _ =>
      match discover_each printer_list [] [] r with
      | (Raise e, r) => (Raise e, r)
      | (Ok (created_printers, updated_printers), r) =>
          let message_parts := [] in
          let message_parts :=
            match created_printers with
            | [] => message_parts
            | _ => message_parts ++
                   ["Created " +:+ PyStr.of_Z (Z.of_nat (length created_printers)) +:+
                    " printer(s): " +:+ PyStr.join ", " created_printers]
            end in
          let message_parts :=
            match updated_printers with
            | [] => message_parts
            | _ => message_parts ++
                   ["Updated " +:+ PyStr.of_Z (Z.of_nat (length updated_printers)) +:+
                    " printer(s): " +:+ PyStr.join ", " updated_printers]
            end in
          (Ok (mkDiscoveryReport true (PyStr.join nl message_parts)
                 (Some (Z.of_nat (length created_printers)))
                 (Some (Z.of_nat (length updated_printers)))), r)
      end
  end.

(** Ids of printers are handed out in increasing order. *)
Definition printer_ids_below_next (w : World) : Prop :=
  forall i, is_Some (printers w !! i) -> i < next_printer_id w.

(** No printer bears the name, as its name or as its system name, and
    the name is not blank. *)
Definition unknown_name (r : Registry) (n : string) : Prop :=
  blank n = false
  /\ forall k q, printers (db r) !! k = Some q ->
       p_name q <> n /\ system_name r !! k <> Some n.

(** ** The HTTP controller: [QZTrayController] *)

Module QZTrayController.

(** The dict of a reply: ['success': True] with the other keys, or
    ['success': False] with ['error']. *)
Inductive Reply (A : Type) :=
| Success (payload : A)
| Failure (error : string).
Arguments Success {A} payload.
Arguments Failure {A} error.

(** [try: ... except Exception as e: return {'success': False, 'error': str(e)}] *)
Definition catching {A} (m : M (Reply A)) : World -> Reply A * World :=
  fun w =>
    match m w with
    | (Ok reply, w') => (reply, w')
    | (Raise e, w') => (Failure (exn_str e), w')
    end.

Definition cancel_job (job_id : Z) : World -> Reply unit * World :=
  catching
    (do w <- get_world;
     if negb (bool_decide (is_Some (jobs w !! job_id))) then ret (Failure "Job not found")
     else
       run cancel_job job_id;
       ret (Success tt)).

Definition retry_job (job_id : Z) : World -> Reply unit * World :=
  catching
    (do w <- get_world;
     if negb (bool_decide (is_Some (jobs w !! job_id))) then ret (Failure "Job not found")
     else
       run retry_job job_id;
       ret (Success tt)).

(** The keys ['job_id'] and ['original_job_id'] of the reply. *)
Record Resubmitted := mkResubmitted {
  new_job_id : Z;
  original_job_id : Z
}.

(** The dict passed to [create] by [resubmit_job]. *)
Definition resubmit_vals (user : Z) (printer : Z) (job : Job) : JobVals :=
  mkJobVals None (document_type job) printer (Some user) None
            (data job) (data_format job) (template_id job) (template_data job)
            (Some (copies job)) (Some (priority job)) None None
            (parent_model job) (parent_id job).

Definition resubmit_job (job_id : Z) : World -> Reply Resubmitted * World :=
  catching
    (do w <- get_world;
     if negb (bool_decide (is_Some (jobs w !! job_id))) then ret (Failure "Job not found")
     else
       do job <- read job_id;
       do new_job <-
         match printer_id job with
         | Some printer => create_one (resubmit_vals (uid w) printer job)
         | None =>
             raise (IntegrityError
                      "null value in column printer_id violates not-null constraint")
         end;
       run submit_job new_job;
       ret (Success (mkResubmitted new_job job_id))).

(** The keys ['printer_id'] and ['status'] of the reply. *)
Record Paused := mkPaused {
  paused_printer_id : Z;
  paused_status : string
}.

Definition pause_printer (pid : Z) : World -> Reply Paused * World :=
  catching
    (do w <- get_world;
     if negb (bool_decide (is_Some (printers w !! pid))) then ret (Failure "Printer not found")
     else
       run printer_write [pid] [P_active false];
       ret (Success (mkPaused pid "paused"))).

(** The keys ['printer_id'], ['status'] and ['queued_jobs_count']. *)
Record Resumed := mkResumed {
  resumed_printer_id : Z;
  resumed_status : string;
  queued_jobs_count : Z
}.

(** The count is that of a search whose order does not matter. *)
Definition resume_printer (pid : Z) : World -> Reply Resumed * World :=
  catching
    (do w <- get_world;
     if negb (bool_decide (is_Some (printers w !! pid))) then ret (Failure "Printer not found")
     else
       run printer_write [pid] [P_active true];
       do w <- get_world;
       let queued_jobs := search_queued_jobs w pid in
       ret (Success (mkResumed pid "active" (Z.of_nat (length queued_jobs))))).

(** The keys ['new_count'], ['updated_count'] and ['total_count']. *)
Record Synced := mkSynced {
  new_count : Z;
  synced_updated_count : Z;
  total_count : Z
}.

(** The loop of [sync_printers], with its two counters. *)
Fixpoint sync_each (printer_names : list string) (new_count updated_count : Z) (r : Registry)
    : Result (Z * Z) * Registry :=
  match printer_names with
  | [] => (Ok (new_count, updated_count), r)
  | printer_name :: later =>
      match search_system_name r printer_name with
      | Some (pid, existing_printer) =>
          if negb (active existing_printer) then
            match printer_write [pid] [P_active true] (db r) with
            | (Raise e, w) => (Raise e, mkRegistry w (system_name r))
            | (Ok _, w) =>
                sync_each later new_count (updated_count + 1) (mkRegistry w (system_name r))
            end
          else sync_each later new_count updated_count r
      | None =>
          match create_printer (new_printer printer_name other) (db r) with
          | (Raise e, w) => (Raise e, mkRegistry w (system_name r))
          | (Ok pid, w) =>
              sync_each later (new_count + 1) updated_count
                        (mkRegistry w (<[pid := printer_name]> (system_name r)))
          end
      end
  end.

Definition sync_printers (printer_names : list string) (r : Registry)
    : Reply Synced * Registry :=
  match printer_names with
  | [] => (Failure "Invalid printers data", r)
  | _ =>
      match sync_each printer_names 0 0 r with
      | (Ok (new_count, updated_count), r) =>
          (Success (mkSynced new_count updated_count
                             (Z.of_nat (length printer_names))), r)
      | (Raise e, r) => (Failure (exn_str e), r)
      end
  end.

End QZTrayController.

(** ** What [mark_failed] leaves of a job, and the clock between calls *)

(** The retry that [mark_failed] starts sends the job to the printer: the
    message is transient, retries are enabled, the retry count is below
    the limit, and the printer is active and supports the format. *)
Definition retry_sends (w : World) (j : Job) (error_message : string) : bool :=
  (_is_transient_error error_message && retry_enabled (config w)
   && (retry_count j <? max_retries (config w)) && printer_ready w j)%bool.

(** The database when the clock reads [t]: between two calls the time
    moves on and nothing else does. *)
Definition with_clock (t : Datetime) (w : World) : World :=
  mkWorld (jobs w) (printers w) (config w) t (uid w) (next_job_id w)
          (next_printer_id w) (job_sequence w) (admin_calls w) (mail_stage w).

(** ** Concrete records used by the examples *)

Module Sample.

Definition office : Printer :=
  mkPrinter "Office" document None None false 10 true true true false false.

Definition paused : Printer :=
  mkPrinter "Spare" document None None false 10 false true true false false.

Definition cfg : Config := mkConfig true 3 5 false.

Definition job0 : Job :=
  mkJob (Some "receipt-Office-PJ1") "receipt" (Some 1) 2 draft
        (Some [Byte.x41]) html None None 1 5 None 0 None None None None.

Definition with_state (s : State) (j : Job) : Job := set_field j (F_state s).
Definition with_error (m : string) (j : Job) : Job := set_field j (F_error_message (Some m)).
Definition on_printer (p : Z) (j : Job) : Job :=
  mkJob (name j) (document_type j) (Some p) (user_id j) (state j) (data j)
        (data_format j) (template_id j) (template_data j) (copies j) (priority j)
        (error_message j) (retry_count j) (submitted_date j) (completed_date j)
        (parent_model j) (parent_id j).

(** Printer 1 is online, printer 2 is paused; one job with id 7. *)
Definition world_of (c : Config) (j : Job) : World :=
  mkWorld {[ 7 := j ]} (<[ 1 := office ]> {[ 2 := paused ]}) c
          "2024-05-01 10:00:00" 2 8 3 None [] [].

(** A label printer (id 5) with three queued label jobs (ids 1 to 3) and
    no sequence installed. *)
Definition zebra : Printer :=
  mkPrinter "Zebra" label None None false 10 true false false false true.

Definition label_job (prio : Z) (submitted : option Datetime) (payload : list Byte.byte) : Job :=
  mkJob (Some "label-Zebra-New") "label" (Some 5) 2 queued (Some payload) zpl None None
        1 prio None 0 submitted None None None.

Definition label_world (d1 d2 d3 : option Datetime) (s : option Sequence) : World :=
  mkWorld (<[ 1 := label_job 5 d1 [Byte.x41] ]>
           (<[ 2 := label_job 9 d2 [Byte.x42] ]>
            {[ 3 := label_job 7 d3 [Byte.x43] ]}))
          {[ 5 := zebra ]} cfg "2024-05-01 10:00:00" 2 4 6 s [] [].

(** A sequence printing [PJ] followed by the number. *)
Definition pj_sequence (n : nat) : Sequence :=
  mkSequence (fun k => "PJ" +:+ NilEmpty.string_of_uint (Nat.to_uint k)) n.

(** A database with the sequence at 4 and one job named from value 3. *)
Definition numbered_world : World :=
  mkWorld {[ 1 := mkJob (Some "receipt-Zebra-PJ3") "receipt" (Some 5) 2 draft None pdf
                        None None 1 5 None 0 None None None None ]}
          {[ 5 := zebra ]} cfg "2024-05-01 10:00:00" 2 2 6 (Some (pj_sequence 4)) [] [].

Definition receipt_vals : JobVals :=
  mkJobVals None "receipt" 5 None None None pdf None None None None None None None None.

(** Two active label printers: the default one (id 1) with priority 1 and
    a plain one (id 2) with the priority given. *)
Definition default_label : Printer :=
  mkPrinter "Default Label Printer" label None None true 1 true true true false false.

Definition plain_label (prio : Z) : Printer :=
  mkPrinter "High Priority Printer" label None None false prio true true true false false.

Definition label_shop (prio : Z) : World :=
  mkWorld ∅ (<[ 1 := default_label ]> {[ 2 := plain_label prio ]}) cfg
          "2024-05-01 10:00:00" 2 1 3 None [] [].

(** The queues of two printers: jobs 7 (HTML) and 8 (ZPL) wait for the
    office printer, job 9 for the paused one. *)
Definition zpl_job : Job :=
  mkJob (Some "label-Office-PJ2") "label" (Some 1) 2 queued
        (Some [Byte.x42]) zpl None None 1 5 None 0 None None None None.

Definition queue_world : World :=
  mkWorld (<[ 7 := with_state queued job0 ]>
           (<[ 8 := zpl_job ]>
            {[ 9 := with_state queued (on_printer 2 job0) ]}))
          (<[ 1 := office ]> {[ 2 := paused ]}) cfg
          "2024-05-01 10:00:00" 2 10 3 None [] [].

(** The two label printers, none of them known by a system name. *)
Definition shop_registry : Registry := mkRegistry (label_shop 5) ∅.

(** The paused printer 2 was discovered under its name. *)
Definition paused_registry : Registry :=
  mkRegistry (world_of cfg job0) {[ 2 := "Spare"%string ]}.

End Sample.

(** * Part II: properties *)

(** ** Running the monad: reads and writes of one record *)

Lemma jobs_upd jid j w : jobs (upd jid j w) = <[jid := j]> (jobs w).
Proof. reflexivity. Qed.

Lemma lookup_upd jid j w : jobs (upd jid j w) !! jid = Some j.
Proof. rewrite jobs_upd. apply lookup_insert_eq. Qed.

Lemma lookup_upd_ne jid k j w : jid <> k -> jobs (upd jid j w) !! k = jobs w !! k.
Proof. intros. rewrite jobs_upd. by apply lookup_insert_ne. Qed.

Lemma upd_upd jid j1 j2 w : upd jid j2 (upd jid j1 w) = upd jid j2 w.
Proof. unfold upd, with_jobs; simpl. by rewrite insert_insert_eq. Qed.

Lemma printer_of_upd jid j w j' : printer_of (upd jid j w) j' = printer_of w j'.
Proof. reflexivity. Qed.

Lemma read_some jid j w : jobs w !! jid = Some j -> read jid w = (Ok j, w).
Proof. intros H. unfold read. by rewrite H. Qed.

Lemma write_some jid j vals w :
  jobs w !! jid = Some j ->
  (existsb writes_retry_count vals = true -> 0 <= retry_count (apply_vals j vals)) ->
  write jid vals w = (Ok tt, upd jid (apply_vals j vals) w).
Proof.
  intros H Hc. unfold write, bind. rewrite (read_some _ _ _ H).
  destruct (existsb writes_retry_count vals); [|reflexivity].
  unfold _check_retry_count.
  destruct (Z.ltb_spec (retry_count (apply_vals j vals)) 0); [|reflexivity].
  specialize (Hc eq_refl). lia.
Qed.

(** Rewriting with the two lemmas above, discharging the lookups. *)
Ltac mstep :=
  first
    [ erewrite read_some by (first [eassumption | apply lookup_upd])
    | erewrite write_some by
        (first [eassumption | apply lookup_upd | (simpl; intros; first [discriminate | lia | assumption])])
    | rewrite upd_upd ].

Ltac mred := cbn beta iota delta [negb andb orb].

Ltac mrun :=
  unfold bind, ret, raise, try_except, now, get_config, get_printer;
  repeat first [mstep | progress mred].

(** Deciding a guard of the method from a hypothesis, then going on. *)
Tactic Notation "guard" constr(H) := rewrite H; mrun.
Tactic Notation "guard_true" constr(H) := rewrite (bool_decide_eq_true_2 _ H); mrun.

(** ** Substring facts used for the error texts *)

Lemma prefix_append_l k a b :
  String.prefix k a = true -> String.prefix k (a +:+ b) = true.
Proof.
  revert a. induction k as [|c k IH]; intros a H.
  - by destruct (a +:+ b).
  - destruct a as [|d a]; simpl in *; [discriminate|].
    destruct (ascii_dec c d); [auto|discriminate].
Qed.

Lemma contains_append_l k a b :
  PyStr.contains k a = true -> PyStr.contains k (a +:+ b) = true.
Proof.
  induction a as [|c a IH]; simpl; intros H.
  - destruct k; [|discriminate]. by destruct b.
  - apply orb_true_iff in H as [H|H]; apply orb_true_iff.
    + left. by apply (prefix_append_l k (String c a) b).
    + right. auto.
Qed.

Lemma contains_append_r k a b :
  PyStr.contains k b = true -> PyStr.contains k (a +:+ b) = true.
Proof.
  induction a as [|c a IH]; simpl; intros H; [done|].
  apply orb_true_iff. right. auto.
Qed.

Lemma lower_append a b : PyStr.lower (a +:+ b) = PyStr.lower a +:+ PyStr.lower b.
Proof. induction a as [|c a IH]; simpl; [done|]. by rewrite IH. Qed.

(** A transient message stays transient when text is appended to it. *)
Lemma transient_append m t :
  _is_transient_error m = true -> _is_transient_error (m +:+ t) = true.
Proof.
  unfold _is_transient_error. rewrite lower_append.
  rewrite !existsb_exists. intros (k & Hk & Hc).
  exists k. split; [done|]. by apply contains_append_l.
Qed.

(** ** What each method does to the record it is called on *)

Section Methods.

Context (w : World) (jid : Z) (j : Job).
Hypothesis Hj : jobs w !! jid = Some j.

Lemma submit_job_no_payload :
  data_truthy (data j) = false -> template_id j = None ->
  submit_job jid w =
    (Raise (ValidationError "Print job must have either data or a template"), w).
Proof.
  intros Hd Ht. unfold submit_job. mrun. rewrite Hd, Ht. reflexivity.
Qed.

Lemma submit_job_no_printer :
  printer_id j = None ->
  exists msg, submit_job jid w = (Raise (ValidationError msg), w).
Proof.
  intros Hp. unfold submit_job. mrun. rewrite Hp.
  destruct (negb (data_truthy (data j)) && negb (bool_decide (is_Some (template_id j))))%bool;
    eexists; reflexivity.
Qed.

Lemma submittable_guards :
  submittable j ->
  (negb (data_truthy (data j)) && negb (bool_decide (is_Some (template_id j))))%bool = false
  /\ negb (bool_decide (is_Some (printer_id j))) = false.
Proof.
  intros [Hd Hp]. split.
  - destruct Hd as [->|Ht]; [done|].
    rewrite (bool_decide_eq_true_2 _ Ht). by rewrite andb_false_r.
  - by rewrite (bool_decide_eq_true_2 _ Hp).
Qed.

Lemma submit_job_offline :
  submittable j -> pr_active (printer_of w j) = false ->
  submit_job jid w =
    (Ok jid,
     upd jid (apply_vals j
                [F_submitted_date (clock w); F_state queued;
                 F_error_message (Some ("Printer " +:+ pr_name (printer_of w j) +:+
                    " is offline. Job queued for later processing."))]) w).
Proof.
  intros Hs Ha. destruct (submittable_guards Hs) as [G1 G2].
  unfold submit_job. mrun. guard G1. guard G2. rewrite printer_of_upd || idtac.
  guard Ha. reflexivity.
Qed.

Lemma submit_job_online :
  submittable j -> pr_active (printer_of w j) = true ->
  submit_job jid w =
    (Ok jid, upd jid (apply_vals j [F_submitted_date (clock w); F_state queued]) w).
Proof.
  intros Hs Ha. destruct (submittable_guards Hs) as [G1 G2].
  unfold submit_job. mrun. guard G1. guard G2. rewrite printer_of_upd || idtac.
  guard Ha. reflexivity.
Qed.

Lemma process_job_wrong_state :
  state j <> queued -> state j <> failed -> process_job jid w = (Ok false, w).
Proof.
  intros H1 H2. unfold process_job. mrun.
  rewrite bool_decide_eq_false_2 by (intros [?|?]; congruence). reflexivity.
Qed.

Lemma process_job_ready :
  state j = queued \/ state j = failed ->
  pr_active (printer_of w j) = true ->
  format_supported (data_format j) (printer_of w j) = true ->
  process_job jid w = (Ok true, upd jid (set_field j (F_state printing)) w).
Proof.
  intros Hs Ha Hf. unfold process_job. mrun.
  guard_true Hs. rewrite printer_of_upd. guard Ha. guard Hf. reflexivity.
Qed.

Lemma process_job_not_ready :
  state j = queued \/ state j = failed ->
  (pr_active (printer_of w j) && format_supported (data_format j) (printer_of w j))%bool
    = false ->
  process_job jid w = (Ok false, upd jid (process_failure w j) w).
Proof.
  intros Hs Hn. unfold process_job. mrun.
  guard_true Hs. rewrite printer_of_upd. unfold process_failure, process_error.
  destruct (pr_active (printer_of w j)) eqn:Ha; mrun.
  - simpl in Hn. guard Hn. unfold exn_str.
    destruct (_is_transient_error _); mrun; reflexivity.
  - unfold exn_str. destruct (_is_transient_error _); mrun; reflexivity.
Qed.

Lemma state_process_failure : state (process_failure w j) = failed.
Proof. unfold process_failure. by destruct (_is_transient_error _). Qed.

Lemma retry_count_process_failure : retry_count (process_failure w j) = retry_count j.
Proof. unfold process_failure. by destruct (_is_transient_error _). Qed.

Lemma retry_job_not_failed :
  state j <> failed -> retry_job jid w = (Ok false, w).
Proof.
  intros H. unfold retry_job. mrun.
  rewrite bool_decide_eq_false_2 by done. reflexivity.
Qed.

Lemma retry_job_disabled :
  retry_enabled (config w) = false -> retry_job jid w = (Ok false, w).
Proof.
  intros H. unfold retry_job. mrun.
  destruct (bool_decide (state j = failed)); mrun; [|reflexivity].
  guard H. reflexivity.
Qed.

Lemma retry_job_exhausted m :
  state j = failed -> retry_enabled (config w) = true ->
  max_retries (config w) <= retry_count j ->
  error_message j = Some m ->
  retry_job jid w = (Ok false, snd (_notify_admin_failure jid (upd jid (exhausted w j m) w))).
Proof.
  intros Hs He Hm Hmsg. unfold retry_job. mrun.
  guard_true Hs. guard He.
  destruct (Z.leb_spec (max_retries (config w)) (retry_count j)); [|lia].
  mrun. guard Hmsg. reflexivity.
Qed.


Lemma retry_job_transient m :
  state j = failed -> retry_enabled (config w) = true ->
  0 <= retry_count j < max_retries (config w) ->
  error_message j = Some m -> _is_transient_error m = true ->
  retry_job jid w = process_job jid (upd jid (requeued w j m) w).
Proof.
  intros Hs He Hm Hmsg Ht. unfold retry_job. mrun.
  guard_true Hs. guard He.
  destruct (Z.leb_spec (max_retries (config w)) (retry_count j)); [lia|].
  mrun. rewrite Hmsg. change (default EmptyString (Some m)) with m.
  guard Ht. reflexivity.
Qed.

Lemma cancel_job_terminal :
  state j = completed \/ state j = cancelled -> cancel_job jid w = (Ok false, w).
Proof.
  intros H. unfold cancel_job. mrun. guard_true H. reflexivity.
Qed.

Lemma cancel_job_live :
  state j <> completed -> state j <> cancelled ->
  cancel_job jid w =
    (Ok true, upd jid (apply_vals j [F_state cancelled; F_completed_date (clock w)]) w).
Proof.
  intros H1 H2. unfold cancel_job. mrun.
  rewrite bool_decide_eq_false_2 by (intros [?|?]; congruence).
  mrun. reflexivity.
Qed.

Lemma mark_completed_eq :
  mark_completed jid w =
    (Ok true,
     upd jid (apply_vals j [F_state completed; F_completed_date (clock w);
                            F_error_message None]) w).
Proof. unfold mark_completed. mrun. reflexivity. Qed.

End Methods.

(** ** The state machine of one job *)

(** C10: [retry_job] on a job that is not failed, or with retries switched
    off, returns [False] and writes nothing: the database is unchanged. *)
Theorem retry_job_noop w jid j :
  jobs w !! jid = Some j ->
  state j <> failed \/ retry_enabled (config w) = false ->
  retry_job jid w = (Ok false, w).
Proof.
  intros Hj [H|H]; eauto using retry_job_not_failed, retry_job_disabled.
Qed.

Lemma retry_job_noop_witness :
  let w := Sample.world_of Sample.cfg (Sample.with_state queued Sample.job0) in
  (jobs w !! 7 = Some (Sample.with_state queued Sample.job0)
   /\ (state (Sample.with_state queued Sample.job0) <> failed
       \/ retry_enabled (config w) = false))
  /\ retry_job 7 w = (Ok false, w).
Proof.
  assert (H1 : jobs (Sample.world_of Sample.cfg (Sample.with_state queued Sample.job0)) !! 7
               = Some (Sample.with_state queued Sample.job0)) by reflexivity.
  assert (H2 : state (Sample.with_state queued Sample.job0) <> failed
               \/ retry_enabled
                    (config (Sample.world_of Sample.cfg (Sample.with_state queued Sample.job0)))
                  = false) by (left; discriminate).
  exact (conj (conj H1 H2) (retry_job_noop _ _ _ H1 H2)).
Defined.

(** C3, as the code has it: [cancel_job] cancels every job that is not
    completed or cancelled (draft, queued, printing or failed), stamping
    [completed_date]; on a completed or cancelled job it returns [False]
    and changes nothing. *)
Theorem cancel_job_spec w jid j :
  jobs w !! jid = Some j ->
  (state j = completed \/ state j = cancelled -> cancel_job jid w = (Ok false, w))
  /\ (state j = draft \/ state j = queued \/ state j = printing \/ state j = failed ->
      exists j', cancel_job jid w = (Ok true, upd jid j' w)
                 /\ state j' = cancelled /\ completed_date j' = Some (clock w)
                 /\ retry_count j' = retry_count j /\ error_message j' = error_message j).
Proof.
  intros Hj. split.
  - by apply cancel_job_terminal.
  - intros Hs. eexists. split.
    + apply cancel_job_live; [done | |]; intros E; rewrite E in Hs;
        destruct Hs as [?|[?|[?|?]]]; discriminate.
    + done.
Qed.

Lemma cancel_job_spec_witness :
  let j := Sample.with_state printing Sample.job0 in
  let w := Sample.world_of Sample.cfg j in
  jobs w !! 7 = Some j
  /\ (state j = completed \/ state j = cancelled -> cancel_job 7 w = (Ok false, w))
  /\ (state j = draft \/ state j = queued \/ state j = printing \/ state j = failed ->
      exists j', cancel_job 7 w = (Ok true, upd 7 j' w)
                 /\ state j' = cancelled /\ completed_date j' = Some (clock w)
                 /\ retry_count j' = retry_count j /\ error_message j' = error_message j).
Proof.
  assert (H : jobs (Sample.world_of Sample.cfg (Sample.with_state printing Sample.job0)) !! 7
              = Some (Sample.with_state printing Sample.job0)) by reflexivity.
  exact (conj H (cancel_job_spec _ _ _ H)).
Defined.

(** C3 as stated fails: a job in the printing state is cancelled. *)
Lemma cancel_job_printing_cancels :
  let r := cancel_job 7 (Sample.world_of Sample.cfg (Sample.with_state printing Sample.job0)) in
  fst r = Ok true /\ state <$> jobs (snd r) !! 7 = Some cancelled.
Proof. split; reflexivity. Qed.

(** [mark_failed] on any stored job: it returns [True], and the job ends
    in [printing] when the retry it starts sends the job to the printer,
    in [failed] otherwise. *)
Lemma mark_failed_outcome w jid j m :
  jobs w !! jid = Some j ->
  0 <= retry_count j ->
  exists j' w',
    mark_failed jid m w = (Ok true, w')
    /\ jobs w' !! jid = Some j'
    /\ state j' = if retry_sends w j m then printing else failed.
Proof.
  intros Hj Hc. unfold mark_failed, retry_sends.
  set (j1 := apply_vals j [F_state failed; F_error_message (Some m)]).
  set (w1 := upd jid j1 w).
  assert (Hj1 : jobs w1 !! jid = Some j1) by apply lookup_upd.
  unfold bind at 1. rewrite (write_some _ _ _ _ Hj) by (intros [=]). fold j1 w1.
  destruct (_is_transient_error m) eqn:Ht; cbn [andb].
  2: { unfold bind, now. rewrite (write_some _ _ _ _ Hj1) by (intros [=]).
       unfold _notify_admin_failure, ret. do 2 eexists. split; [reflexivity|].
       cbn [jobs]. rewrite lookup_upd. by split. }
  destruct (retry_enabled (config w)) eqn:He; cbn [andb].
  2: { unfold bind at 1 2. rewrite (retry_job_disabled w1 jid j1 Hj1 He).
       unfold ret. exists j1, w1. by repeat split. }
  destruct (Z.ltb_spec (retry_count j) (max_retries (config w))) as [Hlt|Hge]; cbn [andb].
  2: { unfold bind at 1 2.
       rewrite (retry_job_exhausted w1 jid j1 Hj1 m) by done.
       unfold ret. do 2 eexists. split; [reflexivity|].
       unfold _notify_admin_failure. cbn [snd jobs]. rewrite lookup_upd. by split. }
  unfold bind at 1 2.
  rewrite (retry_job_transient w1 jid j1 Hj1 m) by (done || (cbn; lia)).
  set (j2 := requeued w1 j1 m). set (w2 := upd jid j2 w1).
  assert (Hj2 : jobs w2 !! jid = Some j2) by apply lookup_upd.
  change (printer_ready w j) with (printer_ready w2 j2).
  destruct (printer_ready w2 j2) eqn:Hr.
  - apply andb_true_iff in Hr as [Ha Hf].
    rewrite (process_job_ready w2 jid j2 Hj2) by (done || by left).
    unfold ret. do 2 eexists. split; [reflexivity|]. rewrite lookup_upd. by split.
  - rewrite (process_job_not_ready w2 jid j2 Hj2) by (done || by left).
    unfold ret. do 2 eexists. split; [reflexivity|]. rewrite lookup_upd.
    split; [done|]. apply state_process_failure.
Qed.

(** C9, as the code has it.  [process_job], [retry_job] and [cancel_job]
    return [False] on a completed or cancelled job and leave the database
    as it was.  The other three methods carry no guard: [submit_job]
    queues such a job again when it has a payload and a printer,
    [mark_completed] sets it to completed, so that a cancelled job
    becomes completed, and [mark_failed] sets it to failed and, on a
    transient message, retries it at once, so that it ends in printing
    when retries are enabled, the retry count is below the limit and the
    printer is active and supports the format, and in failed otherwise. *)
Theorem guarded_methods_keep_terminal w jid j :
  jobs w !! jid = Some j ->
  state j = completed \/ state j = cancelled ->
  process_job jid w = (Ok false, w)
  /\ retry_job jid w = (Ok false, w)
  /\ cancel_job jid w = (Ok false, w)
  /\ (submittable j ->
      exists j' w', submit_job jid w = (Ok jid, w')
                    /\ jobs w' !! jid = Some j' /\ state j' = queued)
  /\ (exists j' w', mark_completed jid w = (Ok true, w')
                    /\ jobs w' !! jid = Some j' /\ state j' = completed)
  /\ (forall m, 0 <= retry_count j ->
      exists j' w', mark_failed jid m w = (Ok true, w')
                    /\ jobs w' !! jid = Some j'
                    /\ state j' = if retry_sends w j m then printing else failed).
Proof.
  intros Hj Hs. split; [|split; [|split; [|split; [|split]]]].
  - apply (process_job_wrong_state _ _ _ Hj); destruct Hs as [E|E]; rewrite E; discriminate.
  - apply (retry_job_not_failed _ _ _ Hj); destruct Hs as [E|E]; rewrite E; discriminate.
  - by apply (cancel_job_terminal _ _ _ Hj).
  - intros Hsub. destruct (pr_active (printer_of w j)) eqn:Ha.
    + do 2 eexists. split; [by apply (submit_job_online _ _ _ Hj)|].
      rewrite lookup_upd. by split.
    + do 2 eexists. split; [by apply (submit_job_offline _ _ _ Hj)|].
      rewrite lookup_upd. by split.
  - do 2 eexists. split; [by apply (mark_completed_eq _ _ _ Hj)|].
    rewrite lookup_upd. by split.
  - intros m Hc. by apply mark_failed_outcome.
Qed.

Lemma guarded_methods_keep_terminal_witness :
  let j := Sample.with_state completed Sample.job0 in
  let w := Sample.world_of Sample.cfg j in
  (jobs w !! 7 = Some j /\ (state j = completed \/ state j = cancelled)
   /\ submittable j /\ 0 <= retry_count j)
  /\ process_job 7 w = (Ok false, w)
  /\ retry_job 7 w = (Ok false, w)
  /\ cancel_job 7 w = (Ok false, w)
  /\ (exists j' w', submit_job 7 w = (Ok 7, w')
                    /\ jobs w' !! 7 = Some j' /\ state j' = queued)
  /\ (exists j' w', mark_failed 7 "Connection timeout" w = (Ok true, w')
                    /\ jobs w' !! 7 = Some j' /\ state j' = printing)
  /\ (exists j' w', mark_failed 7 "Paper jam" w = (Ok true, w')
                    /\ jobs w' !! 7 = Some j' /\ state j' = failed).
Proof.
  set (j := Sample.with_state completed Sample.job0).
  set (w := Sample.world_of Sample.cfg j).
  assert (H : jobs w !! 7 = Some j) by reflexivity.
  assert (Hs : state j = completed \/ state j = cancelled) by (left; reflexivity).
  assert (Hsub : submittable j) by (split; [left; reflexivity|by eexists]).
  assert (Hc : 0 <= retry_count j) by (simpl; lia).
  split; [exact (conj H (conj Hs (conj Hsub Hc)))|].
  destruct (guarded_methods_keep_terminal w 7 j H Hs) as (Hp & Hr & Hcan & Hq & _ & Hf).
  split; [exact Hp|]. split; [exact Hr|]. split; [exact Hcan|]. split; [exact (Hq Hsub)|].
  split; [exact (Hf "Connection timeout"%string Hc)|exact (Hf "Paper jam"%string Hc)].
Defined.

(** C9 as stated fails: [submit_job] re-queues a completed job,
    [mark_completed] completes a cancelled one, and [mark_failed] takes a
    completed job to failed on a permanent message and, through the
    retry, to printing on a transient one. *)
Lemma unguarded_methods_leave_terminal :
  let finished := Sample.world_of Sample.cfg (Sample.with_state completed Sample.job0) in
  let dropped := Sample.world_of Sample.cfg (Sample.with_state cancelled Sample.job0) in
  state <$> jobs (snd (submit_job 7 finished)) !! 7 = Some queued
  /\ state <$> jobs (snd (mark_completed 7 dropped)) !! 7 = Some completed
  /\ state <$> jobs (snd (mark_failed 7 "Paper jam" finished)) !! 7 = Some failed
  /\ state <$> jobs (snd (mark_failed 7 "Connection timeout" finished)) !! 7 = Some printing
  /\ retry_count <$> jobs (snd (mark_failed 7 "Connection timeout" finished)) !! 7 = Some 1.
Proof. repeat split; reflexivity. Qed.

(** The offline note written by [submit_job] names the word the queue
    looks for, whatever the printer is called. *)
Lemma offline_note_mentions_offline n :
  PyStr.contains "offline"
    ("Printer " +:+ n +:+ " is offline. Job queued for later processing.") = true.
Proof. apply contains_append_r, contains_append_r. reflexivity. Qed.

(** C7: [submit_job] raises [ValidationError] when the job has neither
    data nor a template, or no printer; a valid job is queued, with a note
    containing "offline" when its printer is inactive and with
    [submitted_date] set when it is active. *)
Theorem submit_job_spec w jid j :
  jobs w !! jid = Some j ->
  (data_truthy (data j) = false -> template_id j = None ->
   exists msg, submit_job jid w = (Raise (ValidationError msg), w))
  /\ (printer_id j = None ->
      exists msg, submit_job jid w = (Raise (ValidationError msg), w))
  /\ (submittable j -> pr_active (printer_of w j) = false ->
      exists j' note, submit_job jid w = (Ok jid, upd jid j' w)
                 /\ state j' = queued /\ error_message j' = Some note
                 /\ PyStr.contains "offline" note = true)
  /\ (submittable j -> pr_active (printer_of w j) = true ->
      exists j', submit_job jid w = (Ok jid, upd jid j' w)
                 /\ state j' = queued /\ submitted_date j' = Some (clock w)).
Proof.
  intros Hj. repeat split.
  - intros Hd Ht. eexists. by apply (submit_job_no_payload _ _ _ Hj).
  - by apply (submit_job_no_printer _ _ _ Hj).
  - intros Hs Ha. do 2 eexists. split; [by apply (submit_job_offline _ _ _ Hj)|].
    repeat split. apply offline_note_mentions_offline.
  - intros Hs Ha. eexists. split; [by apply (submit_job_online _ _ _ Hj)|]. done.
Qed.

Lemma submit_job_spec_witness :
  let j := Sample.on_printer 2 Sample.job0 in
  let w := Sample.world_of Sample.cfg j in
  (jobs w !! 7 = Some j /\ submittable j /\ pr_active (printer_of w j) = false)
  /\ exists j' note, submit_job 7 w = (Ok 7, upd 7 j' w)
                 /\ state j' = queued /\ error_message j' = Some note
                 /\ PyStr.contains "offline" note = true.
Proof.
  assert (H : jobs (Sample.world_of Sample.cfg (Sample.on_printer 2 Sample.job0)) !! 7
              = Some (Sample.on_printer 2 Sample.job0)) by reflexivity.
  assert (Hs : submittable (Sample.on_printer 2 Sample.job0))
    by (split; [left; reflexivity | eexists; reflexivity]).
  assert (Ha : pr_active (printer_of (Sample.world_of Sample.cfg (Sample.on_printer 2 Sample.job0))
                                     (Sample.on_printer 2 Sample.job0)) = false)
    by reflexivity.
  exact (conj (conj H (conj Hs Ha))
              (proj1 (proj2 (proj2 (submit_job_spec _ _ _ H))) Hs Ha)).
Defined.

(** C2, as the code has it: on a queued job whose printer is inactive
    [process_job] catches its own [ValidationError], returns [False] and
    leaves the job failed with the error text; when the printer is active
    but lacks the capability for the job's format the job is left failed as
    well. *)
Theorem process_job_unready w jid j :
  jobs w !! jid = Some j ->
  state j = queued ->
  (pr_active (printer_of w j) = false ->
   exists j', process_job jid w = (Ok false, upd jid j' w)
              /\ state j' = failed
              /\ error_message j'
                 = Some ("Printer " +:+ pr_name (printer_of w j) +:+ " is not active"))
  /\ (pr_active (printer_of w j) = true ->
      format_supported (data_format j) (printer_of w j) = false ->
      exists j', jobs (snd (process_job jid w)) !! jid = Some j' /\ state j' = failed).
Proof.
  intros Hj Hs. split.
  - intros Ha. eexists. split.
    + apply (process_job_not_ready _ _ _ Hj); [by left | by rewrite Ha].
    + split; [apply state_process_failure|].
      unfold process_failure, process_error. rewrite Ha.
      by destruct (_is_transient_error _).
  - intros Ha Hf. eexists.
    rewrite (process_job_not_ready _ _ _ Hj) by (by left || by rewrite Ha, Hf).
    split; [apply lookup_upd | apply state_process_failure].
Qed.

Lemma process_job_unready_witness :
  let j := Sample.with_state queued (Sample.on_printer 2 Sample.job0) in
  let w := Sample.world_of Sample.cfg j in
  (jobs w !! 7 = Some j /\ state j = queued /\ pr_active (printer_of w j) = false)
  /\ exists j', process_job 7 w = (Ok false, upd 7 j' w)
              /\ state j' = failed
              /\ error_message j'
                 = Some ("Printer " +:+ pr_name (printer_of w j) +:+ " is not active").
Proof.
  assert (H : jobs (Sample.world_of Sample.cfg
                      (Sample.with_state queued (Sample.on_printer 2 Sample.job0))) !! 7
              = Some (Sample.with_state queued (Sample.on_printer 2 Sample.job0)))
    by reflexivity.
  assert (Hs : state (Sample.with_state queued (Sample.on_printer 2 Sample.job0)) = queued)
    by reflexivity.
  assert (Ha : pr_active
                 (printer_of (Sample.world_of Sample.cfg
                                (Sample.with_state queued (Sample.on_printer 2 Sample.job0)))
                    (Sample.with_state queued (Sample.on_printer 2 Sample.job0))) = false)
    by reflexivity.
  exact (conj (conj H (conj Hs Ha)) (proj1 (process_job_unready _ _ _ H Hs) Ha)).
Defined.

(** C2 as stated fails: with the printer paused no exception reaches the
    caller, [process_job] returns [False]. *)
Lemma process_job_swallows_error :
  fst (process_job 7 (Sample.world_of Sample.cfg
                        (Sample.with_state queued (Sample.on_printer 2 Sample.job0))))
  = Ok false.
Proof. reflexivity. Qed.

(** ** Retrying *)

Lemma jobs_notify jid k w :
  jobs (snd (_notify_admin_failure jid w)) !! k = jobs w !! k.
Proof. reflexivity. Qed.

Lemma admin_calls_notify jid w :
  admin_calls (snd (_notify_admin_failure jid w)) = admin_calls w ++ [jid].
Proof. reflexivity. Qed.




(** One call of [retry_job] on a failed job with a transient error: the
    call returns, the configuration is untouched, and the job either used
    one more retry or had none left. *)
Lemma retry_job_progress w jid j m :
  jobs w !! jid = Some j ->
  state j = failed ->
  retry_enabled (config w) = true ->
  error_message j = Some m ->
  _is_transient_error m = true ->
  0 <= retry_count j ->
  exists b j1 w1,
    retry_job jid w = (Ok b, w1)
    /\ jobs w1 !! jid = Some j1
    /\ config w1 = config w
    /\ (admin_calls w1 = admin_calls w \/ admin_calls w1 = admin_calls w ++ [jid])
    /\ (retry_count j1 = retry_count j + 1
        \/ (max_retries (config w) <= retry_count j /\ retry_count j1 = retry_count j)).
Proof.
  intros Hj Hs He Hm Ht H0.
  destruct (Z.le_gt_cases (max_retries (config w)) (retry_count j)) as [Hge|Hlt].
  - do 3 eexists. split; [by apply (retry_job_exhausted _ _ _ Hj m)|].
    rewrite jobs_notify, lookup_upd, admin_calls_notify. repeat split; auto.
  - rewrite (retry_job_transient _ _ _ Hj m) by (done || lia).
    pose proof (lookup_upd jid (requeued w j m) w) as Hq.
    destruct (printer_ready (upd jid (requeued w j m) w) (requeued w j m)) eqn:Hr.
    + apply andb_true_iff in Hr as [Ha Hf].
      rewrite (process_job_ready _ _ _ Hq) by (done || by left).
      rewrite upd_upd. do 3 eexists. split; [done|].
      rewrite lookup_upd. repeat split; auto.
    + rewrite (process_job_not_ready _ _ _ Hq) by (done || by left).
      rewrite upd_upd. do 3 eexists. split; [done|].
      rewrite lookup_upd, retry_count_process_failure. repeat split; auto.
Qed.

Lemma exhausted_note_mentions_limit m :
  PyStr.contains "Maximum retry count exceeded"
    (m +:+ nl +:+ "Maximum retry count exceeded") = true.
Proof. apply contains_append_r, contains_append_r. reflexivity. Qed.

(** Enough rounds of transient failures use up the retry budget: the last
    call of [retry_job] finds no retry left. *)
Lemma retry_rounds_exhaust jid failures :
  forall w j m,
    jobs w !! jid = Some j ->
    state j = failed ->
    retry_enabled (config w) = true ->
    error_message j = Some m ->
    _is_transient_error m = true ->
    0 <= retry_count j ->
    Forall (fun f => _is_transient_error f = true) failures ->
    max_retries (config w) - retry_count j <= Z.of_nat (length failures) ->
    exists j' w' note,
      retry_rounds jid failures w = (Ok false, w')
      /\ jobs w' !! jid = Some j'
      /\ state j' = failed
      /\ is_Some (completed_date j')
      /\ error_message j' = Some note
      /\ PyStr.contains "Maximum retry count exceeded" note = true
      /\ jid ∈ admin_calls w'.
Proof.
  induction failures as [|f later IH]; intros w j m Hj Hs He Hm Ht H0 Hall Hlen.
  - cbn [retry_rounds]. simpl in Hlen.
    rewrite (retry_job_exhausted _ _ _ Hj m) by (done || lia).
    exists (exhausted w j m). do 2 eexists. split; [done|].
    rewrite jobs_notify, lookup_upd, admin_calls_notify.
    repeat split; [done | by eexists | apply exhausted_note_mentions_limit |].
    apply elem_of_app. right. by apply list_elem_of_singleton.
  - destruct (retry_job_progress w jid j m Hj Hs He Hm Ht H0)
      as (b & j1 & w1 & Hr & Hj1 & Hc & _ & Hcount).
    apply Forall_cons in Hall as [Hf Hall].
    cbn [retry_rounds]. unfold bind at 1. rewrite Hr.
    unfold bind at 1, record_failure.
    rewrite (write_some _ _ _ _ Hj1) by (simpl; discriminate).
    apply (IH _ _ f (lookup_upd _ _ _)); try done.
    + change (config (upd jid (apply_vals j1 [F_state failed; F_error_message (Some f)]) w1))
        with (config w1). by rewrite Hc.
    + change (retry_count (apply_vals j1 [F_state failed; F_error_message (Some f)]))
        with (retry_count j1). lia.
    + change (config (upd jid (apply_vals j1 [F_state failed; F_error_message (Some f)]) w1))
        with (config w1).
      change (retry_count (apply_vals j1 [F_state failed; F_error_message (Some f)]))
        with (retry_count j1).
      rewrite Hc. simpl in Hlen. lia.
Qed.

(** C1, as the code has it.  With retries enabled, [retry_job] on a failed
    job with a transient error and retries left increments [retry_count] by
    exactly 1 and runs [process_job]: the job ends printing when its
    printer is active and supports its format, and failed otherwise.
    Called [max_retries + 1] times on a job that fails transiently after
    each call, it leaves the job failed with [completed_date] set,
    "Maximum retry count exceeded" in [error_message] and the
    administrator notification invoked. *)
Theorem retry_job_transient_spec w jid j m :
  jobs w !! jid = Some j ->
  state j = failed ->
  error_message j = Some m ->
  _is_transient_error m = true ->
  retry_enabled (config w) = true ->
  0 <= retry_count j ->
  (retry_count j < max_retries (config w) ->
   exists j', retry_job jid w = (Ok (printer_ready w j), upd jid j' w)
              /\ retry_count j' = retry_count j + 1
              /\ state j' = if printer_ready w j then printing else failed)
  /\ (forall failures,
        Forall (fun f => _is_transient_error f = true) failures ->
        length failures = Z.to_nat (max_retries (config w)) ->
        exists j' w' note,
          retry_rounds jid failures w = (Ok false, w')
          /\ jobs w' !! jid = Some j'
          /\ state j' = failed
          /\ is_Some (completed_date j')
          /\ error_message j' = Some note
          /\ PyStr.contains "Maximum retry count exceeded" note = true
          /\ jid ∈ admin_calls w').
Proof.
  intros Hj Hs Hm Ht He H0. split.
  - intros Hlt.
    rewrite (retry_job_transient _ _ _ Hj m) by (done || lia).
    pose proof (lookup_upd jid (requeued w j m) w) as Hq.
    change (printer_ready w j)
      with (printer_ready (upd jid (requeued w j m) w) (requeued w j m)).
    destruct (printer_ready (upd jid (requeued w j m) w) (requeued w j m)) eqn:Hr.
    + apply andb_true_iff in Hr as [Ha Hf].
      rewrite (process_job_ready _ _ _ Hq) by (done || by left).
      rewrite upd_upd. by eexists.
    + rewrite (process_job_not_ready _ _ _ Hq) by (done || by left).
      rewrite upd_upd. eexists. split; [done|].
      by rewrite retry_count_process_failure, state_process_failure.
  - intros failures Hall Hlen.
    apply (retry_rounds_exhaust jid failures w j m); try done. lia.
Qed.

Lemma retry_job_transient_spec_witness :
  let j := Sample.with_error "Connection timeout" (Sample.with_state failed Sample.job0) in
  let w := Sample.world_of Sample.cfg j in
  let failures := ["Connection timeout"; "Network error"; "Printer busy"]%string in
  (jobs w !! 7 = Some j /\ state j = failed
   /\ error_message j = Some "Connection timeout"%string
   /\ _is_transient_error "Connection timeout" = true
   /\ retry_enabled (config w) = true
   /\ 0 <= retry_count j < max_retries (config w)
   /\ Forall (fun f => _is_transient_error f = true) failures
   /\ length failures = Z.to_nat (max_retries (config w)))
  /\ (exists j', retry_job 7 w = (Ok (printer_ready w j), upd 7 j' w)
              /\ retry_count j' = retry_count j + 1
              /\ state j' = if printer_ready w j then printing else failed)
  /\ (exists j' w' note,
          retry_rounds 7 failures w = (Ok false, w')
          /\ jobs w' !! 7 = Some j'
          /\ state j' = failed
          /\ is_Some (completed_date j')
          /\ error_message j' = Some note
          /\ PyStr.contains "Maximum retry count exceeded" note = true
          /\ 7 ∈ admin_calls w').
Proof.
  set (j := Sample.with_error "Connection timeout" (Sample.with_state failed Sample.job0)).
  set (w := Sample.world_of Sample.cfg j).
  set (failures := ["Connection timeout"; "Network error"; "Printer busy"]%string).
  assert (H : jobs w !! 7 = Some j) by reflexivity.
  assert (Hs : state j = failed) by reflexivity.
  assert (Hm : error_message j = Some "Connection timeout"%string) by reflexivity.
  assert (Ht : _is_transient_error "Connection timeout" = true) by reflexivity.
  assert (He : retry_enabled (config w) = true) by reflexivity.
  assert (H0 : 0 <= retry_count j) by (vm_compute; discriminate).
  assert (Hl : retry_count j < max_retries (config w)) by reflexivity.
  assert (Hall : Forall (fun f => _is_transient_error f = true) failures)
    by (repeat constructor).
  assert (Hlen : length failures = Z.to_nat (max_retries (config w))) by reflexivity.
  pose proof (retry_job_transient_spec w 7 j _ H Hs Hm Ht He H0) as T.
  exact (conj (conj H (conj Hs (conj Hm (conj Ht (conj He (conj (conj H0 Hl)
                                                           (conj Hall Hlen)))))))
              (conj (proj1 T Hl) (proj2 T failures Hall Hlen))).
Defined.

(** C1 as stated fails twice: when the job's printer is paused the retry
    is counted but the job ends failed, neither queued nor printing; and
    with retries switched off the counter does not move. *)
Lemma retry_job_not_always_requeued :
  let j := Sample.with_error "Connection timeout" (Sample.with_state failed Sample.job0) in
  (let r := retry_job 7 (Sample.world_of Sample.cfg (Sample.on_printer 2 j)) in
   retry_count <$> jobs (snd r) !! 7 = Some 1
   /\ state <$> jobs (snd r) !! 7 = Some failed)
  /\ (let r := retry_job 7 (Sample.world_of (mkConfig false 3 5 false) j) in
      retry_count <$> jobs (snd r) !! 7 = Some 0
      /\ state <$> jobs (snd r) !! 7 = Some failed).
Proof. repeat split; reflexivity. Qed.

(** ** Printer selection *)

Section SortDescending.

Context {A : Type}.

Let by_score (a b : Z * A) : bool := fst b <=? fst a.

Lemma insert_by_length (le : Z * A -> Z * A -> bool) x l :
  length (insert_by le x l) = S (length l).
Proof.
  induction l as [|y l IH]; simpl; [done|].
  destruct (le x y); simpl; by rewrite ?IH.
Qed.

Lemma sort_by_length (le : Z * A -> Z * A -> bool) l :
  length (sort_by le l) = length l.
Proof.
  induction l as [|x l IH]; simpl; [done|].
  by rewrite insert_by_length, IH.
Qed.

(** The first element of a list sorted by descending score is one of its
    elements and no element scores higher. *)
Lemma sort_by_score_head l x r :
  sort_by by_score l = x :: r ->
  x ∈ l /\ forall y, y ∈ l -> fst y <= fst x.
Proof.
  revert x r. induction l as [|a l IH]; intros x r; simpl; [discriminate|].
  destruct (sort_by by_score l) as [|h t] eqn:Hs.
  - pose proof (sort_by_length by_score l) as Hl. rewrite Hs in Hl.
    destruct l; [|discriminate]. simpl. intros [= <- <-].
    split; [apply list_elem_of_here|].
    intros y Hy. apply list_elem_of_singleton in Hy. subst. lia.
  - destruct (IH h t eq_refl) as [Hh Hmax]. simpl.
    unfold by_score at 1. destruct (Z.leb_spec (fst h) (fst a)) as [Hle|Hgt].
    + intros [= <- <-]. split; [apply list_elem_of_here|].
      intros y Hy. apply elem_of_cons in Hy as [->|Hy]; [lia|].
      specialize (Hmax y Hy). lia.
    + intros [= <- <-]. split; [by apply list_elem_of_further|].
      intros y Hy. apply elem_of_cons in Hy as [->|Hy]; [lia|]. auto.
Qed.

End SortDescending.

(** [_select_best_printer] picks a candidate of the highest score. *)
Lemma select_best_printer_max candidates location dept :
  candidates <> [] ->
  exists best,
    _select_best_printer candidates location dept = Some best
    /\ best ∈ candidates
    /\ forall p, p ∈ candidates ->
         printer_score location dept (snd p) <= printer_score location dept (snd best).
Proof.
  intros Hne. destruct candidates as [|p0 [|p1 rest]]; [done| |].
  - exists p0. split; [done|]. split; [apply list_elem_of_here|].
    intros p Hp. apply list_elem_of_singleton in Hp. subst. lia.
  - set (cands := p0 :: p1 :: rest).
    set (scored := map (fun p => (printer_score location dept (snd p), p)) cands).
    change (_select_best_printer cands location dept)
      with (match sort_by (fun a b : Z * (Z * Printer) => fst b <=? fst a) scored with
            | best :: _ => Some (snd best)
            | [] => None
            end).
    destruct (sort_by _ scored) as [|[s best] t] eqn:Hs.
    + pose proof (sort_by_length (fun a b : Z * (Z * Printer) => fst b <=? fst a) scored) as Hl.
      rewrite Hs in Hl. discriminate.
    + apply sort_by_score_head in Hs as [Hin Hmax].
      apply list_elem_of_fmap in Hin as (q & [= -> ->] & Hq).
      exists q. split; [done|]. split; [done|].
      intros p Hp.
      apply (Hmax (printer_score location dept (snd p), p)).
      apply list_elem_of_fmap. by exists p.
Qed.

(** C5 on the failing input: of two active label printers, the default
    one (priority 1) and a non-default one of priority 20000, selection
    returns the non-default one: its score 20150 beats 10151. *)
Theorem default_printer_outscored :
  (fst <$> get_default_printer (Sample.label_shop 20000) (Some label) None None) = Some 2
  /\ printer_score None None Sample.default_label = 10151
  /\ printer_score None None (Sample.plain_label 20000) = 20150.
Proof. repeat split; vm_compute; reflexivity. Qed.

(** ** Batching and naming on the inputs that break them *)

(** C6 on the failing input: three label jobs on one printer, the first
    never submitted ([submitted_date] unset) and the others submitted.
    Sorting by [submitted_date] compares [False] with a date:
    [batch_label_jobs] raises [TypeError], creates no batch job and
    cancels nothing. *)
Theorem batch_mixed_dates_raises :
  let w := Sample.label_world None (Some "2024-05-01 08:00:00"%string)
                              (Some "2024-05-01 09:00:00"%string) None in
  Forall (fun i => exists j, jobs w !! i = Some j
                             /\ is_label_type j = true /\ printer_id j = Some 5) [1; 2; 3]
  /\ (exists msg, fst (batch_label_jobs [1; 2; 3] w) = Raise (TypeError msg))
  /\ snd (batch_label_jobs [1; 2; 3] w) = w.
Proof.
  split; [|split].
  - repeat constructor; eexists; (split; [reflexivity|split; reflexivity]).
  - eexists. vm_compute. reflexivity.
  - vm_compute. reflexivity.
Qed.

(** C8 on the failing input: with no [ir.sequence] of code
    ['qz.print.job'] installed every generated name ends in [New], and two
    jobs of one document type on one printer get the same name. *)
Theorem job_names_collide_without_sequence :
  let v := mkJobVals None "receipt" 5 None None None pdf None None None None None None
                     None None in
  let w := Sample.label_world None None None None in
  let r := (do a <- create_one v; do b <- create_one v; ret (a, b)) w in
  fst r = Ok (4, 5)
  /\ name <$> jobs (snd r) !! 4 = Some (Some "receipt-Zebra-New"%string)
  /\ name <$> jobs (snd r) !! 5 = Some (Some "receipt-Zebra-New"%string).
Proof. repeat split; vm_compute; reflexivity. Qed.

(** ** What printer selection does guarantee *)

Lemma insert_by_perm {A} (le : A -> A -> bool) x l : insert_by le x l ≡ₚ x :: l.
Proof.
  induction l as [|y l IH]; simpl; [done|].
  destruct (le x y); [done|]. rewrite IH. apply Permutation_swap.
Qed.

Lemma sort_by_perm {A} (le : A -> A -> bool) l : sort_by le l ≡ₚ l.
Proof.
  induction l as [|x l IH]; simpl; [done|].
  rewrite insert_by_perm. by rewrite IH.
Qed.

(** [search] returns exactly the stored printers that satisfy the domain. *)
Lemma elem_of_search_printers w ptype location dept r :
  r ∈ search_printers w ptype location dept
  <-> printers w !! fst r = Some (snd r) /\ in_domain ptype location dept (snd r) = true.
Proof.
  unfold search_printers. rewrite sort_by_perm, list_elem_of_filter.
  destruct r as [i p]. rewrite elem_of_map_to_list. simpl. tauto.
Qed.

Lemma printer_score_plain location dept p :
  is_default p = false -> printer_score location dept p <= 1500 + p_priority p.
Proof.
  intros Hd. unfold printer_score. rewrite Hd.
  repeat match goal with |- context [if ?c then _ else _] => destruct c end; lia.
Qed.

Lemma printer_score_default location dept p :
  is_default p = true -> 10000 + p_priority p <= printer_score location dept p.
Proof.
  intros Hd. unfold printer_score. rewrite Hd.
  repeat match goal with |- context [if ?c then _ else _] => destruct c end; lia.
Qed.

(** While every priority stays below 8500 the bonus of the default flag
    decides: if a default printer is among the candidates, the selected
    printer is a default one. *)
Theorem default_printer_selected w ptype location dept i d :
  (forall k p, printers w !! k = Some p -> 0 <= p_priority p < 8500) ->
  printers w !! i = Some d ->
  in_domain ptype location dept d = true ->
  is_default d = true ->
  exists best,
    get_default_printer w ptype location dept = Some best
    /\ printers w !! fst best = Some (snd best)
    /\ is_default (snd best) = true.
Proof.
  intros Hprio Hi Hdom Hdef.
  assert (Hin : (i, d) ∈ search_printers w ptype location dept)
    by (by apply elem_of_search_printers).
  assert (Hne : search_printers w ptype location dept <> [])
    by (intros E; rewrite E in Hin; by apply not_elem_of_nil in Hin).
  destruct (select_best_printer_max _ location dept Hne) as (best & Hsel & Hb & Hmax).
  exists best. split.
  - unfold get_default_printer.
    destruct (search_printers w ptype location dept); [done|]. exact Hsel.
  - apply elem_of_search_printers in Hb as [Hlook _]. split; [done|].
    destruct (is_default (snd best)) eqn:Hbd; [done|].
    pose proof (Hmax _ Hin) as Hle. simpl in Hle.
    pose proof (printer_score_plain location dept _ Hbd).
    pose proof (printer_score_default location dept _ Hdef).
    pose proof (Hprio _ _ Hlook). pose proof (Hprio _ _ Hi). lia.
Qed.

Lemma default_printer_selected_witness :
  let w := Sample.label_shop 100 in
  ((forall k p, printers w !! k = Some p -> 0 <= p_priority p < 8500)
   /\ printers w !! 1 = Some Sample.default_label
   /\ in_domain (Some label) None None Sample.default_label = true
   /\ is_default Sample.default_label = true)
  /\ exists best,
       get_default_printer w (Some label) None None = Some best
       /\ printers w !! fst best = Some (snd best)
       /\ is_default (snd best) = true.
Proof.
  assert (Hp : forall k p, printers (Sample.label_shop 100) !! k = Some p ->
                           0 <= p_priority p < 8500).
  { intros k p. unfold Sample.label_shop. cbn [printers].
    rewrite lookup_insert. case_decide.
    - intros [= <-]. vm_compute. split; [discriminate | reflexivity].
    - rewrite lookup_singleton. case_decide; [|discriminate].
      intros [= <-]. vm_compute. split; [discriminate | reflexivity]. }
  assert (H1 : printers (Sample.label_shop 100) !! 1 = Some Sample.default_label)
    by reflexivity.
  assert (Hd : in_domain (Some label) None None Sample.default_label = true)
    by reflexivity.
  assert (Hf : is_default Sample.default_label = true) by reflexivity.
  exact (conj (conj Hp (conj H1 (conj Hd Hf)))
              (default_printer_selected _ _ _ _ _ _ Hp H1 Hd Hf)).
Defined.

(** [get_default_printer] returns a printer of the candidate pool (stored,
    active and matching the filters) whose score no candidate exceeds. *)
Theorem get_default_printer_highest w ptype location dept best :
  get_default_printer w ptype location dept = Some best ->
  printers w !! fst best = Some (snd best)
  /\ in_domain ptype location dept (snd best) = true
  /\ forall k p, printers w !! k = Some p ->
       in_domain ptype location dept p = true ->
       printer_score location dept p <= printer_score location dept (snd best).
Proof.
  unfold get_default_printer. intros Hsel.
  destruct (search_printers w ptype location dept) as [|c cs] eqn:Hs; [discriminate|].
  destruct (select_best_printer_max (c :: cs) location dept) as (b & Hb & Hin & Hmax);
    [done|].
  rewrite Hsel in Hb. injection Hb as <-.
  rewrite <- Hs in Hin, Hmax.
  apply elem_of_search_printers in Hin as [Hl Hd]. split; [done|]. split; [done|].
  intros k p Hk Hp. apply (Hmax (k, p)). by apply elem_of_search_printers.
Qed.

Lemma get_default_printer_highest_witness :
  let w := Sample.label_shop 100 in
  get_default_printer w (Some label) None None = Some (1, Sample.default_label)
  /\ printers w !! 1 = Some Sample.default_label
  /\ in_domain (Some label) None None Sample.default_label = true
  /\ forall k p, printers w !! k = Some p ->
       in_domain (Some label) None None p = true ->
       printer_score None None p <= printer_score None None Sample.default_label.
Proof.
  assert (H : get_default_printer (Sample.label_shop 100) (Some label) None None
              = Some (1, Sample.default_label)) by (vm_compute; reflexivity).
  exact (conj H (get_default_printer_highest _ _ _ _ _ H)).
Defined.

(** ** Names *)

Lemma str_append_cons x a b : String x a +:+ b = String x (a +:+ b).
Proof. reflexivity. Qed.

Lemma str_append_nil_l b : EmptyString +:+ b = b.
Proof. reflexivity. Qed.

Lemma str_append_assoc a b c : (a +:+ b) +:+ c = a +:+ (b +:+ c).
Proof.
  induction a as [|x a IH]; [done|].
  rewrite !str_append_cons. by rewrite IH.
Qed.

Lemma str_append_nil_r a : a +:+ EmptyString = a.
Proof.
  induction a as [|x a IH]; [done|].
  rewrite str_append_cons. by rewrite IH.
Qed.

(** Splitting a text without ['-'] gives the text back in one piece. *)
Lemma split_from_no_dash acc x :
  no_dash x = true -> PyStr.split_from "-" acc x = [acc +:+ x].
Proof.
  revert acc. induction x as [|c x IH]; intros acc H; simpl in *.
  - by rewrite str_append_nil_r.
  - apply andb_true_iff in H as [Hc Hx].
    apply negb_true_iff in Hc. rewrite Hc.
    rewrite IH by done. by rewrite str_append_assoc.
Qed.

(** The last piece of [a-x] is [x] when [x] holds no ['-']. *)
Lemma split_last_piece a x acc :
  no_dash x = true ->
  last (PyStr.split_from "-" acc (a +:+ "-" +:+ x)) = Some x.
Proof.
  intros Hx. revert acc. induction a as [|c a IH]; intros acc.
  - rewrite str_append_nil_l, str_append_cons, str_append_nil_l. simpl.
    by rewrite split_from_no_dash.
  - rewrite str_append_cons. simpl. destruct (Ascii.eqb c "-").
    + rewrite last_cons. by rewrite IH.
    + apply IH.
Qed.

(** Names that end in different dash-free values are different. *)
Lemma dashed_names_differ a b x y :
  no_dash x = true -> no_dash y = true ->
  a +:+ "-" +:+ x = b +:+ "-" +:+ y -> x = y.
Proof.
  intros Hx Hy E.
  pose proof (split_last_piece a x EmptyString Hx) as H1.
  pose proof (split_last_piece b y EmptyString Hy) as H2.
  rewrite E in H1. congruence.
Qed.

(** The piece [create] takes from a default name is the sequence value. *)
Lemma default_name_sequence_part x :
  no_dash x = true ->
  PyStr.split "-" ("PrintJob-" +:+ x) !! 1%nat = Some x.
Proof.
  intros Hx. unfold PyStr.split.
  rewrite !str_append_cons, str_append_nil_l. simpl.
  by rewrite split_from_no_dash.
Qed.

Lemma default_name_startswith x :
  PyStr.startswith ("PrintJob-" +:+ x) "PrintJob-" = true.
Proof.
  unfold PyStr.startswith. rewrite !str_append_cons, str_append_nil_l.
  simpl. by destruct x.
Qed.

Lemma split_from_head sep acc x :
  exists h, PyStr.split_from sep acc x !! 0%nat = Some h.
Proof.
  revert acc. induction x as [|c x IH]; intros acc; simpl; [by eexists|].
  destruct (Ascii.eqb c sep); [by eexists|]. apply IH.
Qed.

(** A default name always has a second piece. *)
Lemma default_name_has_part x :
  PyStr.split "-" ("PrintJob-" +:+ x) !! 1%nat = Some (sequence_part_of x).
Proof.
  unfold sequence_part_of, PyStr.split.
  rewrite !str_append_cons, str_append_nil_l. simpl.
  destruct (split_from_head "-" EmptyString x) as [h ->]. done.
Qed.

Lemma check_constraints_valid v nm u :
  vals_valid v -> check_constraints (new_job v nm u) = Ok tt.
Proof.
  intros (Hc & Hp & Hr). unfold check_constraints, _check_copies, _check_priority,
    _check_retry_count. simpl.
  destruct (Z.ltb_spec (default 1 (v_copies v)) 1); [lia|].
  destruct (Z.ltb_spec (default 5 (v_priority v)) 0); [lia|].
  destruct (Z.ltb_spec (default 0 (v_retry_count v)) 0); [lia|]. done.
Qed.

Lemma get_default_name_eq w :
  _get_default_name w
  = (Ok ("PrintJob-" +:+ next_value w), with_sequence (advance_sequence (job_sequence w)) w).
Proof.
  unfold _get_default_name, next_by_code, bind, ret, next_value, with_sequence.
  destruct (job_sequence w) as [s|] eqn:E; cbn beta iota delta [advance_sequence].
  2: { destruct w; simpl in *. by subst. }
  by destruct (PyStr.truthy (Some (seq_render s (seq_next s)))).
Qed.

Lemma base_create_eq w v :
  v_name v = None ->
  is_Some (printers w !! v_printer_id v) ->
  vals_valid v ->
  base_create v w
  = (Ok (next_job_id w),
     mkWorld (<[next_job_id w :=
                 new_job v (Some ("PrintJob-" +:+ next_value w))
                         (default (uid w) (v_user_id v))]> (jobs w))
             (printers w) (config w) (clock w) (uid w) (next_job_id w + 1)
             (next_printer_id w) (advance_sequence (job_sequence w))
             (admin_calls w) (mail_stage w)).
Proof.
  intros Hn Hpr Hv. unfold base_create, bind. rewrite Hn, get_default_name_eq.
  unfold get_world. cbn beta iota.
  change (printers (with_sequence (advance_sequence (job_sequence w)) w)) with (printers w).
  rewrite (bool_decide_eq_true_2 _ Hpr). cbn [negb].
  rewrite check_constraints_valid by done. reflexivity.
Qed.

Lemma enhance_default_name w rid j x :
  jobs w !! rid = Some j ->
  name j = Some ("PrintJob-" +:+ x) ->
  enhance_name rid w
  = (Ok tt,
     upd rid (set_field j (F_name (doc_type_of (document_type j) +:+ "-" +:+
                 match printer_of w j with Some p => p_name p | None => "Unknown" end
                 +:+ "-" +:+ sequence_part_of x))) w).
Proof.
  intros Hj Hn. unfold enhance_name. mrun. rewrite Hn.
  cbn [PyStr.show]. rewrite default_name_startswith.
  replace (PyStr.truthy (Some ("PrintJob-" +:+ x))) with true
    by (by rewrite str_append_cons).
  mrun. rewrite default_name_has_part. mrun. reflexivity.
Qed.

(** [create] with a default name, on values that pass the foreign key and
    the constraints: the record is stored under the next id with the name
    built from document type, printer name and sequence value. *)
Lemma create_one_eq w v :
  v_name v = None ->
  is_Some (printers w !! v_printer_id v) ->
  vals_valid v ->
  create_one v w = (Ok (next_job_id w), created_world w v).
Proof.
  intros Hn Hpr Hv. unfold create_one, bind.
  rewrite base_create_eq by done.
  erewrite enhance_default_name; [|apply lookup_insert_eq|reflexivity].
  unfold ret, created_world, upd, with_jobs. cbn. by rewrite insert_insert_eq.
Qed.

Lemma truthy_nonempty x : x <> EmptyString -> PyStr.truthy (Some x) = true.
Proof. by destruct x. Qed.

Lemma dashed_nonempty a x : a +:+ "-" +:+ x <> EmptyString.
Proof. by destruct a. Qed.

(** With a well-behaved sequence installed, [create] names a new job
    [doctype-printer-value], with the next sequence value: the name is not
    empty, is built without the record's id, and differs from the name of
    every other job; the database stays one whose jobs are all named that
    way. *)
Theorem create_name_unique w v pr :
  jobs_sequenced w ->
  v_name v = None ->
  printers w !! v_printer_id v = Some pr ->
  vals_valid v ->
  exists s nm w',
    job_sequence w = Some s
    /\ create_one v w = (Ok (next_job_id w), w')
    /\ nm = doc_type_of (v_document_type v) +:+ "-" +:+ p_name pr +:+ "-" +:+
            seq_render s (seq_next s)
    /\ name <$> jobs w' !! next_job_id w = Some (Some nm)
    /\ nm <> EmptyString
    /\ (forall k j, k <> next_job_id w -> jobs w' !! k = Some j -> name j <> Some nm)
    /\ jobs_sequenced w'.
Proof.
  intros (s & Hseq & (Hne & Hnd & Hinj) & Hold & Huniq) Hn Hpr Hv.
  assert (Hval : next_value w = seq_render s (seq_next s)).
  { unfold next_value. rewrite Hseq. by rewrite truthy_nonempty. }
  assert (Hname : created_name w v
                  = (doc_type_of (v_document_type v) +:+ "-" +:+ p_name pr) +:+ "-" +:+
                    seq_render s (seq_next s)).
  { unfold created_name. rewrite Hpr, Hval.
    unfold sequence_part_of. rewrite default_name_sequence_part by done.
    cbn [default from_option id]. by rewrite !str_append_assoc. }
  assert (Hfresh : forall k j, jobs w !! k = Some j -> name j <> Some (created_name w v)).
  { intros k j Hk. destruct (Hold _ _ Hk) as (_ & a & n & Hlt & ->).
    rewrite Hname. intros [= E].
    apply dashed_names_differ in E; [|done..]. apply Hinj in E. lia. }
  exists s, (created_name w v), (created_world w v).
  split; [done|]. split; [apply create_one_eq; by eauto|].
  split; [by rewrite Hname, !str_append_assoc|].
  split; [unfold created_world; cbn [jobs]; by rewrite lookup_insert_eq|].
  split; [rewrite Hname; apply dashed_nonempty|].
  split.
  - intros k j Hk. unfold created_world. cbn [jobs].
    rewrite lookup_insert_ne by done. apply Hfresh.
  - exists (mkSequence (seq_render s) (S (seq_next s))).
    unfold created_world. cbn [job_sequence jobs next_job_id]. rewrite Hseq.
    split; [done|]. split; [done|]. split.
    + intros i j. rewrite lookup_insert. case_decide as Hi.
      * intros [= <-]. split; [lia|].
        exists (doc_type_of (v_document_type v) +:+ "-" +:+ p_name pr), (seq_next s).
        split; [simpl; lia|]. unfold created_job. cbn [name new_job]. by rewrite Hname.
      * intros Hj. destruct (Hold _ _ Hj) as (Hlt & a & n & Hn' & ->).
        split; [lia|]. exists a, n. split; [simpl; lia|done].
    + intros i1 i2 j1 j2 Hne'. rewrite !lookup_insert.
      repeat case_decide; subst; try done.
      * intros [= <-] H2 E. apply (Hfresh _ _ H2). by rewrite <- E.
      * intros H1 [= <-] E. apply (Hfresh _ _ H1). by rewrite E.
      * by apply Huniq.
Qed.

Lemma digits_no_dash d : no_dash (NilEmpty.string_of_uint d) = true.
Proof. induction d; simpl; auto. Qed.

Lemma pj_sequence_ok n : sequence_ok (Sample.pj_sequence n).
Proof.
  split; [|split]; cbn [Sample.pj_sequence seq_render].
  - intros k. by rewrite !str_append_cons.
  - intros k. rewrite !str_append_cons, str_append_nil_l. simpl. apply digits_no_dash.
  - intros k k'. rewrite !str_append_cons, !str_append_nil_l. intros [= E].
    apply Unsigned.to_uint_inj.
    pose proof (NilEmpty.usu (Nat.to_uint k)) as H1.
    pose proof (NilEmpty.usu (Nat.to_uint k')) as H2.
    rewrite E in H1. congruence.
Qed.

Lemma numbered_world_sequenced : jobs_sequenced Sample.numbered_world.
Proof.
  exists (Sample.pj_sequence 4). split; [done|]. split; [apply pj_sequence_ok|].
  unfold Sample.numbered_world. cbn [jobs next_job_id]. split.
  - intros i j. rewrite lookup_singleton. case_decide; [|done]. intros [= <-]. subst.
    split; [lia|]. exists "receipt-Zebra"%string, 3%nat. split; [simpl; lia|done].
  - intros i1 i2 j1 j2 Hne. rewrite !lookup_singleton.
    repeat case_decide; subst; done.
Qed.

Lemma create_name_unique_witness :
  (jobs_sequenced Sample.numbered_world
   /\ v_name Sample.receipt_vals = None
   /\ printers Sample.numbered_world !! v_printer_id Sample.receipt_vals = Some Sample.zebra
   /\ vals_valid Sample.receipt_vals)
  /\ exists s nm w',
       job_sequence Sample.numbered_world = Some s
       /\ create_one Sample.receipt_vals Sample.numbered_world
          = (Ok (next_job_id Sample.numbered_world), w')
       /\ nm = doc_type_of (v_document_type Sample.receipt_vals) +:+ "-" +:+
               p_name Sample.zebra +:+ "-" +:+ seq_render s (seq_next s)
       /\ name <$> jobs w' !! next_job_id Sample.numbered_world = Some (Some nm)
       /\ nm <> EmptyString
       /\ (forall k j, k <> next_job_id Sample.numbered_world ->
                       jobs w' !! k = Some j -> name j <> Some nm)
       /\ jobs_sequenced w'.
Proof.
  assert (Hn : v_name Sample.receipt_vals = None) by reflexivity.
  assert (Hp : printers Sample.numbered_world !! v_printer_id Sample.receipt_vals
               = Some Sample.zebra) by reflexivity.
  assert (Hv : vals_valid Sample.receipt_vals)
    by (repeat split; vm_compute; discriminate).
  exact (conj (conj numbered_world_sequenced (conj Hn (conj Hp Hv)))
              (create_name_unique _ _ _ numbered_world_sequenced Hn Hp Hv)).
Defined.

(** The witness computes: the second job is named from value 4. *)
Example create_numbered_name :
  name <$> jobs (snd (create_one Sample.receipt_vals Sample.numbered_world)) !! 2
  = Some (Some "receipt-Zebra-PJ4"%string).
Proof. vm_compute. reflexivity. Qed.

(** The printer table refuses a taken or blank name: after a successful
    [create] the new printer's name is not blank and no other printer has
    it. *)
Theorem create_printer_name w p pid w' :
  create_printer p w = (Ok pid, w') ->
  pid = next_printer_id w
  /\ printers w' !! pid = Some p
  /\ p_name p <> EmptyString
  /\ blank (p_name p) = false
  /\ forall k q, k <> pid -> printers w' !! k = Some q -> p_name q <> p_name p.
Proof.
  unfold create_printer, bind, get_world, raise.
  destruct (name_taken w (p_name p)) eqn:Ht; [discriminate|].
  unfold _check_name_not_empty.
  destruct (negb (PyStr.truthy (Some (p_name p))) || blank (p_name p))%bool eqn:Hb;
    [discriminate|].
  destruct (_check_printer_priority p); [|discriminate].
  intros [= <- <-]. cbn [printers].
  apply orb_false_iff in Hb as [Hb1 Hb2].
  split; [done|]. split; [apply lookup_insert_eq|].
  split; [intros E; rewrite E in Hb1; discriminate|]. split; [done|].
  intros k q Hk. rewrite lookup_insert_ne by done. intros Hq E.
  assert (name_taken w (p_name p) = true); [|congruence].
  unfold name_taken. apply existsb_exists. exists (k, q).
  split; [apply list_elem_of_In; by apply elem_of_map_to_list|].
  simpl. by apply String.eqb_eq.
Qed.

Lemma create_printer_name_witness :
  let w := Sample.label_shop 100 in
  let r := create_printer Sample.office w in
  create_printer Sample.office w = (Ok 3, snd r)
  /\ 3 = next_printer_id w
  /\ printers (snd r) !! 3 = Some Sample.office
  /\ p_name Sample.office <> EmptyString
  /\ blank (p_name Sample.office) = false
  /\ forall k q, k <> 3 -> printers (snd r) !! k = Some q -> p_name q <> p_name Sample.office.
Proof.
  assert (H : create_printer Sample.office (Sample.label_shop 100)
              = (Ok 3, snd (create_printer Sample.office (Sample.label_shop 100))))
    by (vm_compute; reflexivity).
  exact (conj H (create_printer_name _ _ _ _ H)).
Defined.

(** ** Batching label jobs *)

(** Reading a recordset whose records all exist. *)
Lemma read_all_eq w ids :
  Forall (fun i => is_Some (jobs w !! i)) ids ->
  exists rs, read_all ids w = (Ok rs, w)
             /\ map fst rs = ids
             /\ Forall (fun r => jobs w !! fst r = Some (snd r)) rs.
Proof.
  unfold read_all. induction ids as [|i ids IH]; intros Hall.
  - exists []. by repeat split.
  - apply Forall_cons in Hall as [[j Hj] Hall].
    destruct (IH Hall) as (rs & Hrs & Hfst & Hlook).
    exists ((i, j) :: rs). cbn [mapM]. unfold bind at 1 2.
    rewrite (read_some _ _ _ Hj). unfold ret at 1. unfold bind at 1.
    rewrite Hrs. split; [done|]. split; [simpl; by rewrite Hfst|].
    by constructor.
Qed.

Lemma uniq_seen seen l : Forall (fun x => x ∈ seen) l -> uniq seen l = [].
Proof.
  induction 1 as [|x l Hx _ IH]; simpl; [done|].
  by rewrite bool_decide_eq_true_2.
Qed.

(** Jobs that all point at one printer map to that printer alone. *)
Lemma mapped_printer_id_single p rs :
  rs <> [] ->
  Forall (fun r => printer_id (snd r) = Some p) rs ->
  mapped_printer_id rs = [p].
Proof.
  intros Hne Hall. unfold mapped_printer_id.
  assert (Hp : Forall (fun x => x = p) (omap (fun r => printer_id (snd r)) rs)).
  { apply Forall_forall. intros x Hx.
    apply list_elem_of_omap in Hx as (r & Hr & Hx).
    rewrite Forall_forall in Hall. specialize (Hall _ Hr). congruence. }
  destruct rs as [|r rs]; [done|].
  apply Forall_cons in Hall as [Hr _]. cbn [omap list_omap] in *. rewrite Hr in *.
  apply Forall_cons in Hp as [_ Hp]. cbn [uniq].
  rewrite bool_decide_eq_false_2 by apply not_elem_of_nil.
  rewrite uniq_seen; [done|].
  eapply Forall_impl; [exact Hp|]. intros x ->. apply list_elem_of_here.
Qed.

Lemma filter_all {A} (P : A -> Prop) `{!forall x, Decision (P x)} (l : list A) :
  Forall P l -> filter P l = l.
Proof.
  induction 1 as [|x l Hx _ IH]; [done|].
  rewrite filter_cons_True by done. by rewrite IH.
Qed.

(** Sorting by [submitted_date] succeeds when the dates are all unset or
    all set, and only permutes the records. *)
Lemma sorted_by_submitted_date_uniform rs :
  Forall (fun r => submitted_date (snd r) = None) rs
  \/ Forall (fun r => is_Some (submitted_date (snd r))) rs ->
  exists sorted, sorted_by_submitted_date rs = Ok sorted /\ sorted ≡ₚ rs.
Proof.
  unfold sorted_by_submitted_date. intros [H|H].
  - exists rs. split; [|done].
    replace (forallb _ rs) with true; [done|]. symmetry. apply forallb_forall.
    rewrite Forall_forall in H. intros r Hr. apply bool_decide_eq_true_2, H.
    by apply list_elem_of_In.
  - destruct (forallb (fun r => bool_decide (submitted_date (snd r) = None)) rs);
      [by exists rs|].
    eexists. split; [|apply sort_by_perm].
    replace (forallb _ rs) with true; [done|]. symmetry. apply forallb_forall.
    rewrite Forall_forall in H. intros r Hr. apply bool_decide_eq_true_2, H.
    by apply list_elem_of_In.
Qed.

Lemma fold_max_ge (rest : list (Z * Job)) m0 :
  m0 <= fold_left (fun m r => Z.max m (priority (snd r))) rest m0
  /\ forall r, r ∈ rest ->
       priority (snd r) <= fold_left (fun m r => Z.max m (priority (snd r))) rest m0.
Proof.
  revert m0. induction rest as [|x rest IH]; intros m0; simpl.
  - split; [lia|]. intros r Hr. by apply not_elem_of_nil in Hr.
  - destruct (IH (Z.max m0 (priority (snd x)))) as [H1 H2]. split; [lia|].
    intros r Hr. apply elem_of_cons in Hr as [->|Hr]; [lia|auto].
Qed.

Lemma fold_max_attained (rest : list (Z * Job)) m0 :
  fold_left (fun m r => Z.max m (priority (snd r))) rest m0 = m0
  \/ exists r, r ∈ rest
       /\ priority (snd r) = fold_left (fun m r => Z.max m (priority (snd r))) rest m0.
Proof.
  revert m0. induction rest as [|x rest IH]; intros m0; simpl; [by left|].
  destruct (IH (Z.max m0 (priority (snd x)))) as [H|(r & Hr & H)].
  - rewrite H. destruct (Z.max_spec m0 (priority (snd x))) as [[_ ->]|[_ ->]].
    + right. exists x. split; [apply list_elem_of_here|done].
    + by left.
  - right. exists r. split; [by apply list_elem_of_further|done].
Qed.

(** [max_priority] is the largest priority of the recordset. *)
Lemma max_priority_spec i first rest :
  (forall r, r ∈ (i, first) :: rest -> priority (snd r) <= max_priority first rest)
  /\ exists r, r ∈ (i, first) :: rest /\ priority (snd r) = max_priority first rest.
Proof.
  unfold max_priority. destruct (fold_max_ge rest (priority first)) as [H1 H2]. split.
  - intros r Hr. apply elem_of_cons in Hr as [->|Hr]; [done|auto].
  - destruct (fold_max_attained rest (priority first)) as [H|(r & Hr & H)].
    + exists (i, first). split; [apply list_elem_of_here|done].
    + exists r. split; [by apply list_elem_of_further|done].
Qed.

Lemma cancel_into_twice j bname t :
  apply_vals (apply_vals j (cancel_into bname t)) (cancel_into bname t)
  = apply_vals j (cancel_into bname t).
Proof. reflexivity. Qed.

(** The loop that cancels the constituents: every record of the recordset
    gets the dict, every other record is left alone. *)
Lemma forM_cancel bname (rs : list (Z * Job)) :
  forall w1,
    Forall (fun r => is_Some (jobs w1 !! fst r)) rs ->
    exists w2,
      forM rs (fun r => do t <- now; write (fst r) (cancel_into bname t)) w1 = (Ok tt, w2)
      /\ clock w2 = clock w1
      /\ forall k,
           jobs w2 !! k
           = if bool_decide (k ∈ map fst rs)
             then (fun j => apply_vals j (cancel_into bname (clock w1))) <$> jobs w1 !! k
             else jobs w1 !! k.
Proof.
  induction rs as [|r rs IH]; intros w1 Hall.
  - exists w1. split; [done|]. split; [done|]. intros k.
    rewrite bool_decide_eq_false_2; [done|]. apply not_elem_of_nil.
  - apply Forall_cons in Hall as [[j Hj] Hall].
    cbn [forM]. unfold bind at 1 2, now at 1.
    rewrite (write_some _ _ _ _ Hj) by (simpl; discriminate).
    set (w1' := upd (fst r) (apply_vals j (cancel_into bname (clock w1))) w1).
    destruct (IH w1') as (w2 & Hrun & Hclock & Hjobs).
    { eapply Forall_impl; [exact Hall|]. intros x Hx. unfold w1'. rewrite jobs_upd.
      rewrite lookup_insert. by case_decide. }
    exists w2. split; [done|]. split; [done|].
    intros k. rewrite Hjobs. change (clock w1') with (clock w1).
    unfold w1'. rewrite jobs_upd, lookup_insert. cbn [map].
    destruct (decide (fst r = k)) as [<-|Hne].
    + rewrite (bool_decide_eq_true_2 (fst r ∈ fst r :: map fst rs))
        by apply list_elem_of_here.
      rewrite Hj. case_bool_decide; [|done]. cbn [fmap option_fmap option_map].
      by rewrite cancel_into_twice.
    + case_bool_decide as H1; case_bool_decide as H2; try done.
      * exfalso. apply H2. by apply list_elem_of_further.
      * exfalso. apply elem_of_cons in H2 as [->|H2]; [done|]. by apply H1.
Qed.

(** The run of [batch_label_jobs] on two or more label jobs of one printer. *)
Lemma batch_label_jobs_run w p pr i1 i2 more :
  batchable w p (i1 :: i2 :: more) ->
  printers w !! p = Some pr ->
  dates_uniform w (i1 :: i2 :: more) ->
  ids_below_next w ->
  exists bj w',
    batch_label_jobs (i1 :: i2 :: more) w = (Ok [next_job_id w], w')
    /\ jobs w !! next_job_id w = None
    /\ jobs w' !! next_job_id w = Some bj
    /\ document_type bj = "label_batch"%string
    /\ copies bj = 1
    /\ printer_id bj = Some p
    /\ parent_model bj = Some "qz.print.job"%string
    /\ parent_id bj = Some i1
    /\ (forall i j, i ∈ i1 :: i2 :: more -> jobs w !! i = Some j ->
                    priority j <= priority bj)
    /\ (exists i j, i ∈ i1 :: i2 :: more /\ jobs w !! i = Some j
                    /\ priority j = priority bj)
    /\ (forall i, i ∈ i1 :: i2 :: more ->
          exists j', jobs w' !! i = Some j'
                     /\ state j' = cancelled
                     /\ error_message j'
                        = Some ("Combined into batch job " +:+ PyStr.show (name bj))
                     /\ completed_date j' = Some (clock w))
    /\ (forall k, k <> next_job_id w -> k ∉ i1 :: i2 :: more ->
                  jobs w' !! k = jobs w !! k)
    /\ state bj = draft.
Proof.
  intros Hb Hpr Hd Hfresh. unfold batchable in Hb. unfold dates_uniform in Hd.
  set (ids := i1 :: i2 :: more) in *.
  destruct (read_all_eq w ids) as (rs & Hread & Hfst & Hlook).
  { eapply Forall_impl; [exact Hb|]. intros i (j & Hj & _). by eexists. }
  assert (Hall : Forall (fun r => is_label_type (snd r) = true
                                  /\ printer_id (snd r) = Some p
                                  /\ 0 <= priority (snd r)) rs).
  { apply Forall_forall. intros r Hr.
    rewrite Forall_forall in Hb. rewrite Forall_forall in Hlook.
    destruct (Hb (fst r)) as (j & Hj & H).
    { rewrite <- Hfst. by apply list_elem_of_fmap_2. }
    rewrite (Hlook _ Hr) in Hj. by injection Hj as <-. }
  assert (Hdates : Forall (fun r => submitted_date (snd r) = None) rs
                   \/ Forall (fun r => is_Some (submitted_date (snd r))) rs).
  { rewrite Forall_forall in Hlook.
    destruct Hd as [Hd|Hd]; [left|right]; apply Forall_forall; intros r Hr;
      rewrite Forall_forall in Hd;
      (destruct (Hd (fst r)) as (j & Hj & H);
       [rewrite <- Hfst; by apply list_elem_of_fmap_2|]);
      rewrite (Hlook _ Hr) in Hj; by injection Hj as <-. }
  destruct rs as [|[a first] rest]; [discriminate|].
  injection Hfst as -> Hfst.
  destruct (sorted_by_submitted_date_uniform _ Hdates) as (sorted & Hsort & _).
  unfold batch_label_jobs. unfold ids at 1. cbn iota.
  unfold bind at 1. fold ids. rewrite Hread. unfold bind at 1, get_world at 1.
  rewrite (mapped_printer_id_single p)
    by (done || (eapply Forall_impl; [exact Hall|]; by intros ? (_ & ? & _))).
  cbn [length Nat.ltb Nat.leb].
  rewrite filter_all by (eapply Forall_impl; [exact Hall|]; by intros ? (? & _)).
  cbn iota beta. rewrite Hsort.
  set (v := batch_vals p i1 first rest (combine_data (data_format first) sorted)).
  change (mkJobVals _ _ _ _ _ _ _ _ _ _ _ _ _ _ _) with v.
  assert (Hfirst : 0 <= priority first).
  { apply Forall_cons in Hall as [(_ & _ & H) _]. exact H. }
  assert (Hvalid : vals_valid v).
  { repeat split; simpl; try lia.
    destruct (fold_max_ge rest (priority first)) as [H _]. unfold max_priority. lia. }
  assert (Hnew : jobs w !! next_job_id w = None).
  { destruct (jobs w !! next_job_id w) eqn:E; [|done].
    assert (next_job_id w < next_job_id w) by (apply Hfresh; by eexists). lia. }
  assert (Hold : forall i, i ∈ ids -> i <> next_job_id w).
  { intros i Hi ->. rewrite Forall_forall in Hb.
    destruct (Hb _ Hi) as (j & Hj & _). congruence. }
  unfold bind at 1. rewrite create_one_eq by (done || by eexists).
  set (w1 := created_world w v). set (bj := created_job w v).
  assert (Hw1 : forall k, jobs w1 !! k
                          = if decide (next_job_id w = k) then Some bj else jobs w !! k).
  { intros k. unfold w1, created_world. cbn [jobs]. apply lookup_insert. }
  unfold bind at 1. erewrite read_some by (rewrite Hw1; by case_decide).
  unfold bind at 1.
  destruct (forM_cancel (name bj) ((i1, first) :: rest) w1) as (w' & Hrun & _ & Hjobs).
  { eapply Forall_impl; [exact Hlook|]. intros r Hr. rewrite Hw1.
    case_decide; [by eexists|]. simpl in Hr. rewrite Hr. by eexists. }
  unfold cancel_into in Hrun. rewrite Hrun. unfold ret.
  change (clock w1) with (clock w) in Hjobs.
  change (map fst ((i1, first) :: rest)) with (i1 :: map fst rest) in Hjobs.
  rewrite Hfst in Hjobs. fold ids in Hjobs.
  exists bj, w'. split; [done|]. split; [done|]. split.
  { rewrite Hjobs, bool_decide_eq_false_2 by (intros Hi; by apply (Hold _ Hi)).
    rewrite Hw1. by case_decide. }
  do 5 (split; [done|]).
  assert (Hmem : forall i j, i ∈ ids -> jobs w !! i = Some j -> (i, j) ∈ (i1, first) :: rest).
  { intros i j Hi Hj. unfold ids in Hi. rewrite <- Hfst in Hi.
    change (i1 :: map fst rest) with (map fst ((i1, first) :: rest)) in Hi.
    apply list_elem_of_fmap in Hi as ([i' j'] & -> & Hr).
    rewrite Forall_forall in Hlook. specialize (Hlook _ Hr). simpl in *.
    by replace j with j' by congruence. }
  destruct (max_priority_spec i1 first rest) as [Hmax (r & Hr & Hatt)].
  split; [|split; [|split; [|split]]].
  - intros i j Hi Hj. apply (Hmax (i, j)). by apply Hmem.
  - exists (fst r), (snd r). split; [|split; [|done]].
    + unfold ids. rewrite <- Hfst.
      change (i1 :: map fst rest) with (map fst ((i1, first) :: rest)).
      by apply list_elem_of_fmap_2.
    + rewrite Forall_forall in Hlook. by apply Hlook.
  - intros i Hi. rewrite Hjobs, bool_decide_eq_true_2 by done.
    rewrite Hw1. case_decide as E; [by destruct (Hold _ Hi)|].
    rewrite Forall_forall in Hb. destruct (Hb _ Hi) as (j & Hj & _).
    rewrite Hj. by eexists.
  - intros k Hk Hnot. rewrite Hjobs, bool_decide_eq_false_2 by done.
    rewrite Hw1. by case_decide.
  - reflexivity.
Qed.

(** Two or more label jobs on one printer, all submitted or all not:
    [batch_label_jobs] creates exactly one job, of type [label_batch] with
    one copy, the highest priority of the constituents and a parent link to
    the first of them, and cancels every constituent with a message that
    names the batch job; no other record changes. *)
Theorem batch_label_jobs_spec w p pr i1 i2 more :
  batchable w p (i1 :: i2 :: more) ->
  printers w !! p = Some pr ->
  dates_uniform w (i1 :: i2 :: more) ->
  ids_below_next w ->
  exists bj w',
    batch_label_jobs (i1 :: i2 :: more) w = (Ok [next_job_id w], w')
    /\ jobs w !! next_job_id w = None
    /\ jobs w' !! next_job_id w = Some bj
    /\ document_type bj = "label_batch"%string
    /\ copies bj = 1
    /\ printer_id bj = Some p
    /\ parent_model bj = Some "qz.print.job"%string
    /\ parent_id bj = Some i1
    /\ (forall i j, i ∈ i1 :: i2 :: more -> jobs w !! i = Some j ->
                    priority j <= priority bj)
    /\ (exists i j, i ∈ i1 :: i2 :: more /\ jobs w !! i = Some j
                    /\ priority j = priority bj)
    /\ (forall i, i ∈ i1 :: i2 :: more ->
          exists j', jobs w' !! i = Some j'
                     /\ state j' = cancelled
                     /\ error_message j'
                        = Some ("Combined into batch job " +:+ PyStr.show (name bj))
                     /\ completed_date j' = Some (clock w))
    /\ (forall k, k <> next_job_id w -> k ∉ i1 :: i2 :: more ->
                  jobs w' !! k = jobs w !! k).
Proof.
  intros Hb Hpr Hd Hfresh.
  destruct (batch_label_jobs_run w p pr i1 i2 more Hb Hpr Hd Hfresh)
    as (bj & w' & H1 & H2 & H3 & H4 & H5 & H6 & H7 & H8 & H9 & H10 & H11 & H12 & _).
  exists bj, w'. do 11 (split; [assumption|]). assumption.
Qed.

Lemma label_world_ids_below d1 d2 d3 s : ids_below_next (Sample.label_world d1 d2 d3 s).
Proof.
  intros i. unfold Sample.label_world. cbn [jobs next_job_id].
  rewrite !lookup_insert, lookup_singleton.
  repeat case_decide; subst; try lia. by intros [? ?].
Qed.

Lemma batch_label_jobs_spec_witness :
  let w := Sample.label_world None None None None in
  (batchable w 5 [1; 2; 3]
   /\ printers w !! 5 = Some Sample.zebra
   /\ dates_uniform w [1; 2; 3]
   /\ ids_below_next w)
  /\ exists bj w',
       batch_label_jobs [1; 2; 3] w = (Ok [next_job_id w], w')
       /\ jobs w' !! next_job_id w = Some bj
       /\ document_type bj = "label_batch"%string
       /\ copies bj = 1
       /\ parent_id bj = Some 1
       /\ forall i, i ∈ [1; 2; 3] ->
            exists j', jobs w' !! i = Some j' /\ state j' = cancelled.
Proof.
  set (w := Sample.label_world None None None None).
  assert (Hb : batchable w 5 [1; 2; 3]).
  { repeat constructor; eexists; (split; [reflexivity|]);
      (split; [reflexivity|]); (split; [reflexivity|]); vm_compute; discriminate. }
  assert (Hp : printers w !! 5 = Some Sample.zebra) by reflexivity.
  assert (Hd : dates_uniform w [1; 2; 3]).
  { left. repeat constructor; eexists; (split; reflexivity). }
  pose proof (label_world_ids_below None None None None) as Hf.
  split; [exact (conj Hb (conj Hp (conj Hd Hf)))|].
  destruct (batch_label_jobs_spec w 5 Sample.zebra 1 2 [3] Hb Hp Hd Hf)
    as (bj & w' & H1 & _ & H3 & H4 & H5 & _ & _ & H8 & _ & _ & H11 & _).
  exists bj, w'. repeat split; try assumption.
  intros i Hi. destruct (H11 i Hi) as (j' & Hj' & Hs & _). by exists j'.
Defined.

(** A recordset of one job is returned as it is: nothing is read, created
    or written. *)
Theorem batch_single_job w i : batch_label_jobs [i] w = (Ok [i], w).
Proof. reflexivity. Qed.

Lemma elem_of_uniq x seen l : x ∈ uniq seen l <-> x ∈ l /\ x ∉ seen.
Proof.
  revert seen. induction l as [|y l IH]; intros seen; simpl.
  - split; [intros H; by apply not_elem_of_nil in H | intros [H _]; by apply not_elem_of_nil in H].
  - case_bool_decide as Hy.
    + rewrite IH, elem_of_cons. split; [intros [H Hn]; split; [by right|done]|].
      intros [[->|H] Hn]; [done|auto].
    + rewrite !elem_of_cons, IH, elem_of_cons. split.
      * intros [->|[H Hn]]; [auto|]. split; [auto|]. intros Hs. apply Hn. auto.
      * intros [[->|H] Hn]; [auto|].
        destruct (decide (x = y)) as [->|Hne]; [auto|]. right. split; [done|].
        intros [?|?]; done.
Qed.

Lemma two_members_length (l : list Z) p q :
  p ∈ l -> q ∈ l -> p <> q -> (1 < length l)%nat.
Proof.
  intros Hp Hq Hne. destruct l as [|x [|y l]]; simpl; [|exfalso|lia].
  - by apply not_elem_of_nil in Hp.
  - apply list_elem_of_singleton in Hp, Hq. congruence.
Qed.

(** Jobs on two different printers are not batched: [batch_label_jobs]
    raises a [ValidationError] whose text lists the names of the printers
    involved, and changes nothing. *)
Theorem batch_different_printers w i1 i2 more a b ja jb p q :
  Forall (fun i => is_Some (jobs w !! i)) (i1 :: i2 :: more) ->
  a ∈ i1 :: i2 :: more -> jobs w !! a = Some ja -> printer_id ja = Some p ->
  b ∈ i1 :: i2 :: more -> jobs w !! b = Some jb -> printer_id jb = Some q ->
  p <> q ->
  exists involved,
    batch_label_jobs (i1 :: i2 :: more) w
    = (Raise (ValidationError
                ("Cannot batch labels for different printers: " +:+
                 PyStr.join ", " (map (fun k => pr_name (printers w !! k)) involved))), w)
    /\ p ∈ involved /\ q ∈ involved.
Proof.
  intros Hall Ha Hja Hpa Hb Hjb Hpb Hne.
  destruct (read_all_eq w _ Hall) as (rs & Hread & Hfst & Hlook).
  assert (Hin : forall i j k, i ∈ i1 :: i2 :: more -> jobs w !! i = Some j ->
                              printer_id j = Some k -> k ∈ mapped_printer_id rs).
  { intros i j k Hi Hj Hk. unfold mapped_printer_id.
    apply elem_of_uniq. split; [|apply not_elem_of_nil].
    apply list_elem_of_omap. rewrite <- Hfst in Hi.
    apply list_elem_of_fmap in Hi as (r & -> & Hr). exists r. split; [done|].
    rewrite Forall_forall in Hlook. specialize (Hlook _ Hr).
    by replace (snd r) with j by congruence. }
  exists (mapped_printer_id rs).
  split; [|split; [by apply (Hin a ja) | by apply (Hin b jb)]].
  unfold batch_label_jobs. cbn iota. unfold bind at 1. rewrite Hread.
  unfold bind at 1, get_world at 1.
  assert (Hlen : (1 <? length (mapped_printer_id rs))%nat = true).
  { apply Nat.ltb_lt. apply (two_members_length _ p q); [| |done].
    - by apply (Hin a ja).
    - by apply (Hin b jb). }
  rewrite Hlen. reflexivity.
Qed.

Lemma batch_different_printers_witness :
  let w := Sample.world_of Sample.cfg Sample.job0 in
  let w2 := upd 8 (Sample.on_printer 2 Sample.job0) w in
  (Forall (fun i => is_Some (jobs w2 !! i)) [7; 8]
   /\ 7 ∈ [7; 8] /\ jobs w2 !! 7 = Some Sample.job0 /\ printer_id Sample.job0 = Some 1
   /\ 8 ∈ [7; 8] /\ jobs w2 !! 8 = Some (Sample.on_printer 2 Sample.job0)
   /\ printer_id (Sample.on_printer 2 Sample.job0) = Some 2
   /\ 1 <> 2)
  /\ exists involved,
       batch_label_jobs [7; 8] w2
       = (Raise (ValidationError
                   ("Cannot batch labels for different printers: " +:+
                    PyStr.join ", " (map (fun k => pr_name (printers w2 !! k)) involved))), w2)
       /\ 1 ∈ involved /\ 2 ∈ involved.
Proof.
  set (w2 := upd 8 (Sample.on_printer 2 Sample.job0) (Sample.world_of Sample.cfg Sample.job0)).
  assert (H7 : jobs w2 !! 7 = Some Sample.job0) by reflexivity.
  assert (H8 : jobs w2 !! 8 = Some (Sample.on_printer 2 Sample.job0)) by reflexivity.
  assert (Hall : Forall (fun i => is_Some (jobs w2 !! i)) [7; 8])
    by (repeat constructor; eexists; reflexivity).
  assert (Ha : 7 ∈ [7; 8]) by apply list_elem_of_here.
  assert (Hb : 8 ∈ [7; 8]) by apply list_elem_of_further, list_elem_of_here.
  assert (Hp1 : printer_id Sample.job0 = Some 1) by reflexivity.
  assert (Hp2 : printer_id (Sample.on_printer 2 Sample.job0) = Some 2) by reflexivity.
  assert (Hne : 1 <> 2) by discriminate.
  exact (conj (conj Hall (conj Ha (conj H7 (conj Hp1 (conj Hb (conj H8 (conj Hp2 Hne)))))))
              (batch_different_printers w2 7 8 [] 7 8 _ _ 1 2 Hall Ha H7 Hp1 Hb H8 Hp2 Hne)).
Defined.

(** The error text on the sample: both printer names, in the order of the
    recordset. *)
Example batch_different_printers_text :
  fst (batch_label_jobs [7; 8]
         (upd 8 (Sample.on_printer 2 Sample.job0) (Sample.world_of Sample.cfg Sample.job0)))
  = Raise (ValidationError "Cannot batch labels for different printers: Office, Spare").
Proof. vm_compute. reflexivity. Qed.

(** ** The remaining transitions *)

(** [process_job] moves a queued job to printing when its printer is
    active and supports the job's format, changing nothing else. *)
Theorem process_job_prints w jid j :
  jobs w !! jid = Some j ->
  state j = queued ->
  printer_ready w j = true ->
  process_job jid w = (Ok true, upd jid (set_field j (F_state printing)) w).
Proof.
  intros Hj Hs Hr. apply andb_true_iff in Hr as [Ha Hf].
  apply (process_job_ready _ _ _ Hj); [by left|done..].
Qed.

Lemma process_job_prints_witness :
  let j := Sample.with_state queued Sample.job0 in
  let w := Sample.world_of Sample.cfg j in
  (jobs w !! 7 = Some j /\ state j = queued /\ printer_ready w j = true)
  /\ process_job 7 w = (Ok true, upd 7 (set_field j (F_state printing)) w).
Proof.
  set (j := Sample.with_state queued Sample.job0).
  set (w := Sample.world_of Sample.cfg j).
  assert (H : jobs w !! 7 = Some j) by reflexivity.
  assert (Hs : state j = queued) by reflexivity.
  assert (Hr : printer_ready w j = true) by reflexivity.
  exact (conj (conj H (conj Hs Hr)) (process_job_prints w 7 j H Hs Hr)).
Defined.

(** [mark_completed] completes the job, stamps [completed_date] with the
    time of the call and clears the error.  Called again later, it keeps
    the job completed and only re-stamps [completed_date] with the time
    of the second call. *)
Theorem mark_completed_spec w jid j :
  jobs w !! jid = Some j ->
  exists j' w',
    mark_completed jid w = (Ok true, w')
    /\ jobs w' !! jid = Some j'
    /\ state j' = completed
    /\ completed_date j' = Some (clock w)
    /\ error_message j' = None
    /\ forall t,
         mark_completed jid (with_clock t w')
         = (Ok true, upd jid (set_field j' (F_completed_date t)) (with_clock t w')).
Proof.
  intros Hj. do 2 eexists. split; [by apply mark_completed_eq|].
  split; [apply lookup_upd|]. do 3 (split; [done|]). intros t.
  by rewrite (mark_completed_eq (with_clock t _) jid _ (lookup_upd _ _ _)).
Qed.

Lemma mark_completed_spec_witness :
  let j := Sample.with_state printing Sample.job0 in
  let w := Sample.world_of Sample.cfg j in
  jobs w !! 7 = Some j
  /\ exists j' w',
       mark_completed 7 w = (Ok true, w')
       /\ jobs w' !! 7 = Some j'
       /\ state j' = completed
       /\ completed_date j' = Some (clock w)
       /\ error_message j' = None
       /\ forall t,
            mark_completed 7 (with_clock t w')
            = (Ok true, upd 7 (set_field j' (F_completed_date t)) (with_clock t w')).
Proof.
  assert (H : jobs (Sample.world_of Sample.cfg (Sample.with_state printing Sample.job0)) !! 7
              = Some (Sample.with_state printing Sample.job0)) by reflexivity.
  exact (conj H (mark_completed_spec _ _ _ H)).
Defined.

(** [mark_failed] with a permanent error: the job is failed with the
    message, [completed_date] is stamped and the administrator notification
    is invoked; no retry is made. *)
Theorem mark_failed_permanent w jid j msg :
  jobs w !! jid = Some j ->
  _is_transient_error msg = false ->
  exists j' w',
    mark_failed jid msg w = (Ok true, w')
    /\ jobs w' !! jid = Some j'
    /\ state j' = failed
    /\ error_message j' = Some msg
    /\ completed_date j' = Some (clock w)
    /\ retry_count j' = retry_count j
    /\ admin_calls w' = admin_calls w ++ [jid].
Proof.
  intros Hj Ht. unfold mark_failed. mrun. rewrite Ht. mrun.
  do 2 eexists. split; [reflexivity|].
  cbn [jobs admin_calls]. rewrite lookup_upd. by repeat split.
Qed.

Lemma mark_failed_permanent_witness :
  let j := Sample.with_state printing Sample.job0 in
  let w := Sample.world_of Sample.cfg j in
  (jobs w !! 7 = Some j /\ _is_transient_error "Paper jam" = false)
  /\ exists j' w',
       mark_failed 7 "Paper jam" w = (Ok true, w')
       /\ jobs w' !! 7 = Some j'
       /\ state j' = failed
       /\ error_message j' = Some "Paper jam"%string
       /\ completed_date j' = Some (clock w)
       /\ retry_count j' = retry_count j
       /\ admin_calls w' = admin_calls w ++ [7].
Proof.
  assert (H : jobs (Sample.world_of Sample.cfg (Sample.with_state printing Sample.job0)) !! 7
              = Some (Sample.with_state printing Sample.job0)) by reflexivity.
  assert (Ht : _is_transient_error "Paper jam" = false) by reflexivity.
  exact (conj (conj H Ht) (mark_failed_permanent _ _ _ _ H Ht)).
Defined.

(** The end-to-end scenario of the specification: a job for an active
    printer that supports HTML is submitted, processed and completed. *)
Example submit_process_complete :
  let w0 := Sample.world_of Sample.cfg Sample.job0 in
  let w1 := snd (submit_job 7 w0) in
  let w2 := snd (process_job 7 w1) in
  let w3 := snd (mark_completed 7 w2) in
  fst (submit_job 7 w0) = Ok 7
  /\ state <$> jobs w1 !! 7 = Some queued
  /\ submitted_date <$> jobs w1 !! 7 = Some (Some (clock w0))
  /\ fst (process_job 7 w1) = Ok true
  /\ state <$> jobs w2 !! 7 = Some printing
  /\ state <$> jobs w3 !! 7 = Some completed
  /\ completed_date <$> jobs w3 !! 7 = Some (Some (clock w0))
  /\ error_message <$> jobs w3 !! 7 = Some None.
Proof. repeat split; vm_compute; reflexivity. Qed.

(** The keyword test is case-insensitive and looks anywhere in the text. *)
Example transient_error_samples :
  _is_transient_error "Connection TIMEOUT while sending" = true
  /\ _is_transient_error "Printer Busy" = true
  /\ _is_transient_error "Invalid data format" = false
  /\ _is_transient_error "" = false.
Proof. repeat split; reflexivity. Qed.

(** ** Printers coming online *)

Lemma NoDup_fst_filter {A} (P : Z * A -> Prop) `{!forall x, Decision (P x)} (l : list (Z * A)) :
  NoDup (map fst l) -> NoDup (map fst (filter P l)).
Proof.
  induction l as [|x l IH]; [done|]. cbn [map]. intros Hnd.
  apply NoDup_cons in Hnd as [Hx Hl].
  destruct (decide (P x)) as [Hp|Hp].
  - rewrite filter_cons_True by done. cbn [map]. apply NoDup_cons. split; [|auto].
    intros Hin. apply Hx.
    apply list_elem_of_fmap in Hin as (y & Hy & Hin).
    apply list_elem_of_filter in Hin as [_ Hin].
    apply list_elem_of_fmap. by exists y.
  - rewrite filter_cons_False by done. auto.
Qed.

(** The queue of a printer: the queued jobs that point at it, each once. *)
Lemma elem_of_search_queued_jobs w pid i :
  i ∈ search_queued_jobs w pid
  <-> exists j, jobs w !! i = Some j /\ printer_id j = Some pid /\ state j = queued.
Proof.
  unfold search_queued_jobs. rewrite list_elem_of_fmap. split.
  - intros ([k j] & -> & Hin). rewrite sort_by_perm in Hin.
    apply list_elem_of_filter in Hin as [[Hp Hs] Hin].
    apply elem_of_map_to_list in Hin. by exists j.
  - intros (j & Hj & Hp & Hs). exists (i, j). split; [done|].
    rewrite sort_by_perm. apply list_elem_of_filter. split; [done|].
    by apply elem_of_map_to_list.
Qed.

Lemma NoDup_search_queued_jobs w pid : NoDup (search_queued_jobs w pid).
Proof.
  unfold search_queued_jobs.
  rewrite (fmap_Permutation fst _ _ (sort_by_perm queue_order _)).
  apply NoDup_fst_filter, NoDup_fst_map_to_list.
Qed.

Lemma drained_upd i j' w j : drained (upd i j' w) j = drained w j.
Proof. reflexivity. Qed.

Lemma state_drained w j :
  state (drained w j) = if printer_ready w j then printing else failed.
Proof.
  unfold drained. destruct (printer_ready w j); [done|apply state_process_failure].
Qed.

(** [process_job] on a queued job, in one equation. *)
Lemma process_job_queued w i j :
  jobs w !! i = Some j -> state j = queued ->
  process_job i w = (Ok (printer_ready w j), upd i (drained w j) w).
Proof.
  intros Hj Hs. unfold drained. destruct (printer_ready w j) eqn:Hr.
  - apply andb_true_iff in Hr as [Ha Hf].
    apply (process_job_ready _ _ _ Hj); [by left|done..].
  - apply (process_job_not_ready _ _ _ Hj); [by left|done].
Qed.

(** The drain loop on distinct queued jobs: each of them is processed
    once, nothing else is written. *)
Lemma drain_jobs_eq l :
  forall w a b,
    NoDup l ->
    Forall (fun i => exists j, jobs w !! i = Some j /\ state j = queued) l ->
    exists counts w',
      drain_jobs l a b w = (Ok counts, w')
      /\ printers w' = printers w
      /\ clock w' = clock w
      /\ forall k, jobs w' !! k
                   = if bool_decide (k ∈ l) then drained w <$> jobs w !! k else jobs w !! k.
Proof.
  induction l as [|i l IH]; intros w a b Hnd Hall.
  - exists (a, b), w. do 3 (split; [done|]). intros k.
    rewrite bool_decide_eq_false_2; [done|apply not_elem_of_nil].
  - apply NoDup_cons in Hnd as [Hi Hnd].
    apply Forall_cons in Hall as [(j & Hj & Hs) Hall].
    cbn [drain_jobs]. unfold bind at 1, try_except at 1, bind at 1.
    rewrite (process_job_queued _ _ _ Hj Hs).
    set (w1 := upd i (drained w j) w).
    assert (Hall1 : Forall (fun k => exists j0, jobs w1 !! k = Some j0 /\ state j0 = queued) l).
    { rewrite Forall_forall in Hall. apply Forall_forall. intros k Hk.
      destruct (Hall k Hk) as (j0 & Hj0 & Hs0). exists j0. split; [|done].
      unfold w1. rewrite lookup_upd_ne; [done|]. by intros ->. }
    destruct (printer_ready w j); unfold ret at 1;
      (edestruct (IH w1) as (counts & w' & Hrun & Hp & Hc & Hjobs); [done|exact Hall1|]);
      cbn [fst snd]; rewrite Hrun; exists counts, w';
      (split; [done|]); (split; [done|]); (split; [done|]);
      intros k; rewrite Hjobs; unfold w1; rewrite jobs_upd, lookup_insert;
      (destruct (decide (i = k)) as [<-|Hne];
       [rewrite (bool_decide_eq_false_2 _ Hi),
          (bool_decide_eq_true_2 (i ∈ i :: l)) by apply list_elem_of_here;
        by rewrite Hj
       |case_bool_decide as H1; case_bool_decide as H2; try done;
        [exfalso; apply H2; by apply list_elem_of_further
        |exfalso; apply elem_of_cons in H2 as [->|H2]; [done|by apply H1]]]).
Qed.

Lemma printer_id_drained w j : printer_id (drained w j) = printer_id j.
Proof.
  unfold drained, process_failure.
  destruct (printer_ready w j); [done|]. by destruct (_is_transient_error _).
Qed.

(** Draining the queue of one printer. *)
Lemma process_queued_jobs_on_activation_eq w pid :
  exists w',
    _process_queued_jobs_on_activation pid w = (Ok tt, w')
    /\ printers w' = printers w
    /\ forall k, jobs w' !! k
                 = if bool_decide (k ∈ search_queued_jobs w pid)
                   then drained w <$> jobs w !! k else jobs w !! k.
Proof.
  unfold _process_queued_jobs_on_activation, bind, get_world.
  destruct (drain_jobs_eq (search_queued_jobs w pid) w 0 0) as (c & w' & Hrun & Hp & _ & Hj).
  { apply NoDup_search_queued_jobs. }
  { apply Forall_forall. intros i Hi.
    apply elem_of_search_queued_jobs in Hi as (j & ? & ? & ?). by exists j. }
  destruct (search_queued_jobs w pid) as [|i l] eqn:Hl.
  - exists w. split; [done|]. split; [done|]. intros k.
    rewrite bool_decide_eq_false_2; [done|apply not_elem_of_nil].
  - rewrite Hrun. by exists w'.
Qed.

(** The run of [write] with [active] set on a paused printer. *)
Lemma printer_write_activates w pid p :
  printers w !! pid = Some p ->
  active p = false ->
  exists w',
    printer_write [pid] [P_active true] w = (Ok true, w')
    /\ printers w' = <[pid := set_printer_field p (P_active true)]> (printers w)
    /\ (forall i j, jobs w !! i = Some j -> printer_id j = Some pid -> state j = queued ->
          exists j', jobs w' !! i = Some j'
                     /\ if format_supported (data_format j) (Some p)
                        then j' = set_field j (F_state printing)
                        else state j' = failed
                             /\ error_message j'
                                = Some ("Printer " +:+ p_name p +:+
                                        " does not support format " +:+
                                        format_str (data_format j)))
    /\ (forall i j, jobs w !! i = Some j ->
          ~ (printer_id j = Some pid /\ state j = queued) -> jobs w' !! i = Some j)
    /\ search_queued_jobs w' pid = [].
Proof.
  intros Hp Ha.
  set (p' := set_printer_field p (P_active true)).
  set (w1 := with_printers (<[pid := p']> (printers w)) w).
  destruct (process_queued_jobs_on_activation_eq w1 pid) as (w' & Hrun & Hpr & Hjobs).
  assert (Hready : forall j, printer_id j = Some pid ->
                     printer_ready w1 j = format_supported (data_format j) (Some p)).
  { intros j Hj. unfold printer_ready, printer_of. rewrite Hj.
    unfold w1. cbn [printers with_printers]. by rewrite lookup_insert_eq. }
  exists w'. split.
  { unfold printer_write, bind. cbn [printers_coming_online].
    unfold bind, read_printer, ret. rewrite Hp. cbn [vals_activate omap list_omap last].
    rewrite Ha. cbn [negb andb forM].
    unfold bind, base_write_printer, bind, read_printer. rewrite Hp.
    cbn [existsb writes_priority apply_printer_vals fold_left].
    unfold ret. cbn [uniq]. rewrite bool_decide_eq_false_2 by apply not_elem_of_nil.
    cbn [uniq forM]. unfold bind. cbn [orb]. cbn beta iota. fold p'. fold w1.
    rewrite Hrun. reflexivity. }
  split; [by rewrite Hpr|].
  assert (Hin : forall i, i ∈ search_queued_jobs w1 pid
                  <-> exists j, jobs w !! i = Some j /\ printer_id j = Some pid
                                /\ state j = queued)
    by (intros i; exact (elem_of_search_queued_jobs w1 pid i)).
  split; [|split].
  - intros i j Hj Hpid Hs. rewrite Hjobs.
    rewrite bool_decide_eq_true_2 by (apply Hin; by exists j).
    change (jobs w1 !! i) with (jobs w !! i). rewrite Hj. eexists. split; [done|].
    unfold drained. rewrite (Hready _ Hpid).
    destruct (format_supported (data_format j) (Some p)) eqn:Hf; [done|].
    split; [apply state_process_failure|].
    unfold process_failure, process_error, printer_of. rewrite Hpid.
    unfold w1. cbn [printers with_printers]. rewrite lookup_insert_eq.
    cbn [pr_active pr_name p' set_printer_field active p_name].
    by destruct (_is_transient_error _).
  - intros i j Hj Hnot. rewrite Hjobs.
    rewrite bool_decide_eq_false_2; [done|].
    intros H. apply Hin in H as (j0 & Hj0 & Hq).
    apply Hnot. by replace j with j0 by congruence.
  - apply elem_of_nil_inv. intros i Hi.
    apply elem_of_search_queued_jobs in Hi as (j' & Hj' & Hpid' & Hs').
    rewrite Hjobs in Hj'. case_bool_decide as Hq.
    + apply Hin in Hq as (j & Hj & Hpid & Hs).
      change (jobs w1 !! i) with (jobs w !! i) in Hj'. rewrite Hj in Hj'.
      injection Hj' as <-. rewrite state_drained in Hs'.
      by destruct (printer_ready w1 j).
    + apply Hq, Hin. by exists j'.
Qed.

(** A printer that comes online has its queue drained at once: every job
    that was queued for it is printing when the printer supports the job's
    format and failed otherwise, none stays queued, and no other job is
    touched. *)
Theorem printer_activation_drains w pid p :
  printers w !! pid = Some p ->
  active p = false ->
  exists w',
    printer_write [pid] [P_active true] w = (Ok true, w')
    /\ printers w' = <[pid := set_printer_field p (P_active true)]> (printers w)
    /\ (forall i j, jobs w !! i = Some j -> printer_id j = Some pid -> state j = queued ->
          exists j', jobs w' !! i = Some j'
                     /\ if format_supported (data_format j) (Some p)
                        then j' = set_field j (F_state printing)
                        else state j' = failed
                             /\ error_message j'
                                = Some ("Printer " +:+ p_name p +:+
                                        " does not support format " +:+
                                        format_str (data_format j)))
    /\ (forall i j, jobs w !! i = Some j ->
          ~ (printer_id j = Some pid /\ state j = queued) -> jobs w' !! i = Some j)
    /\ search_queued_jobs w' pid = [].
Proof. apply printer_write_activates. Qed.

Lemma printer_activation_drains_witness :
  let j := Sample.with_state queued (Sample.on_printer 2 Sample.job0) in
  let w := Sample.world_of Sample.cfg j in
  (printers w !! 2 = Some Sample.paused /\ active Sample.paused = false)
  /\ exists w',
       printer_write [2] [P_active true] w = (Ok true, w')
       /\ (exists j', jobs w' !! 7 = Some j' /\ j' = set_field j (F_state printing))
       /\ search_queued_jobs w' 2 = [].
Proof.
  set (j := Sample.with_state queued (Sample.on_printer 2 Sample.job0)).
  set (w := Sample.world_of Sample.cfg j).
  assert (Hp : printers w !! 2 = Some Sample.paused) by reflexivity.
  assert (Ha : active Sample.paused = false) by reflexivity.
  split; [exact (conj Hp Ha)|].
  destruct (printer_activation_drains w 2 Sample.paused Hp Ha)
    as (w' & Hrun & _ & Hq & _ & Hnone).
  exists w'. split; [exact Hrun|]. split; [|exact Hnone].
  destruct (Hq 7 j eq_refl eq_refl eq_refl) as (j' & Hj' & Hs). by exists j'.
Defined.

(** Writing to a printer without bringing it online (pausing it, changing
    its priority or default flag, or activating one that is already
    active) never touches a job, whether the write succeeds or raises. *)
Theorem printer_write_no_drain w pid p vals r w' :
  printers w !! pid = Some p ->
  vals_activate vals = false \/ active p = true ->
  printer_write [pid] vals w = (r, w') ->
  jobs w' = jobs w.
Proof.
  intros Hp Hno. unfold printer_write, bind. cbn [printers_coming_online].
  unfold bind, read_printer, ret. rewrite Hp.
  replace (vals_activate vals && negb (active p))%bool with false
    by (destruct Hno as [-> | ->]; [done|by rewrite andb_false_r]).
  cbn [forM]. unfold bind, base_write_printer, bind, read_printer. rewrite Hp.
  destruct (if existsb writes_priority vals then _ else _); unfold raise, ret;
    cbn [uniq forM]; unfold ret; by intros [= <- <-].
Qed.

Lemma printer_write_no_drain_witness :
  let j := Sample.with_state printing Sample.job0 in
  let w := Sample.world_of Sample.cfg j in
  let out := printer_write [1] [P_active false] w in
  (printers w !! 1 = Some Sample.office
   /\ (vals_activate [P_active false] = false \/ active Sample.office = true)
   /\ printer_write [1] [P_active false] w = (fst out, snd out))
  /\ jobs (snd out) = jobs w.
Proof.
  set (w := Sample.world_of Sample.cfg (Sample.with_state printing Sample.job0)).
  assert (Hp : printers w !! 1 = Some Sample.office) by reflexivity.
  assert (Hno : vals_activate [P_active false] = false \/ active Sample.office = true)
    by (left; reflexivity).
  assert (Hrun : printer_write [1] [P_active false] w
                 = (fst (printer_write [1] [P_active false] w),
                    snd (printer_write [1] [P_active false] w)))
    by (vm_compute; reflexivity).
  exact (conj (conj Hp (conj Hno Hrun))
              (printer_write_no_drain w 1 _ _ _ _ Hp Hno Hrun)).
Defined.

(** A job submitted while its printer is offline is printed as soon as
    the printer comes online, without being submitted again; the offline
    note written by [submit_job] stays in [error_message]. *)
Theorem offline_job_prints_on_activation w jid j pid p :
  jobs w !! jid = Some j ->
  submittable j ->
  printer_id j = Some pid ->
  printers w !! pid = Some p ->
  active p = false ->
  format_supported (data_format j) (Some p) = true ->
  exists w1 w2 j2,
    submit_job jid w = (Ok jid, w1)
    /\ printer_write [pid] [P_active true] w1 = (Ok true, w2)
    /\ jobs w2 !! jid = Some j2
    /\ state j2 = printing
    /\ submitted_date j2 = Some (clock w)
    /\ error_message j2
       = Some ("Printer " +:+ p_name p +:+ " is offline. Job queued for later processing.").
Proof.
  intros Hj Hs Hpid Hp Ha Hf.
  assert (Hoff : pr_active (printer_of w j) = false).
  { unfold printer_of. rewrite Hpid, Hp. exact Ha. }
  pose proof (submit_job_offline _ _ _ Hj Hs Hoff) as Hsub.
  set (j1 := apply_vals j _) in Hsub. set (w1 := upd jid j1 w) in Hsub.
  destruct (printer_write_activates w1 pid p Hp Ha) as (w2 & Hrun & _ & Hq & _).
  destruct (Hq jid j1 (lookup_upd _ _ _)) as (j2 & Hj2 & Hst); [exact Hpid|done|].
  change (data_format j1) with (data_format j) in Hst. rewrite Hf in Hst. subst j2.
  exists w1, w2. eexists. split; [exact Hsub|]. split; [exact Hrun|].
  split; [exact Hj2|]. split; [done|]. split; [done|].
  unfold j1. cbn. unfold printer_of. by rewrite Hpid, Hp.
Qed.

Lemma offline_job_prints_on_activation_witness :
  let j := Sample.on_printer 2 Sample.job0 in
  let w := Sample.world_of Sample.cfg j in
  (jobs w !! 7 = Some j /\ submittable j /\ printer_id j = Some 2
   /\ printers w !! 2 = Some Sample.paused /\ active Sample.paused = false
   /\ format_supported (data_format j) (Some Sample.paused) = true)
  /\ exists w1 w2 j2,
       submit_job 7 w = (Ok 7, w1)
       /\ printer_write [2] [P_active true] w1 = (Ok true, w2)
       /\ jobs w2 !! 7 = Some j2
       /\ state j2 = printing
       /\ submitted_date j2 = Some (clock w)
       /\ error_message j2
          = Some ("Printer " +:+ p_name Sample.paused +:+
                  " is offline. Job queued for later processing.").
Proof.
  set (j := Sample.on_printer 2 Sample.job0).
  set (w := Sample.world_of Sample.cfg j).
  assert (H : jobs w !! 7 = Some j) by reflexivity.
  assert (Hs : submittable j) by (split; [left; reflexivity | eexists; reflexivity]).
  assert (Hpid : printer_id j = Some 2) by reflexivity.
  assert (Hp : printers w !! 2 = Some Sample.paused) by reflexivity.
  assert (Ha : active Sample.paused = false) by reflexivity.
  assert (Hf : format_supported (data_format j) (Some Sample.paused) = true) by reflexivity.
  exact (conj (conj H (conj Hs (conj Hpid (conj Hp (conj Ha Hf)))))
              (offline_job_prints_on_activation w 7 j 2 _ H Hs Hpid Hp Ha Hf)).
Defined.

(** ** The queue processor writes only to the jobs it may process *)

Section WithinRun.

Context (w0 : World).

Lemma within_ret {A} (a : A) (post : A -> Prop) : post a -> within_run w0 (ret a) post.
Proof. intros Hp w r w' Hw [= <- <-]. split; [done|]. by intros ? [= <-]. Qed.

Lemma within_raise {A} e (post : A -> Prop) : within_run w0 (raise e) post.
Proof. intros w r w' Hw [= <- <-]. split; [done|]. intros ? [=]. Qed.

Lemma within_bind {A B} (m : M A) (k : A -> M B) (mid : A -> Prop) (post : B -> Prop) :
  within_run w0 m mid ->
  (forall a, mid a -> within_run w0 (k a) post) ->
  within_run w0 (bind m k) post.
Proof.
  intros Hm Hk w r w' Hw. unfold bind.
  destruct (m w) as [[a|e] w1] eqn:Em.
  - destruct (Hm _ _ _ Hw Em) as [Hw1 Ha]. apply (Hk a); auto.
  - destruct (Hm _ _ _ Hw Em) as [Hw1 _]. intros [= <- <-]. split; [done|]. intros ? [=].
Qed.

Lemma within_try {A} (m : M A) (h : Exn -> M A) (post : A -> Prop) :
  within_run w0 m post ->
  (forall e, within_run w0 (h e) post) ->
  within_run w0 (try_except m h) post.
Proof.
  intros Hm Hh w r w' Hw. unfold try_except.
  destruct (m w) as [[a|e] w1] eqn:Em.
  - destruct (Hm _ _ _ Hw Em) as [Hw1 Ha]. intros [= <- <-]. auto.
  - destruct (Hm _ _ _ Hw Em) as [Hw1 _]. by apply Hh.
Qed.

Lemma within_weaken {A} (m : M A) (post post' : A -> Prop) :
  within_run w0 m post -> (forall a, post a -> post' a) -> within_run w0 m post'.
Proof.
  intros Hm Himp w r w' Hw E. destruct (Hm _ _ _ Hw E) as [H1 H2]. split; [done|].
  intros a Ha. auto.
Qed.

(** After [get_world] the rest may use what holds of the current state. *)
Lemma within_get_world {A} (k : World -> M A) (post : A -> Prop) :
  (forall w, run_from w0 w -> within_run w0 (k w) post) ->
  within_run w0 (bind get_world k) post.
Proof. intros Hk w r w' Hw. unfold bind, get_world. by apply Hk. Qed.

Lemma within_read i : within_run w0 (read i) (fun _ => True).
Proof.
  intros w r w' Hw. unfold read. destruct (jobs w !! i); intros [= <- <-]; by split.
Qed.

Lemma within_read_printer i : within_run w0 (read_printer i) (fun _ => True).
Proof.
  intros w r w' Hw. unfold read_printer.
  destruct (printers w !! i); intros [= <- <-]; by split.
Qed.

Lemma within_now : within_run w0 now (fun _ => True).
Proof. intros w r w' Hw [= <- <-]. by split. Qed.

Lemma within_get_printer j : within_run w0 (get_printer j) (fun _ => True).
Proof. intros w r w' Hw [= <- <-]. by split. Qed.

(** Storing a record under an id the run may write to. *)
Lemma run_from_store w i j :
  run_from w0 w -> may_write w0 i -> i < next_job_id w ->
  run_from w0 (with_jobs (<[i := j]> (jobs w)) w).
Proof.
  intros (Hp & Hn & Hb & Hk) Hi Hlt. split; [done|]. split; [done|]. split.
  - intros k. cbn [jobs with_jobs next_job_id]. rewrite lookup_insert.
    case_decide as E; [by subst|]. apply Hb.
  - intros k. cbn [jobs with_jobs]. rewrite lookup_insert.
    case_decide as E; [subst; by left|]. apply Hk.
Qed.

Lemma within_write i vals :
  may_write w0 i -> within_run w0 (write i vals) (fun _ => True).
Proof.
  intros Hi w r w' Hw. unfold write, bind, read.
  destruct (jobs w !! i) as [j|] eqn:Hj; [|intros [= <- <-]; by split].
  destruct (if existsb writes_retry_count vals then _ else _);
    [|intros [= <- <-]; by split].
  intros [= <- <-]. split; [|done]. apply run_from_store; [done..|].
  destruct Hw as (_ & _ & Hb & _). apply Hb. by eexists.
Qed.

Lemma within_process_job i :
  may_write w0 i -> within_run w0 (process_job i) (fun _ => True).
Proof.
  intros Hi. unfold process_job.
  eapply within_bind; [apply within_read|]. intros j _.
  destruct (negb _); [by apply within_ret|].
  apply within_try.
  - eapply within_bind; [by apply within_write|]. intros _ _.
    eapply within_bind; [apply within_get_printer|]. intros p _.
    destruct (negb (pr_active p)); [apply within_raise|].
    destruct (negb _); [apply within_raise|]. by apply within_ret.
  - intros e. cbn zeta. destruct (_is_transient_error _).
    + eapply within_bind; [by apply within_write|]. intros _ _. by apply within_ret.
    + eapply within_bind; [apply within_now|]. intros t _.
      eapply within_bind; [by apply within_write|]. intros _ _. by apply within_ret.
Qed.

Lemma within_forM {A} (l : list A) (f : A -> M unit) :
  Forall (fun x => within_run w0 (f x) (fun _ => True)) l ->
  within_run w0 (forM l f) (fun _ => True).
Proof.
  induction 1 as [|x l Hx _ IH]; cbn [forM]; [by apply within_ret|].
  eapply within_bind; [exact Hx|]. intros _ _. exact IH.
Qed.

Lemma within_read_all ids :
  within_run w0 (read_all ids) (fun rs => map fst rs = ids).
Proof.
  unfold read_all. induction ids as [|i ids IH]; cbn [mapM]; [by apply within_ret|].
  eapply within_bind.
  { eapply within_bind; [apply within_read|]. intros j _.
    apply (within_ret (i, j) (fun r => fst r = i)). done. }
  intros r Hr. eapply within_bind; [exact IH|]. intros rs Hrs.
  apply within_ret. cbn [map]. by rewrite Hr, Hrs.
Qed.

Lemma within_get_default_name : within_run w0 _get_default_name (fun _ => True).
Proof.
  intros w r w' Hw. unfold _get_default_name, bind, next_by_code, ret.
  destruct (job_sequence w); intros [= <- <-]; by split.
Qed.

(** A new record gets an id handed out after the start of the run. *)
Lemma within_base_create v : within_run w0 (base_create v) (may_write w0).
Proof.
  unfold base_create. eapply within_bind with (mid := fun _ => True).
  { destruct (v_name v); [by apply within_ret|apply within_get_default_name]. }
  intros nm _. apply within_get_world. intros w Hw. cbn zeta.
  destruct (negb _); [apply within_raise|].
  destruct (check_constraints _); [|apply within_raise].
  intros w1 r w' (Hp & Hn & Hb & Hk) [= <- <-]. split.
  - split; [done|]. split; [cbn [next_job_id]; lia|]. split.
    + intros k. cbn [jobs next_job_id]. rewrite lookup_insert.
      case_decide as E; [lia|]. intros H. apply Hb in H. lia.
    + intros k. cbn [jobs]. rewrite lookup_insert.
      case_decide as E; [subst; left; by right|]. apply Hk.
  - intros ? [= <-]. by right.
Qed.

Lemma within_enhance_name rid :
  may_write w0 rid -> within_run w0 (enhance_name rid) (fun _ => True).
Proof.
  intros Hr. unfold enhance_name.
  eapply within_bind; [apply within_read|]. intros record _.
  destruct (_ && _)%bool; [|by apply within_ret].
  eapply within_bind; [apply within_get_printer|]. intros p _. cbn zeta.
  destruct (_ !! 1%nat); [by apply within_write|apply within_raise].
Qed.

Lemma within_create_one v : within_run w0 (create_one v) (may_write w0).
Proof.
  unfold create_one. eapply within_bind; [apply within_base_create|]. intros rid Hr.
  eapply within_bind; [by apply within_enhance_name|]. intros _ _. by apply within_ret.
Qed.

(** Batching writes to the jobs it is given and to the batch job it
    creates. *)
Lemma within_batch_label_jobs ids :
  Forall (may_write w0) ids ->
  within_run w0 (batch_label_jobs ids) (Forall (may_write w0)).
Proof.
  intros Hids. unfold batch_label_jobs.
  destruct ids as [|i [|i2 ids]]; [apply within_raise|by apply within_ret|].
  eapply within_bind; [apply within_read_all|]. intros rs Hrs.
  apply within_get_world. intros w Hw. cbn zeta.
  destruct (1 <? _)%nat; [apply within_raise|].
  destruct (mapped_printer_id rs) as [|printer ?]; [apply within_raise|].
  destruct (filter _ rs) as [|[first_id first] rest] eqn:Ef; [apply within_raise|].
  destruct (sorted_by_submitted_date _); [|apply within_raise].
  eapply within_bind; [apply within_create_one|]. intros b Hb.
  eapply within_bind; [apply within_read|]. intros bj _.
  eapply within_bind with (mid := fun _ => True); [|intros _ _; apply within_ret; by constructor].
  apply within_forM. rewrite <- Ef. apply Forall_forall. intros r Hr.
  eapply within_bind; [apply within_now|]. intros t _. apply within_write.
  apply list_elem_of_filter in Hr as [_ Hr].
  rewrite Forall_forall in Hids. apply Hids. rewrite <- Hrs.
  apply list_elem_of_fmap. by exists r.
Qed.

Lemma within_process_each l :
  Forall (may_write w0) l ->
  forall a b, within_run w0 (process_each l a b) (fun _ => True).
Proof.
  induction 1 as [|i l Hi _ IH]; intros a b; cbn [process_each]; [by apply within_ret|].
  eapply within_bind with (mid := fun _ => True); [|intros c _; apply IH].
  apply within_try.
  - eapply within_bind; [apply within_read|]. intros j _.
    eapply within_bind; [apply within_get_printer|]. intros p _.
    destruct (negb _); [by apply within_ret|].
    eapply within_bind; [by apply within_process_job|]. intros [] _; by apply within_ret.
  - intros e. eapply within_bind; [apply within_read|]. intros j _. cbn zeta.
    eapply within_bind; [apply within_now|]. intros t _.
    eapply within_bind; [by apply within_write|]. intros _ _. by apply within_ret.
Qed.

(** During the run, what is queued on a printer that was active at the
    start is a job the run may write to. *)
Lemma search_queued_may_write w pid p :
  run_from w0 w -> printers w0 !! pid = Some p -> active p = true ->
  Forall (may_write w0) (search_queued_jobs w pid).
Proof.
  intros (_ & _ & _ & Hk) Hp Ha. apply Forall_forall. intros i Hi.
  apply elem_of_search_queued_jobs in Hi as (j & Hj & Hpj & Hs).
  destruct (Hk i) as [?|E]; [done|]. left. exists j, pid, p. by rewrite <- E.
Qed.

Lemma within_process_printer_queue pid p a b :
  printers w0 !! pid = Some p -> active p = true ->
  within_run w0 (process_printer_queue pid a b) (fun _ => True).
Proof.
  intros Hp Ha. unfold process_printer_queue.
  apply within_get_world. intros w Hw. cbn zeta.
  pose proof (search_queued_may_write w pid p Hw Hp Ha) as Hq.
  destruct (search_queued_jobs w pid) as [|i l]; [by apply within_ret|].
  eapply within_bind; [apply within_read_printer|]. intros p' _.
  eapply within_bind with (mid := Forall (may_write w0));
    [|intros q Hq'; by apply within_process_each].
  destruct (bool_decide _); [|by apply within_ret].
  eapply within_bind; [apply within_read_all|]. intros rs Hrs. cbn zeta.
  destruct (1 <? _)%nat; [|by apply within_ret].
  apply within_try; [|intros e; by apply within_ret].
  eapply within_bind.
  { apply within_batch_label_jobs. apply Forall_forall. intros k Hk.
    apply list_elem_of_fmap in Hk as (r & -> & Hr).
    apply list_elem_of_filter in Hr as [_ Hr].
    rewrite Forall_forall in Hq. apply Hq. rewrite <- Hrs.
    apply list_elem_of_fmap. by exists r. }
  intros bj Hbj. apply within_ret. unfold recordset_union, recordset_diff.
  apply Forall_app. split; apply Forall_forall; intros k Hk;
    apply list_elem_of_filter in Hk as [_ Hk].
  - rewrite Forall_forall in Hq. by apply Hq.
  - rewrite Forall_forall in Hbj. by apply Hbj.
Qed.

Lemma within_process_printers l :
  Forall (fun pid => exists p, printers w0 !! pid = Some p /\ active p = true) l ->
  forall a b, within_run w0 (process_printers l a b) (fun _ => True).
Proof.
  induction 1 as [|pid l (p & Hp & Ha) _ IH]; intros a b; cbn [process_printers];
    [by apply within_ret|].
  eapply within_bind; [by eapply within_process_printer_queue|]. intros c _. apply IH.
Qed.

End WithinRun.

Lemma elem_of_search_active_printers w pid :
  pid ∈ search_active_printers w <-> exists p, printers w !! pid = Some p /\ active p = true.
Proof.
  unfold search_active_printers. rewrite list_elem_of_fmap. split.
  - intros ([k p] & -> & Hin). rewrite sort_by_perm in Hin.
    apply list_elem_of_filter in Hin as [Ha Hin].
    apply elem_of_map_to_list in Hin. by exists p.
  - intros (p & Hp & Ha). exists (pid, p). split; [done|].
    rewrite sort_by_perm. apply list_elem_of_filter. split; [done|].
    by apply elem_of_map_to_list.
Qed.

Lemma run_from_refl w : ids_below_next w -> run_from w w.
Proof. intros Hb. split; [done|]. split; [lia|]. split; [done|]. intros k. by right. Qed.

Lemma within_process_queued_jobs w :
  within_run w process_queued_jobs (fun _ => True).
Proof.
  unfold process_queued_jobs. apply within_get_world. intros w1 (Hp & _). cbn zeta.
  assert (Forall (fun pid => exists p, printers w !! pid = Some p /\ active p = true)
                 (search_active_printers w1)) as Hall.
  { apply Forall_forall. intros pid Hpid.
    apply elem_of_search_active_printers in Hpid. by rewrite <- Hp. }
  destruct (search_active_printers w1); [by apply within_ret|].
  eapply within_bind; [by apply within_process_printers|]. intros c _.
  by apply within_ret.
Qed.

(** A run of [process_queued_jobs], whatever it returns or raises,
    leaves the printers as they were and changes no job other than the
    jobs that were queued on an active printer when it started: drafts,
    jobs in progress, finished jobs and the queues of inactive printers
    are exactly as before. *)
Theorem process_queued_jobs_frame w r w' :
  ids_below_next w ->
  process_queued_jobs w = (r, w') ->
  printers w' = printers w
  /\ forall k j, jobs w !! k = Some j -> ~ queued_on_active w k -> jobs w' !! k = Some j.
Proof.
  intros Hb Hrun.
  destruct (within_process_queued_jobs w w r w' (run_from_refl w Hb) Hrun)
    as [(Hp & _ & _ & Hk) _].
  split; [done|]. intros k j Hj Hnq.
  destruct (Hk k) as [[Hq|Hn]|E]; [done| |by rewrite E].
  assert (k < next_job_id w) by (apply Hb; by eexists). lia.
Qed.

(** ** The queue processor when nothing is batched *)

Lemma count_jobs_ext (f g : Z -> bool) l :
  Forall (fun i => f i = g i) l -> count_jobs f l = count_jobs g l.
Proof. induction 1 as [|i l Hi _ IH]; cbn [count_jobs]; [done|]. by rewrite Hi, IH. Qed.

Lemma count_jobs_app f l1 l2 : count_jobs f (l1 ++ l2) = count_jobs f l1 + count_jobs f l2.
Proof. induction l1 as [|i l1 IH]; cbn [count_jobs app]; [done|]. rewrite IH. lia. Qed.

Lemma count_jobs_perm f l1 l2 : l1 ≡ₚ l2 -> count_jobs f l1 = count_jobs f l2.
Proof. induction 1; cbn [count_jobs]; lia. Qed.

Lemma job_ready_upd i j' w k : i <> k -> job_ready (upd i j' w) k = job_ready w k.
Proof. intros Hne. unfold job_ready. by rewrite lookup_upd_ne. Qed.

(** The inner loop on distinct queued jobs whose printers are active:
    each of them is processed once and counted, nothing else is written. *)
Lemma process_each_eq l :
  forall w a b,
    NoDup l ->
    Forall (fun i => exists j, jobs w !! i = Some j /\ state j = queued
                               /\ pr_active (printer_of w j) = true) l ->
    exists w',
      process_each l a b w
      = (Ok (a + count_jobs (job_ready w) l,
             b + count_jobs (fun i => negb (job_ready w i)) l), w')
      /\ printers w' = printers w
      /\ clock w' = clock w
      /\ forall k, jobs w' !! k
                   = if bool_decide (k ∈ l) then drained w <$> jobs w !! k else jobs w !! k.
Proof.
  induction l as [|i l IH]; intros w a b Hnd Hall.
  - exists w. cbn [process_each count_jobs]. rewrite !Z.add_0_r.
    do 3 (split; [done|]). intros k.
    rewrite bool_decide_eq_false_2; [done|apply not_elem_of_nil].
  - apply NoDup_cons in Hnd as [Hi Hnd].
    apply Forall_cons in Hall as [(j & Hj & Hs & Hact) Hall].
    cbn [process_each]. unfold bind at 1, try_except at 1, bind at 1.
    rewrite (read_some _ _ _ Hj). unfold bind at 1, get_printer at 1.
    rewrite Hact. cbn [negb]. unfold bind at 1.
    rewrite (process_job_queued _ _ _ Hj Hs).
    set (w1 := upd i (drained w j) w).
    assert (Hall1 : Forall (fun k => exists j0, jobs w1 !! k = Some j0 /\ state j0 = queued
                                      /\ pr_active (printer_of w1 j0) = true) l).
    { rewrite Forall_forall in Hall. apply Forall_forall. intros k Hk.
      destruct (Hall k Hk) as (j0 & Hj0 & Hs0 & Ha0). exists j0. split; [|done].
      unfold w1. rewrite lookup_upd_ne; [done|]. by intros ->. }
    assert (Hcount : forall f, (forall k, i <> k -> f w1 k = f w k) ->
                               count_jobs (f w1) l = count_jobs (f w) l).
    { intros f Hf. apply count_jobs_ext, Forall_forall. intros k Hk. apply Hf.
      by intros ->. }
    cbn [count_jobs]. unfold job_ready at 1 3. rewrite Hj.
    destruct (printer_ready w j); unfold ret at 1;
      (edestruct (IH w1) as (w' & Hrun & Hp & Hc & Hjobs); [done|exact Hall1|]);
      cbn [fst snd negb]; rewrite Hrun;
      rewrite (Hcount job_ready) by (intros; by apply job_ready_upd);
      rewrite (Hcount (fun w i => negb (job_ready w i)))
        by (intros; f_equal; by apply job_ready_upd);
      exists w'; (split; [f_equal; f_equal; f_equal; lia|]);
      (split; [done|]); (split; [done|]);
      intros k; rewrite Hjobs; unfold w1; rewrite jobs_upd, lookup_insert;
      (destruct (decide (i = k)) as [<-|Hne];
       [rewrite (bool_decide_eq_false_2 _ Hi),
          (bool_decide_eq_true_2 (i ∈ i :: l)) by apply list_elem_of_here;
        by rewrite Hj
       |case_bool_decide as H1; case_bool_decide as H2; try done;
        [exfalso; apply H2; by apply list_elem_of_further
        |exfalso; apply elem_of_cons in H2 as [->|H2]; [done|by apply H1]]]).
Qed.

Lemma filter_at_most_one (P : Z * Job -> Prop) `{!forall r, Decision (P r)} rs :
  NoDup (map fst rs) ->
  (forall r1 r2, r1 ∈ rs -> r2 ∈ rs -> P r1 -> P r2 -> fst r1 = fst r2) ->
  (length (filter P rs) <= 1)%nat.
Proof.
  induction rs as [|r rs IH]; intros Hnd Hone; [simpl; lia|].
  cbn [map] in Hnd. apply NoDup_cons in Hnd as [Hr Hnd].
  destruct (decide (P r)) as [Hp|Hp].
  - rewrite filter_cons_True by done.
    assert (filter P rs = []) as ->; [|simpl; lia].
    apply elem_of_nil_inv. intros r' Hr'. apply list_elem_of_filter in Hr' as [Hp' Hin].
    apply Hr. rewrite (Hone r r'); [by apply list_elem_of_fmap_2|left|by right|done..].
  - rewrite filter_cons_False by done. apply IH; [done|].
    intros r1 r2 H1 H2. apply Hone; by right.
Qed.

Lemma queued_in_spec l j :
  queued_in l j = true
  <-> state j = queued /\ exists pid, printer_id j = Some pid /\ pid ∈ l.
Proof.
  unfold queued_in. rewrite andb_true_iff, bool_decide_eq_true.
  destruct (printer_id j) as [pid|].
  - rewrite bool_decide_eq_true. split.
    + intros [? ?]. split; [done|]. by exists pid.
    + intros [? (q & [= <-] & ?)]. done.
  - split; [by intros [_ ?]|]. by intros [_ (q & ? & _)].
Qed.

Lemma drain_on_search w pid k :
  (if bool_decide (k ∈ search_queued_jobs w pid)
   then drained w <$> jobs w !! k else jobs w !! k)
  = drain_on [pid] w <$> jobs w !! k.
Proof.
  destruct (jobs w !! k) as [j|] eqn:Hj; [|by case_bool_decide].
  cbn [fmap option_fmap option_map]. unfold drain_on.
  case_bool_decide as Hin.
  - apply elem_of_search_queued_jobs in Hin as (j' & Hj' & Hp & Hs).
    replace j' with j in * by congruence.
    assert (queued_in [pid] j = true) as ->; [|done].
    apply queued_in_spec. split; [done|]. exists pid. split; [done|]. by left.
  - destruct (queued_in [pid] j) eqn:Hq; [|done]. exfalso. apply Hin.
    apply queued_in_spec in Hq as (Hs & q & Hp & Hq).
    apply list_elem_of_singleton in Hq as ->.
    apply elem_of_search_queued_jobs. by exists j.
Qed.

(** One turn of the loop over the printers, on an active printer with
    nothing to batch: its queue is drained. *)
Lemma process_printer_queue_eq w pid p a b :
  printers w !! pid = Some p ->
  active p = true ->
  (printer_type p = label ->
   forall i1 i2, label_job_queued_on w pid i1 -> label_job_queued_on w pid i2 -> i1 = i2) ->
  exists w',
    process_printer_queue pid a b w
    = (Ok (a + count_jobs (job_ready w) (search_queued_jobs w pid),
           b + count_jobs (fun i => negb (job_ready w i)) (search_queued_jobs w pid)), w')
    /\ printers w' = printers w
    /\ clock w' = clock w
    /\ forall k, jobs w' !! k = drain_on [pid] w <$> jobs w !! k.
Proof.
  intros Hp Ha Hone. unfold process_printer_queue. unfold bind at 1, get_world at 1.
  pose proof (NoDup_search_queued_jobs w pid) as Hnd.
  assert (Hin : forall i, i ∈ search_queued_jobs w pid ->
                  exists j, jobs w !! i = Some j /\ printer_id j = Some pid /\ state j = queued).
  { intros i. apply elem_of_search_queued_jobs. }
  assert (Hjobs : forall k, (if bool_decide (k ∈ search_queued_jobs w pid)
                             then drained w <$> jobs w !! k else jobs w !! k)
                            = drain_on [pid] w <$> jobs w !! k)
    by apply drain_on_search.
  destruct (search_queued_jobs w pid) as [|i l] eqn:El.
  { exists w. cbn [count_jobs]. rewrite !Z.add_0_r. do 3 (split; [done|]).
    intros k. by rewrite <- Hjobs. }
  set (q := i :: l) in *.
  destruct (process_each_eq q w a b Hnd) as (w' & Hrun & Hpr & Hc & Hj).
  { apply Forall_forall. intros k Hk. destruct (Hin k Hk) as (j & Hj & Hpj & Hs).
    exists j. split; [done|]. split; [done|]. unfold printer_of. by rewrite Hpj, Hp. }
  exists w'. split; [|split; [done|split; [done|]]].
  2: { intros k. by rewrite Hj, Hjobs. }
  unfold q at 1. cbn iota. unfold bind at 1, read_printer at 1. rewrite Hp.
  unfold bind at 1.
  case_bool_decide as Hlabel; [|unfold ret at 1; exact Hrun].
  destruct (read_all_eq w q) as (rs & Hread & Hfst & Hlook).
  { apply Forall_forall. intros k Hk. destruct (Hin k Hk) as (j & Hj' & _). by eexists. }
  change (i :: l) with q. unfold bind at 1. rewrite Hread. cbn zeta.
  assert ((1 <? length (map fst (filter (fun r => is_label_type (snd r) = true) rs)))%nat
          = false) as ->; [|unfold ret at 1; exact Hrun].
  apply Nat.ltb_ge. rewrite length_map. apply filter_at_most_one.
  { by rewrite Hfst. }
  intros r1 r2 H1 H2 L1 L2. rewrite Forall_forall in Hlook.
  assert (Hq : forall r, r ∈ rs -> is_label_type (snd r) = true ->
                 label_job_queued_on w pid (fst r)).
  { intros r Hr Hl. destruct (Hin (fst r)) as (j & Hj1 & Hpj & Hsj).
    { rewrite <- Hfst. by apply list_elem_of_fmap_2. }
    rewrite (Hlook _ Hr) in Hj1. injection Hj1 as E. subst j.
    exists (snd r). split; [by apply Hlook|done]. }
  apply (Hone Hlabel); by apply Hq.
Qed.

Lemma state_drained_not_queued w j : state (drained w j) <> queued.
Proof. rewrite state_drained. by destruct (printer_ready w j). Qed.

Lemma drain_on_queued l w j : state (drain_on l w j) = queued -> drain_on l w j = j.
Proof.
  unfold drain_on. destruct (queued_in l j); [|done].
  intros H. by apply state_drained_not_queued in H.
Qed.

Lemma printer_of_same w1 w j : printers w1 = printers w -> printer_of w1 j = printer_of w j.
Proof. intros H. unfold printer_of. by rewrite H. Qed.

Lemma drained_same w1 w j :
  printers w1 = printers w -> clock w1 = clock w -> drained w1 j = drained w j.
Proof.
  intros Hp Hc. unfold drained, printer_ready, process_failure, process_error.
  by rewrite (printer_of_same _ _ _ Hp), Hc.
Qed.

Lemma job_ready_same w1 w i :
  printers w1 = printers w -> jobs w1 !! i = jobs w !! i -> job_ready w1 i = job_ready w i.
Proof.
  intros Hp Hj. unfold job_ready, printer_ready. rewrite Hj.
  destruct (jobs w !! i); [|done]. by rewrite (printer_of_same _ _ _ Hp).
Qed.

Lemma queued_in_cons pid l j :
  queued_in (pid :: l) j = (queued_in [pid] j || queued_in l j)%bool.
Proof.
  apply eq_true_iff_eq. rewrite orb_true_iff, !queued_in_spec. split.
  - intros (Hs & q & Hp & Hq). apply elem_of_cons in Hq as [->|Hq].
    + left. split; [done|]. exists pid. split; [done|by left].
    + right. split; [done|]. by exists q.
  - intros [(Hs & q & Hp & Hq)|(Hs & q & Hp & Hq)]; (split; [done|]); exists q;
      (split; [done|]).
    + apply list_elem_of_singleton in Hq as ->. by left.
    + by right.
Qed.

Lemma queued_in_nil j : queued_in [] j = false.
Proof.
  destruct (queued_in [] j) eqn:E; [|done].
  apply queued_in_spec in E as (_ & q & _ & Hq). by apply not_elem_of_nil in Hq.
Qed.

Lemma queued_in_drained l w j : queued_in l (drained w j) = false.
Proof.
  unfold queued_in. rewrite bool_decide_eq_false_2; [done|apply state_drained_not_queued].
Qed.

Lemma drain_on_cons pid l w j :
  drain_on l w (drain_on [pid] w j) = drain_on (pid :: l) w j.
Proof.
  unfold drain_on. rewrite (queued_in_cons pid l).
  destruct (queued_in [pid] j); cbn [orb]; [by rewrite queued_in_drained|done].
Qed.

(** Draining one printer leaves the queues of the others as they were. *)
Lemma search_after_drain w w1 pid q :
  q <> pid ->
  (forall k, jobs w1 !! k = drain_on [pid] w <$> jobs w !! k) ->
  search_queued_jobs w1 q ≡ₚ search_queued_jobs w q
  /\ forall i, i ∈ search_queued_jobs w q -> jobs w1 !! i = jobs w !! i.
Proof.
  intros Hne Hj.
  assert (Hkeep : forall i, i ∈ search_queued_jobs w q -> jobs w1 !! i = jobs w !! i).
  { intros i Hi. apply elem_of_search_queued_jobs in Hi as (j & Hji & Hp & Hs).
    rewrite Hj, Hji. cbn [fmap option_fmap option_map]. unfold drain_on.
    destruct (queued_in [pid] j) eqn:Hq; [|done].
    apply queued_in_spec in Hq as (_ & q' & Hp' & Hq').
    apply list_elem_of_singleton in Hq'. congruence. }
  split; [|done].
  apply NoDup_Permutation; [apply NoDup_search_queued_jobs..|]. intros i. split.
  - intros Hi. apply elem_of_search_queued_jobs in Hi as (j1 & Hj1 & Hp & Hs).
    rewrite Hj in Hj1. destruct (jobs w !! i) as [j|] eqn:Hji; [|done].
    injection Hj1 as <-. pose proof (drain_on_queued _ _ _ Hs) as E. rewrite E in Hp, Hs.
    apply elem_of_search_queued_jobs. by exists j.
  - intros Hi. pose proof (Hkeep i Hi) as E.
    apply elem_of_search_queued_jobs in Hi as (j & Hji & Hp & Hs).
    apply elem_of_search_queued_jobs. exists j. by rewrite E.
Qed.

Lemma count_after_drain (f : World -> Z -> bool) w w1 pid l :
  pid ∉ l ->
  (forall i, jobs w1 !! i = jobs w !! i -> f w1 i = f w i) ->
  (forall k, jobs w1 !! k = drain_on [pid] w <$> jobs w !! k) ->
  count_jobs (f w1) (flat_map (search_queued_jobs w1) l)
  = count_jobs (f w) (flat_map (search_queued_jobs w) l).
Proof.
  intros Hpid Hf Hj. induction l as [|q l IH]; [done|].
  apply not_elem_of_cons in Hpid as [Hne Hpid]. cbn [flat_map].
  rewrite !count_jobs_app, IH by done. f_equal.
  destruct (search_after_drain w w1 pid q) as [Hperm Hkeep]; [done..|].
  rewrite (count_jobs_perm _ _ _ Hperm). apply count_jobs_ext, Forall_forall.
  intros i Hi. by apply Hf, Hkeep.
Qed.

Lemma nothing_to_batch_drain w w1 pid :
  printers w1 = printers w ->
  (forall k, jobs w1 !! k = drain_on [pid] w <$> jobs w !! k) ->
  nothing_to_batch w -> nothing_to_batch w1.
Proof.
  intros Hp Hj Hn q p i1 i2 Hq Hl H1 H2. rewrite Hp in Hq.
  assert (Hback : forall i, label_job_queued_on w1 q i -> label_job_queued_on w q i).
  { intros i (j1 & Hj1 & Hpj & Hs & Hlab). rewrite Hj in Hj1.
    destruct (jobs w !! i) as [j|] eqn:Hji; [|done]. injection Hj1 as <-.
    pose proof (drain_on_queued _ _ _ Hs) as E. rewrite E in Hpj, Hs, Hlab. by exists j. }
  apply (Hn q p); auto.
Qed.

(** The loop over the printers when nothing is batched: the queue of each
    is drained, and the counters tell the printed from the failed. *)
Lemma process_printers_eq l :
  forall w a b,
    NoDup l ->
    Forall (fun pid => exists p, printers w !! pid = Some p /\ active p = true) l ->
    nothing_to_batch w ->
    exists w',
      process_printers l a b w
      = (Ok (a + count_jobs (job_ready w) (flat_map (search_queued_jobs w) l),
             b + count_jobs (fun i => negb (job_ready w i))
                            (flat_map (search_queued_jobs w) l)), w')
      /\ printers w' = printers w
      /\ clock w' = clock w
      /\ forall k, jobs w' !! k = drain_on l w <$> jobs w !! k.
Proof.
  induction l as [|pid l IH]; intros w a b Hnd Hall Hn.
  - exists w. cbn [process_printers flat_map count_jobs]. rewrite !Z.add_0_r.
    do 3 (split; [done|]). intros k. destruct (jobs w !! k) as [j|]; [|done].
    cbn [fmap option_fmap option_map]. unfold drain_on. by rewrite queued_in_nil.
  - apply NoDup_cons in Hnd as [Hpid Hnd].
    apply Forall_cons in Hall as [(p & Hp & Ha) Hall].
    destruct (process_printer_queue_eq w pid p a b Hp Ha) as (w1 & Hrun1 & Hp1 & Hc1 & Hj1).
    { intros Hl i1 i2. by apply (Hn pid p). }
    cbn [process_printers]. unfold bind at 1. rewrite Hrun1. cbn [fst snd].
    edestruct (IH w1) as (w' & Hrun & Hp' & Hc' & Hj'); [done| |by eapply nothing_to_batch_drain|].
    { eapply Forall_impl; [exact Hall|]. intros q (p' & ? & ?). exists p'. by rewrite Hp1. }
    rewrite Hrun. exists w'. split; [|split; [congruence|split; [congruence|]]].
    + rewrite (count_after_drain job_ready w w1 pid l), 
        (count_after_drain (fun w i => negb (job_ready w i)) w w1 pid l); try done.
      * cbn [flat_map]. rewrite !count_jobs_app. do 3 f_equal; lia.
      * intros i E. f_equal. by apply job_ready_same.
      * intros i E. by apply job_ready_same.
    + intros k. rewrite Hj', Hj1. destruct (jobs w !! k) as [j|]; [|done].
      cbn [fmap option_fmap option_map]. f_equal.
      unfold drain_on at 1. rewrite (drained_same w1 w) by done.
      apply drain_on_cons.
Qed.

Lemma list_elem_of_flat_map {A B} (f : A -> list B) l y :
  y ∈ flat_map f l <-> exists x, y ∈ f x /\ x ∈ l.
Proof.
  induction l as [|a l IH]; cbn [flat_map].
  - split; [by intros ?%not_elem_of_nil|]. by intros (x & _ & ?%not_elem_of_nil).
  - rewrite elem_of_app, IH. split.
    + intros [H|(x & ? & ?)]; [exists a; split; [done|by left]|].
      exists x. split; [done|by right].
    + intros (x & Hy & [->|Hx]%elem_of_cons); [by left|]. right. by exists x.
Qed.

Lemma NoDup_search_active_printers w : NoDup (search_active_printers w).
Proof.
  unfold search_active_printers.
  rewrite (fmap_Permutation fst _ _ (sort_by_perm active_printer_order _)).
  apply NoDup_fst_filter, NoDup_fst_map_to_list.
Qed.

(** The ids counted by the run are the jobs queued on an active printer,
    each once. *)
Lemma elem_of_queued_active_ids w k :
  k ∈ queued_active_ids w <-> queued_on_active w k.
Proof.
  unfold queued_active_ids, queued_on_active. rewrite list_elem_of_flat_map. split.
  - intros (pid & Hk & Hpid).
    apply elem_of_search_active_printers in Hpid as (p & Hp & Ha).
    apply elem_of_search_queued_jobs in Hk as (j & Hj & Hpj & Hs).
    by exists j, pid, p.
  - intros (j & pid & p & Hj & Hs & Hpj & Hp & Ha). exists pid. split.
    + apply elem_of_search_queued_jobs. by exists j.
    + apply elem_of_search_active_printers. by exists p.
Qed.

Lemma NoDup_flat_map_search w l : NoDup l -> NoDup (flat_map (search_queued_jobs w) l).
Proof.
  induction 1 as [|pid l Hpid _ IH]; cbn [flat_map]; [constructor|].
  apply NoDup_app. split; [apply NoDup_search_queued_jobs|]. split; [|done].
  intros k Hk Hk'. apply list_elem_of_flat_map in Hk' as (q & Hq & Hl).
  apply elem_of_search_queued_jobs in Hk as (j & Hj & Hp & _).
  apply elem_of_search_queued_jobs in Hq as (j' & Hj' & Hp' & _).
  apply Hpid. congruence.
Qed.

Lemma NoDup_queued_active_ids w : NoDup (queued_active_ids w).
Proof. apply NoDup_flat_map_search, NoDup_search_active_printers. Qed.

Lemma queued_in_active w k j :
  jobs w !! k = Some j ->
  queued_in (search_active_printers w) j = true <-> queued_on_active w k.
Proof.
  intros Hj. rewrite queued_in_spec. unfold queued_on_active. split.
  - intros (Hs & pid & Hp & Hpid).
    apply elem_of_search_active_printers in Hpid as (p & Hpp & Ha). by exists j, pid, p.
  - intros (j' & pid & p & Hj' & Hs & Hp & Hpp & Ha).
    replace j' with j in * by congruence. split; [done|]. exists pid. split; [done|].
    apply elem_of_search_active_printers. by exists p.
Qed.

(** The whole run when nothing is batched. *)
Lemma process_queued_jobs_eq w :
  nothing_to_batch w ->
  exists s w',
    process_queued_jobs w = (Ok s, w')
    /\ s_processed s = count_jobs (job_ready w) (queued_active_ids w)
    /\ s_failed s = count_jobs (fun i => negb (job_ready w i)) (queued_active_ids w)
    /\ printers w' = printers w
    /\ forall k, jobs w' !! k = drain_on (search_active_printers w) w <$> jobs w !! k.
Proof.
  intros Hn. unfold process_queued_jobs, bind at 1, get_world at 1.
  destruct (process_printers_eq (search_active_printers w) w 0 0)
    as (w' & Hrun & Hp & _ & Hj); [apply NoDup_search_active_printers| |done|].
  { apply Forall_forall. intros pid. apply elem_of_search_active_printers. }
  fold (queued_active_ids w) in Hrun. rewrite !Z.add_0_l in Hrun.
  destruct (search_active_printers w) as [|pid l] eqn:El.
  - eexists _, w. split; [reflexivity|]. unfold queued_active_ids. rewrite El.
    do 3 (split; [done|]). intros k. destruct (jobs w !! k) as [j|]; [|done].
    cbn [fmap option_fmap option_map]. unfold drain_on. by rewrite queued_in_nil.
  - unfold bind. rewrite Hrun. cbn [fst snd]. eexists _, w'. split; [reflexivity|].
    by cbn [s_processed s_failed].
Qed.

(** When no label printer has two label jobs in its queue, a run of
    [process_queued_jobs] returns its summary and drains every queue of
    an active printer: each job found there is printing if the printer
    supports its format and failed with a message otherwise, so that
    nothing stays queued on an active printer; every other job and the
    printers are as before; and the summary counts the jobs sent to the
    printer and the failed ones. *)
Theorem process_queued_jobs_drains w :
  nothing_to_batch w ->
  exists s w',
    process_queued_jobs w = (Ok s, w')
    /\ printers w' = printers w
    /\ (forall k j, jobs w !! k = Some j -> queued_on_active w k ->
          exists j', jobs w' !! k = Some j'
                     /\ if format_supported (data_format j) (printer_of w j)
                        then j' = set_field j (F_state printing)
                        else state j' = failed
                             /\ error_message j'
                                = Some ("Printer " +:+ pr_name (printer_of w j) +:+
                                        " does not support format " +:+
                                        format_str (data_format j)))
    /\ (forall k, ~ queued_on_active w k -> jobs w' !! k = jobs w !! k)
    /\ (forall k, ~ queued_on_active w' k)
    /\ s_processed s = count_jobs (job_ready w) (queued_active_ids w)
    /\ s_failed s = count_jobs (fun i => negb (job_ready w i)) (queued_active_ids w).
Proof.
  intros Hn. destruct (process_queued_jobs_eq w Hn) as (s & w' & Hrun & Hs1 & Hs2 & Hp & Hj).
  exists s, w'. split; [done|]. split; [done|].
  assert (Hready : forall k j, jobs w !! k = Some j -> queued_on_active w k ->
                     printer_ready w j = format_supported (data_format j) (printer_of w j)
                     /\ pr_active (printer_of w j) = true).
  { intros k j Hjk (j' & pid & p & Hj' & _ & Hpj & Hpp & Ha).
    replace j' with j in * by congruence.
    unfold printer_ready, printer_of. rewrite Hpj, Hpp. cbn [pr_active]. by rewrite Ha. }
  split; [|split; [|split; [|done]]].
  - intros k j Hjk Hq. rewrite Hj, Hjk. cbn [fmap option_fmap option_map].
    eexists. split; [reflexivity|]. unfold drain_on.
    rewrite (proj2 (queued_in_active w k j Hjk) Hq). unfold drained.
    destruct (Hready k j Hjk Hq) as [-> Hact].
    destruct (format_supported _ _); [done|]. split; [apply state_process_failure|].
    unfold process_failure, process_error. rewrite Hact.
    by destruct (_is_transient_error _).
  - intros k Hnq. rewrite Hj. destruct (jobs w !! k) as [j|] eqn:Hjk; [|done].
    cbn [fmap option_fmap option_map]. unfold drain_on.
    destruct (queued_in _ j) eqn:Hq; [|done].
    by apply (queued_in_active w k j Hjk) in Hq.
  - intros k (j' & pid & p & Hj' & Hs & Hpj & Hpp & Ha).
    rewrite Hj in Hj'. destruct (jobs w !! k) as [j|] eqn:Hjk; [|done].
    injection Hj' as <-. pose proof (drain_on_queued _ _ _ Hs) as E.
    rewrite E in Hs, Hpj. rewrite Hp in Hpp.
    assert (queued_in (search_active_printers w) j = true) as Hq.
    { apply (queued_in_active w k j Hjk). by exists j, pid, p. }
    unfold drain_on in E. rewrite Hq in E.
    apply (state_drained_not_queued w j). by rewrite E.
Qed.

Lemma queue_world_nothing_to_batch : nothing_to_batch Sample.queue_world.
Proof.
  intros pid p i1 i2 Hp Hl. exfalso. revert Hp. unfold Sample.queue_world. cbn [printers].
  rewrite lookup_insert, lookup_singleton.
  repeat case_decide; intros [= <-] || intros [=]; discriminate Hl.
Qed.

Lemma process_queued_jobs_drains_witness :
  let w := Sample.queue_world in
  nothing_to_batch w
  /\ exists s w',
       process_queued_jobs w = (Ok s, w')
       /\ jobs w' !! 7 = Some (Sample.with_state printing Sample.job0)
       /\ (exists j', jobs w' !! 8 = Some j' /\ state j' = failed)
       /\ jobs w' !! 9 = jobs w !! 9
       /\ s_processed s = 1 /\ s_failed s = 1.
Proof.
  set (w := Sample.queue_world).
  pose proof queue_world_nothing_to_batch as Hn. split; [exact Hn|].
  destruct (process_queued_jobs_drains w Hn) as (s & w' & Hrun & _ & Hq & Hkeep & _ & H1 & H2).
  exists s, w'. split; [exact Hrun|].
  assert (Hon : forall k j, jobs w !! k = Some j -> state j = queued ->
                            printer_id j = Some 1 -> queued_on_active w k).
  { intros k j Hj Hs Hp. exists j, 1, Sample.office. by repeat split. }
  split; [|split; [|split; [|split]]].
  - destruct (Hq 7 (Sample.with_state queued Sample.job0) eq_refl) as (j' & Hj' & E).
    { by eapply Hon. }
    vm_compute in E. by rewrite Hj', E.
  - destruct (Hq 8 Sample.zpl_job eq_refl) as (j' & Hj' & E).
    { by eapply Hon. }
    exists j'. split; [done|]. by destruct E.
  - apply Hkeep. intros (j & pid & p & Hj & Hs & Hp & Hpp & Ha).
    injection Hj as <-. injection Hp as <-. injection Hpp as <-. discriminate Ha.
  - rewrite H1. reflexivity.
  - rewrite H2. reflexivity.
Defined.

Lemma queue_world_ids_below : ids_below_next Sample.queue_world.
Proof.
  intros i. unfold Sample.queue_world. cbn [jobs next_job_id].
  rewrite !lookup_insert, lookup_singleton.
  repeat case_decide; subst; try lia. by intros [? ?].
Qed.

Lemma process_queued_jobs_frame_witness :
  let w := Sample.queue_world in
  ids_below_next w
  /\ jobs (snd (process_queued_jobs w)) !! 9
     = Some (Sample.with_state queued (Sample.on_printer 2 Sample.job0)).
Proof.
  set (w := Sample.queue_world).
  pose proof queue_world_ids_below as Hb. split; [exact Hb|].
  destruct (process_queued_jobs_frame w (fst (process_queued_jobs w))
              (snd (process_queued_jobs w)) Hb (surjective_pairing _)) as [_ Hkeep].
  apply Hkeep; [reflexivity|].
  intros (j & pid & p & Hj & Hs & Hp & Hpp & Ha).
  injection Hj as <-. injection Hp as <-. injection Hpp as <-. discriminate Ha.
Defined.

(** ** The queue processor on a label printer with labels to batch *)

Lemma recordset_diff_self l : recordset_diff l l = [].
Proof.
  apply elem_of_nil_inv. intros i Hi. unfold recordset_diff in Hi.
  apply list_elem_of_filter in Hi as [Hn Hi]. by apply Hn.
Qed.

Lemma process_job_draft w i j :
  jobs w !! i = Some j -> state j = draft -> process_job i w = (Ok false, w).
Proof.
  intros Hj Hs. unfold process_job, bind. rewrite (read_some _ _ _ Hj).
  rewrite bool_decide_eq_false_2; [done|]. rewrite Hs. by intros [?|?].
Qed.

(** One turn of the loop on a label printer whose queue holds two or more
    label jobs: the turn does what [batch_label_jobs] does, then counts
    the batch job, a draft, as failed. *)
Lemma process_printer_queue_batch w pid p i1 i2 more a b :
  ids_below_next w ->
  printers w !! pid = Some p -> active p = true -> printer_type p = label ->
  search_queued_jobs w pid = i1 :: i2 :: more ->
  batchable w pid (i1 :: i2 :: more) ->
  dates_uniform w (i1 :: i2 :: more) ->
  exists bj w',
    process_printer_queue pid a b w = (Ok (a, b + 1), w')
    /\ batch_label_jobs (i1 :: i2 :: more) w = (Ok [next_job_id w], w')
    /\ printers w' = printers w
    /\ jobs w' !! next_job_id w = Some bj
    /\ state bj = draft
    /\ (forall i, i ∈ i1 :: i2 :: more ->
          exists j', jobs w' !! i = Some j' /\ state j' = cancelled)
    /\ (forall k, k <> next_job_id w -> k ∉ i1 :: i2 :: more -> jobs w' !! k = jobs w !! k).
Proof.
  intros Hb Hp Ha Hl Hq Hbat Hd.
  destruct (batch_label_jobs_run w pid p i1 i2 more Hbat Hp Hd Hb)
    as (bj & w' & Hrun & _ & Hbj & _ & _ & Hpbj & _ & _ & _ & _ & Hcan & Hkeep & Hs).
  set (q := i1 :: i2 :: more) in *.
  assert (Hpr : printers w' = printers w).
  { refine (proj1 (proj1 (within_batch_label_jobs w q _ w _ w' (run_from_refl w Hb) Hrun))).
    apply Forall_forall. intros i Hi. left. rewrite <- Hq in Hi.
    apply elem_of_search_queued_jobs in Hi as (j & Hj & Hpj & Hsj). by exists j, pid, p. }
  exists bj, w'. split; [|split; [done|split; [done|split; [done|split; [done|split]]]]].
  - unfold process_printer_queue, bind at 1, get_world at 1. rewrite Hq.
    unfold q at 1. cbn iota. unfold bind at 1, read_printer at 1. rewrite Hp.
    rewrite (bool_decide_eq_true_2 _ Hl).
    destruct (read_all_eq w q) as (rs & Hread & Hfst & Hlook).
    { eapply Forall_impl; [exact Hbat|]. intros i (j & Hj & _). by eexists. }
    change (i1 :: i2 :: more) with q. unfold bind at 1 2. rewrite Hread. cbn zeta.
    rewrite filter_all.
    2: { apply Forall_forall. intros r Hr. rewrite Forall_forall in Hlook.
         unfold batchable in Hbat. rewrite Forall_forall in Hbat.
         destruct (Hbat (fst r)) as (j & Hj & Hlab & _).
         { rewrite <- Hfst. by apply list_elem_of_fmap_2. }
         rewrite (Hlook _ Hr) in Hj. by injection Hj as <-. }
    rewrite Hfst. unfold q at 1. cbn [length Nat.ltb Nat.leb].
    unfold try_except, bind at 1. rewrite Hrun. unfold ret at 1.
    rewrite recordset_diff_self. unfold recordset_union. cbn [app].
    rewrite filter_cons_True by apply not_elem_of_nil. rewrite filter_nil.
    cbn [process_each]. unfold bind at 1, try_except at 1, bind at 1.
    rewrite (read_some _ _ _ Hbj). unfold bind at 1, get_printer at 1.
    unfold printer_of. rewrite Hpbj, Hpr, Hp. cbn [pr_active]. rewrite Ha. cbn [negb].
    unfold bind at 1. rewrite (process_job_draft _ _ _ Hbj Hs). reflexivity.
  - intros i Hi. destruct (Hcan i Hi) as (j' & Hj' & Hsj & _). by exists j'.
  - exact Hkeep.
Qed.

Lemma process_printers_idle l :
  forall w a b,
    Forall (fun q => search_queued_jobs w q = []) l ->
    process_printers l a b w = (Ok (a, b), w).
Proof.
  induction l as [|q l IH]; intros w a b Hall; [done|].
  apply Forall_cons in Hall as [Hq Hall]. cbn [process_printers].
  unfold bind at 1, process_printer_queue, bind at 1, get_world at 1. rewrite Hq.
  unfold ret at 1. cbn [fst snd]. by apply IH.
Qed.

Lemma process_printers_one pid w w' l :
  (forall a b, process_printer_queue pid a b w = (Ok (a, b + 1), w')) ->
  Forall (fun q => q <> pid -> search_queued_jobs w q = []) l ->
  Forall (fun q => search_queued_jobs w' q = []) l ->
  pid ∈ l ->
  forall a b, process_printers l a b w = (Ok (a, b + 1), w').
Proof.
  intros Hturn. induction l as [|q l IH]; intros Hidle Hafter Hin a b;
    [by apply not_elem_of_nil in Hin|].
  apply Forall_cons in Hidle as [Hq Hidle]. apply Forall_cons in Hafter as [_ Hafter].
  cbn [process_printers]. unfold bind at 1.
  destruct (decide (q = pid)) as [->|Hne].
  - rewrite Hturn. cbn [fst snd]. by apply process_printers_idle.
  - unfold process_printer_queue, bind at 1, get_world at 1. rewrite (Hq Hne).
    unfold ret at 1. cbn [fst snd]. apply IH; [done..|].
    apply elem_of_cons in Hin as [->|Hin]; done.
Qed.

(** When the only queued work is two or more label jobs on one active
    label printer, a run of [process_queued_jobs] prints nothing: it does
    what [batch_label_jobs] does, so the labels are cancelled, and the
    batch job that replaces them is a draft, which [process_job] refuses;
    the summary reports no job processed and one failed, and no job is
    newly in state [printing]. *)
Theorem process_queued_jobs_batches w pid p :
  ids_below_next w ->
  printers w !! pid = Some p -> active p = true -> printer_type p = label ->
  (1 < length (search_queued_jobs w pid))%nat ->
  batchable w pid (search_queued_jobs w pid) ->
  dates_uniform w (search_queued_jobs w pid) ->
  (forall k, queued_on_active w k -> k ∈ search_queued_jobs w pid) ->
  exists s bj w',
    process_queued_jobs w = (Ok s, w')
    /\ batch_label_jobs (search_queued_jobs w pid) w = (Ok [next_job_id w], w')
    /\ s_processed s = 0 /\ s_failed s = 1
    /\ jobs w' !! next_job_id w = Some bj
    /\ state bj = draft
    /\ (forall i, i ∈ search_queued_jobs w pid ->
          exists j', jobs w' !! i = Some j' /\ state j' = cancelled)
    /\ (forall k j, jobs w' !! k = Some j -> state j = printing -> jobs w !! k = Some j).
Proof.
  intros Hb Hp Ha Hl Hlen Hbat Hd Honly.
  pose proof (elem_of_search_queued_jobs w pid) as Hmem.
  destruct (search_queued_jobs w pid) as [|i1 [|i2 more]] eqn:Hq;
    [simpl in Hlen; lia..|].
  set (q := i1 :: i2 :: more) in *.
  assert (Hturn : exists bj w',
             (forall a b, process_printer_queue pid a b w = (Ok (a, b + 1), w'))
             /\ batch_label_jobs q w = (Ok [next_job_id w], w')
             /\ printers w' = printers w
             /\ jobs w' !! next_job_id w = Some bj
             /\ state bj = draft
             /\ (forall i, i ∈ q -> exists j', jobs w' !! i = Some j' /\ state j' = cancelled)
             /\ (forall k, k <> next_job_id w -> k ∉ q -> jobs w' !! k = jobs w !! k)).
  { destruct (process_printer_queue_batch w pid p i1 i2 more 0 0 Hb Hp Ha Hl Hq Hbat Hd)
      as (bj & w' & _ & Hrun & Hrest).
    exists bj, w'. split; [|by split]. intros a b.
    destruct (process_printer_queue_batch w pid p i1 i2 more a b Hb Hp Ha Hl Hq Hbat Hd)
      as (bj' & w'' & Hturn & Hrun' & _).
    fold q in Hrun, Hrun'. rewrite Hrun in Hrun'. by injection Hrun' as <-. }
  destruct Hturn as (bj & w' & Hturn & Hrun & Hpr & Hbj & Hs & Hcan & Hkeep).
  assert (Hidle : forall k, k ∈ q \/ ~ queued_on_active w k).
  { intros k. destruct (decide (k ∈ q)); [by left|right]. intros H. by apply Honly in H. }
  assert (Hnone : forall q', (exists p', printers w !! q' = Some p' /\ active p' = true) ->
                             search_queued_jobs w' q' = []).
  { intros q' (p' & Hp' & Ha'). apply elem_of_nil_inv. intros k Hk.
    apply elem_of_search_queued_jobs in Hk as (j & Hj & Hpj & Hsj).
    destruct (decide (k = next_job_id w)) as [->|Hne]; [congruence|].
    destruct (decide (k ∈ q)) as [Hin|Hin].
    - destruct (Hcan k Hin) as (j' & Hj' & Hs'). congruence.
    - rewrite (Hkeep k Hne Hin) in Hj. apply Hin, Honly. by exists j, q', p'. }
  assert (Hin : pid ∈ search_active_printers w)
    by (apply elem_of_search_active_printers; by exists p).
  assert (Hloop : forall a b,
             process_printers (search_active_printers w) a b w = (Ok (a, b + 1), w')).
  { apply (process_printers_one pid w w'); [done| | |done].
    - apply Forall_forall. intros q' Hq' Hne. apply elem_of_nil_inv. intros k Hk.
      apply elem_of_search_queued_jobs in Hk as (j & Hj & Hpj & Hsj).
      apply elem_of_search_active_printers in Hq' as (p' & Hp' & Ha').
      assert (k ∈ q) as Hkq by (apply Honly; by exists j, q', p').
      apply Hmem in Hkq as (j' & Hj' & Hpj' & _). congruence.
    - apply Forall_forall. intros q' Hq'. apply Hnone.
      by apply elem_of_search_active_printers. }
  assert (exists s, process_queued_jobs w = (Ok s, w')
                    /\ s_processed s = 0 /\ s_failed s = 1) as (s & Hs0 & Hs1 & Hs2).
  { unfold process_queued_jobs, bind at 1, get_world at 1.
    destruct (search_active_printers w) as [|q0 l0] eqn:El.
    { by apply not_elem_of_nil in Hin. }
    unfold bind. rewrite Hloop. by eexists. }
  exists s, bj, w'. split; [done|].
  split; [done|]. split; [done|]. split; [done|]. split; [done|]. split; [done|].
  split; [done|]. intros k j Hj Hsj.
  destruct (decide (k = next_job_id w)) as [->|Hne]; [congruence|].
  destruct (decide (k ∈ q)) as [Hkq|Hkq].
  - destruct (Hcan k Hkq) as (j' & Hj' & Hs'). congruence.
  - by rewrite <- (Hkeep k Hne Hkq).
Qed.

Lemma process_queued_jobs_batches_witness :
  let w := Sample.label_world None None None None in
  (ids_below_next w
   /\ printers w !! 5 = Some Sample.zebra
   /\ (1 < length (search_queued_jobs w 5))%nat
   /\ batchable w 5 (search_queued_jobs w 5)
   /\ dates_uniform w (search_queued_jobs w 5)
   /\ forall k, queued_on_active w k -> k ∈ search_queued_jobs w 5)
  /\ exists s w',
       process_queued_jobs w = (Ok s, w')
       /\ s_processed s = 0 /\ s_failed s = 1
       /\ forall i, i ∈ [1; 2; 3] ->
            exists j', jobs w' !! i = Some j' /\ state j' = cancelled.
Proof.
  set (w := Sample.label_world None None None None).
  pose proof (label_world_ids_below None None None None) as Hb. fold w in Hb.
  assert (Hp : printers w !! 5 = Some Sample.zebra) by reflexivity.
  assert (Hq : search_queued_jobs w 5 = [2; 3; 1]) by (vm_compute; reflexivity).
  assert (Hlen : (1 < length (search_queued_jobs w 5))%nat) by (rewrite Hq; simpl; lia).
  assert (Hbat : batchable w 5 (search_queued_jobs w 5)).
  { rewrite Hq. repeat constructor; eexists; (split; [reflexivity|]);
      (split; [reflexivity|]); (split; [reflexivity|]); vm_compute; discriminate. }
  assert (Hd : dates_uniform w (search_queued_jobs w 5)).
  { rewrite Hq. left. repeat constructor; eexists; (split; reflexivity). }
  assert (Honly : forall k, queued_on_active w k -> k ∈ search_queued_jobs w 5).
  { intros k (j & pid & p & Hj & Hs & Hpj & Hpp & _).
    change (printers w) with ({[ 5 := Sample.zebra ]} : gmap Z Printer) in Hpp.
    apply lookup_singleton_Some in Hpp as [<- _].
    apply elem_of_search_queued_jobs. by exists j. }
  split; [exact (conj Hb (conj Hp (conj Hlen (conj Hbat (conj Hd Honly)))))|].
  destruct (process_queued_jobs_batches w 5 Sample.zebra Hb Hp eq_refl eq_refl
              Hlen Hbat Hd Honly)
    as (s & bj & w' & Hrun & _ & H0 & H1 & _ & _ & Hcan & _).
  exists s, w'. split; [exact Hrun|]. split; [exact H0|]. split; [exact H1|].
  intros i Hi. apply Hcan. rewrite Hq.
  repeat (apply elem_of_cons in Hi as [->|Hi]); [| | |by apply not_elem_of_nil in Hi].
  - by do 2 right; left. 
  - by left.
  - by right; left.
Defined.

(** ** The print service *)

Lemma head_sort_by_elem {A} (le : A -> A -> bool) (l : list A) x :
  head (sort_by le l) = Some x -> x ∈ l.
Proof.
  intros H. rewrite <- (sort_by_perm le l).
  destruct (sort_by le l); [discriminate|]. injection H as ->. by left.
Qed.

Lemma head_sort_by_none {A} (le : A -> A -> bool) (l : list A) :
  head (sort_by le l) = None -> l = [].
Proof.
  intros H. pose proof (sort_by_perm le l) as Hp.
  destruct (sort_by le l); [|discriminate]. by apply Permutation_nil_l in Hp.
Qed.

Lemma in_domain_active ptype location dept p :
  in_domain ptype location dept p = true -> active p = true.
Proof. unfold in_domain. rewrite !andb_true_iff. tauto. Qed.

(** What [get_default_printer] returns is a stored record of its
    domain. *)
Lemma get_default_printer_stored w ptype location dept best :
  get_default_printer w ptype location dept = Some best ->
  printers w !! fst best = Some (snd best)
  /\ in_domain ptype location dept (snd best) = true.
Proof.
  unfold get_default_printer. intros Hsel.
  destruct (search_printers w ptype location dept) as [|c cs] eqn:Hs; [discriminate|].
  destruct (select_best_printer_max (c :: cs) location dept) as (b & Hb & Hin & _);
    [done|].
  rewrite Hsel in Hb. injection Hb as <-.
  rewrite <- Hs in Hin. by apply elem_of_search_printers in Hin.
Qed.

Lemma get_printer_for_type_stored w doc location dept best :
  get_printer_for_type w doc location dept = Some best ->
  printers w !! fst best = Some (snd best) /\ active (snd best) = true.
Proof.
  unfold get_printer_for_type. intros H.
  destruct (PyStr.truthy doc); [destruct (printer_type_of_string _); [|done]|];
    apply get_default_printer_stored in H as [? ?%in_domain_active]; done.
Qed.

Lemma search_fallback_stored w best :
  search_fallback w = Some best ->
  printers w !! fst best = Some (snd best) /\ active (snd best) = true.
Proof.
  intros H. apply head_sort_by_elem, list_elem_of_filter in H as [Ha H].
  destruct best as [i p]. by apply elem_of_map_to_list in H.
Qed.

Lemma search_fallback_none w :
  search_fallback w = None <-> forall i p, printers w !! i = Some p -> active p = false.
Proof.
  split.
  - intros H%head_sort_by_none i p Hp. destruct (active p) eqn:Ha; [|done].
    assert ((i, p) ∈ @nil (Z * Printer)) as Hin; [|by apply not_elem_of_nil in Hin].
    rewrite <- H. apply list_elem_of_filter. split; [done|]. by apply elem_of_map_to_list.
  - intros Hall. destruct (search_fallback w) as [[i p]|] eqn:E; [|done].
    apply search_fallback_stored in E as [Hp Ha]. simpl in *.
    rewrite (Hall i p Hp) in Ha. discriminate.
Qed.

Lemma search_by_name_stored w n best :
  search_by_name w n = Some best ->
  printers w !! fst best = Some (snd best) /\ active (snd best) = true
  /\ p_name (snd best) = n.
Proof.
  intros H. apply head_sort_by_elem, list_elem_of_filter in H as [[Hn Ha] H].
  destruct best as [i p]. by apply elem_of_map_to_list in H.
Qed.

(** The case analysis of [_get_printer]. *)
Lemma get_printer_inv company printer_ref doc location dept w i p w' :
  _get_printer company printer_ref doc location dept w = (Ok (Some (i, p)), w') ->
  w' = w
  /\ printers w !! i = Some p
  /\ active p = true
  /\ (forall k, printer_ref = Some (ById k) -> k <> 0 -> i = k)
  /\ (forall n, printer_ref = Some (ByName n) -> n <> EmptyString -> p_name p = n).
Proof.
  unfold _get_printer, bind, get_world. cbn zeta.
  assert (Hauto :
    forall loc,
      match get_printer_for_type w doc loc dept with
      | Some r => ret (Some r)
      | None => ret (search_fallback w)
      end w = (Ok (Some (i, p)), w') ->
      w' = w /\ printers w !! i = Some p /\ active p = true).
  { intros loc. destruct (get_printer_for_type w doc loc dept) as [r|] eqn:E.
    - intros [= -> <-]. by apply get_printer_for_type_stored in E as [? ?].
    - intros [= E' <-]. by apply search_fallback_stored in E' as [? ?]. }
  destruct printer_ref as [[k|n]|].
  - destruct (Z.eqb_spec k 0) as [->|Hk]; cbn [negb].
    + intros H%Hauto. destruct H as (? & ? & ?). do 3 (split; [done|]).
      split; [by intros ? [= <-]|by intros ? [=]].
    + destruct (printers w !! k) as [q|] eqn:Hq; [|by intros [=]].
      destruct (active q) eqn:Ha; cbn [negb]; [|by intros [=]].
      intros [= <- <- <-]. do 3 (split; [done|]).
      split; [by intros ? [= <-]|by intros ? [=]].
  - destruct n as [|c n]; cbn [PyStr.truthy].
    + intros H%Hauto. destruct H as (? & ? & ?). do 3 (split; [done|]).
      split; [by intros ? [=]|by intros ? [= <-]].
    + destruct (search_by_name w (String c n)) as [r|] eqn:E; [|by intros [=]].
      intros [= -> <-]. apply search_by_name_stored in E as (? & ? & ?).
      do 3 (split; [done|]). split; [by intros ? [=]|by intros ? [= <-]].
  - intros H%Hauto. destruct H as (? & ? & ?). do 3 (split; [done|]).
    split; by intros ? [=].
Qed.

(** Whatever [_get_printer] is asked, the printer it returns is a stored,
    active printer, and it is the one named when one was named: a printer
    given by id or by name is never replaced by another one.  The
    database is only read. *)
Theorem get_printer_active company printer_ref doc location dept w i p w' :
  _get_printer company printer_ref doc location dept w = (Ok (Some (i, p)), w') ->
  w' = w
  /\ printers w !! i = Some p
  /\ active p = true
  /\ (forall k, printer_ref = Some (ById k) -> k <> 0 -> i = k)
  /\ (forall n, printer_ref = Some (ByName n) -> n <> EmptyString -> p_name p = n).
Proof. apply get_printer_inv. Qed.

Lemma get_printer_active_witness :
  let w := Sample.label_shop 5 in
  _get_printer None None (Some "label"%string) None None w
  = (Ok (Some (1, Sample.default_label)), w)
  /\ printers w !! 1 = Some Sample.default_label
  /\ active Sample.default_label = true.
Proof.
  set (w := Sample.label_shop 5).
  assert (H : _get_printer None None (Some "label"%string) None None w
              = (Ok (Some (1, Sample.default_label)), w)) by (vm_compute; reflexivity).
  split; [exact H|].
  destruct (get_printer_active _ _ _ _ _ _ _ _ _ H) as (_ & Hp & Ha & _). by split.
Defined.

(** Left to choose, [_get_printer] never raises, and it returns no printer
    only when the database holds no active printer at all: when none
    matches the document type, the location or the department, some
    active printer is returned all the same. *)
Theorem get_printer_automatic company doc location dept w :
  exists r,
    _get_printer company None doc location dept w = (Ok r, w)
    /\ (r = None <-> forall i p, printers w !! i = Some p -> active p = false).
Proof.
  unfold _get_printer, bind, get_world. cbn zeta.
  destruct (get_printer_for_type w doc _ dept) as [[i p]|] eqn:E.
  - eexists. split; [reflexivity|]. split; [done|]. intros Hall.
    apply get_printer_for_type_stored in E as [Hp Ha]. simpl in *.
    rewrite (Hall i p Hp) in Ha. discriminate.
  - eexists. split; [reflexivity|]. apply search_fallback_none.
Qed.

Lemma supports_format_agree p format f :
  format_of_string format = Some f ->
  _printer_supports_format p format = format_supported f (Some p).
Proof.
  unfold format_of_string.
  destruct (String.eqb_spec format "pdf") as [->|_];
    [|destruct (String.eqb_spec format "html") as [->|_];
      [|destruct (String.eqb_spec format "escpos") as [->|_];
        [|destruct (String.eqb_spec format "zpl") as [->|_]; [|discriminate]]]];
    intros [= <-]; unfold _printer_supports_format, format_supported;
    cbn [format_field_map String.eqb Ascii.eqb Bool.eqb];
    destruct (supports_pdf p), (supports_html p), (supports_escpos p), (supports_zpl p);
    reflexivity.
Qed.

(** The format [_detect_label_format] picks is one the printer supports,
    unless the printer supports no format at all: the fallback ['html'] is
    then a format the printer does not take. *)
Theorem detect_label_format_supported p :
  _printer_supports_format p (_detect_label_format p)
  = (supports_zpl p || supports_escpos p || supports_html p || supports_pdf p)%bool.
Proof.
  unfold _detect_label_format, _printer_supports_format.
  destruct (supports_zpl p) eqn:Z; [by cbn; rewrite Z|].
  destruct (supports_escpos p) eqn:E; [by cbn; rewrite E|].
  destruct (supports_html p) eqn:H; [by cbn; rewrite H|].
  destruct (supports_pdf p) eqn:P; [by cbn; rewrite P|].
  by cbn; rewrite H.
Qed.

Lemma b64encode_nonempty data : data <> [] -> data_truthy (Some (b64encode data)) = true.
Proof. by destruct data as [|a [|b [|c r]]]. Qed.

(** [_create_print_job] for a stored, active printer and a payload. *)
Lemma create_print_job_eq w pid p data f options :
  printers w !! pid = Some p -> active p = true ->
  data <> [] ->
  1 <= default 1 (o_copies options) -> 0 <= default 5 (o_priority options) ->
  let v := job_values (uid w) pid data f options in
  _create_print_job pid data f options w
  = (Ok (next_job_id w),
     upd (next_job_id w)
         (apply_vals (created_job w v) [F_submitted_date (clock w); F_state queued])
         (created_world w v)).
Proof.
  intros Hp Ha Hd Hc Hpr v. unfold _create_print_job, bind at 1, get_world at 1.
  fold v. unfold bind at 1. rewrite create_one_eq; [|done|exists p; exact Hp|].
  2: { repeat split; simpl; lia. }
  unfold bind at 1.
  rewrite (submit_job_online (created_world w v) (next_job_id w) (created_job w v)).
  - reflexivity.
  - apply lookup_insert_eq.
  - split; [left; by apply b64encode_nonempty|by eexists].
  - unfold printer_of. cbn. by rewrite Hp.
Qed.

(** [print_raw] with a payload, for a printer that takes the format: a
    new job is stored and queued for the chosen printer, with the payload
    in base64, the user of the call and the copies and priority asked
    for; no other record changes; and [process_job] on the new job then
    sends it to the printer, as the checks of the service are those of
    [process_job]. *)
Theorem print_raw_spec company payload format f printer_ref options w pid p :
  format_of_string format = Some f ->
  _get_printer company printer_ref (o_document_type options) None None w
  = (Ok (Some (pid, p)), w) ->
  _printer_supports_format p format = true ->
  payload <> [] ->
  1 <= default 1 (o_copies options) ->
  0 <= default 5 (o_priority options) ->
  exists j w',
    print_raw company payload format printer_ref options w
    = (Returned (mkPrintReceipt (next_job_id w) (name j) (p_name p) queued), w')
    /\ jobs w' !! next_job_id w = Some j
    /\ state j = queued
    /\ printer_id j = Some pid
    /\ data j = Some (b64encode payload)
    /\ data_format j = f
    /\ user_id j = uid w
    /\ copies j = default 1 (o_copies options)
    /\ priority j = default 5 (o_priority options)
    /\ submitted_date j = Some (clock w)
    /\ error_message j = None
    /\ retry_count j = 0
    /\ (forall k, k <> next_job_id w -> jobs w' !! k = jobs w !! k)
    /\ printers w' = printers w
    /\ process_job (next_job_id w) w'
       = (Ok true, upd (next_job_id w) (set_field j (F_state printing)) w').
Proof.
  intros Hf Hget Hsup Hd Hc Hpr.
  destruct (get_printer_inv _ _ _ _ _ _ _ _ _ Hget) as (_ & Hp & Ha & _).
  set (v := job_values (uid w) pid payload f options).
  set (j := apply_vals (created_job w v) [F_submitted_date (clock w); F_state queued]).
  set (w' := upd (next_job_id w) j (created_world w v)).
  assert (Hj : jobs w' !! next_job_id w = Some j) by apply lookup_upd.
  exists j, w'. split.
  { unfold print_raw. rewrite Hf, Hget, Hsup. cbn [negb]. unfold bind at 1.
    rewrite (create_print_job_eq w pid p) by done. fold v j w'.
    unfold bind. rewrite (read_some _ _ _ Hj). reflexivity. }
  do 11 (split; [done|]). split; [|split; [done|]].
  - intros k Hk. unfold w'. rewrite lookup_upd_ne by done.
    unfold created_world. cbn [jobs]. by apply lookup_insert_ne.
  - apply (process_job_ready w' (next_job_id w) j Hj); [by left| |].
    + unfold printer_of. cbn. by rewrite Hp.
    + unfold printer_of. cbn. rewrite Hp. by rewrite <- (supports_format_agree p format f).
Qed.

Lemma print_raw_spec_witness :
  let w := Sample.label_world None None None None in
  let options := mkPrintOptions (Some "label"%string) None None None None None None in
  (format_of_string "zpl" = Some zpl
   /\ _get_printer None (Some (ById 5)) (o_document_type options) None None w
      = (Ok (Some (5, Sample.zebra)), w)
   /\ _printer_supports_format Sample.zebra "zpl" = true)
  /\ exists j w',
       print_raw None [Byte.x41] "zpl" (Some (ById 5)) options w
       = (Returned (mkPrintReceipt 4 (name j) "Zebra" queued), w')
       /\ jobs w' !! 4 = Some j
       /\ data j = Some [Byte.x51; Byte.x51; Byte.x3d; Byte.x3d]
       /\ process_job 4 w' = (Ok true, upd 4 (set_field j (F_state printing)) w').
Proof.
  set (w := Sample.label_world None None None None).
  set (options := mkPrintOptions (Some "label"%string) None None None None None None).
  assert (Hf : format_of_string "zpl" = Some zpl) by reflexivity.
  assert (Hg : _get_printer None (Some (ById 5)) (o_document_type options) None None w
               = (Ok (Some (5, Sample.zebra)), w)) by reflexivity.
  assert (Hs : _printer_supports_format Sample.zebra "zpl" = true) by reflexivity.
  split; [exact (conj Hf (conj Hg Hs))|].
  destruct (print_raw_spec None [Byte.x41] "zpl" zpl (Some (ById 5)) options w 5
              Sample.zebra Hf Hg Hs)
    as (j & w' & Hrun & Hj & _ & _ & Hd & _ & _ & _ & _ & _ & _ & _ & _ & _ & Hproc);
    [discriminate|simpl; lia|simpl; lia|].
  exists j, w'. split; [exact Hrun|]. split; [exact Hj|]. split; [exact Hd|exact Hproc].
Defined.

(** [print_raw] does not check that there is something to print: with an
    empty payload and no template the job record is created first and
    [submit_job] then raises, so that the error comes with a draft job
    left behind.  [print_pdf] refuses the same call before anything is
    created. *)
Theorem print_raw_empty_payload company format f printer_ref options w pid p :
  format_of_string format = Some f ->
  _get_printer company printer_ref (o_document_type options) None None w
  = (Ok (Some (pid, p)), w) ->
  _printer_supports_format p format = true ->
  truthy_id (o_template_id options) = false ->
  1 <= default 1 (o_copies options) ->
  0 <= default 5 (o_priority options) ->
  exists j w',
    print_raw company [] format printer_ref options w
    = (Failed (ModelError (ValidationError "Print job must have either data or a template")),
       w')
    /\ jobs w' !! next_job_id w = Some j
    /\ state j = draft
    /\ printer_id j = Some pid
    /\ next_job_id w' = next_job_id w + 1
    /\ print_pdf company [] printer_ref options w
       = (Failed (ModelError (ValidationError "PDF data cannot be empty")), w).
Proof.
  intros Hf Hget Hsup Ht Hc Hpr.
  destruct (get_printer_inv _ _ _ _ _ _ _ _ _ Hget) as (_ & Hp & Ha & _).
  set (v := job_values (uid w) pid [] f options).
  exists (created_job w v), (created_world w v). split; [|split; [apply lookup_insert_eq|done]].
  unfold print_raw. rewrite Hf, Hget, Hsup. cbn [negb].
  unfold bind at 1, _create_print_job, bind at 1, get_world at 1. fold v.
  unfold bind at 1. rewrite create_one_eq; [|done|exists p; exact Hp|].
  2: { repeat split; simpl; lia. }
  unfold bind at 1.
  rewrite (submit_job_no_payload (created_world w v) (next_job_id w) (created_job w v)).
  - reflexivity.
  - apply lookup_insert_eq.
  - reflexivity.
  - cbn. by rewrite Ht.
Qed.

Lemma print_raw_empty_payload_witness :
  let w := Sample.label_world None None None None in
  let options := mkPrintOptions (Some "label"%string) None None None None None None in
  (format_of_string "zpl" = Some zpl
   /\ _get_printer None (Some (ById 5)) (o_document_type options) None None w
      = (Ok (Some (5, Sample.zebra)), w)
   /\ _printer_supports_format Sample.zebra "zpl" = true)
  /\ exists j w',
       print_raw None [] "zpl" (Some (ById 5)) options w
       = (Failed (ModelError (ValidationError "Print job must have either data or a template")),
          w')
       /\ jobs w' !! 4 = Some j
       /\ state j = draft.
Proof.
  set (w := Sample.label_world None None None None).
  set (options := mkPrintOptions (Some "label"%string) None None None None None None).
  assert (Hf : format_of_string "zpl" = Some zpl) by reflexivity.
  assert (Hg : _get_printer None (Some (ById 5)) (o_document_type options) None None w
               = (Ok (Some (5, Sample.zebra)), w)) by reflexivity.
  assert (Hs : _printer_supports_format Sample.zebra "zpl" = true) by reflexivity.
  split; [exact (conj Hf (conj Hg Hs))|].
  destruct (print_raw_empty_payload None "zpl" zpl (Some (ById 5)) options w 5
              Sample.zebra Hf Hg Hs)
    as (j & w' & Hrun & Hj & Hst & _); [reflexivity|simpl; lia|simpl; lia|].
  exists j, w'. split; [exact Hrun|]. split; [exact Hj|exact Hst].
Defined.

(** ** The HTTP controller *)

(** Resubmitting a job that has a payload and a stored printer: a new job
    is created for the user of the request and queued, with the document
    type, payload, format, printer, copies and priority of the original
    and a retry count of zero; the original job, whatever its state, and
    every other job are left as they were. *)
Theorem resubmit_job_spec w i j pid p :
  jobs w !! i = Some j ->
  ids_below_next w ->
  printer_id j = Some pid ->
  printers w !! pid = Some p ->
  data_truthy (data j) = true \/ is_Some (template_id j) ->
  1 <= copies j ->
  0 <= priority j ->
  exists nj w',
    QZTrayController.resubmit_job i w
    = (QZTrayController.Success (QZTrayController.mkResubmitted (next_job_id w) i), w')
    /\ next_job_id w <> i
    /\ jobs w' !! next_job_id w = Some nj
    /\ state nj = queued
    /\ retry_count nj = 0
    /\ user_id nj = uid w
    /\ document_type nj = document_type j
    /\ data nj = data j
    /\ data_format nj = data_format j
    /\ printer_id nj = Some pid
    /\ copies nj = copies j
    /\ priority nj = priority j
    /\ submitted_date nj = Some (clock w)
    /\ completed_date nj = None
    /\ (error_message nj = None <-> active p = true)
    /\ (forall k, k <> next_job_id w -> jobs w' !! k = jobs w !! k).
Proof.
  intros Hj Hb Hpid Hp Hpay Hc Hpr.
  assert (Hne : next_job_id w <> i).
  { assert (i < next_job_id w) by (apply Hb; by eexists). lia. }
  set (v := QZTrayController.resubmit_vals (uid w) pid j).
  set (w1 := created_world w v). set (cj := created_job w v).
  assert (Hcj : jobs w1 !! next_job_id w = Some cj) by apply lookup_insert_eq.
  assert (Hsub : submittable cj) by (split; [exact Hpay|by eexists]).
  assert (Hprinter : printer_of w1 cj = Some p).
  { unfold printer_of. cbn. exact Hp. }
  assert (Hrun : forall nj w',
            submit_job (next_job_id w) w1 = (Ok (next_job_id w), w') ->
            jobs w' !! next_job_id w = Some nj ->
            QZTrayController.resubmit_job i w
            = (QZTrayController.Success
                 (QZTrayController.mkResubmitted (next_job_id w) i), w')).
  { intros nj w' Hs _. unfold QZTrayController.resubmit_job, QZTrayController.catching.
    unfold bind at 1, get_world at 1.
    rewrite (bool_decide_eq_true_2 (is_Some (jobs w !! i))) by (by eexists).
    cbn [negb]. unfold bind at 1. rewrite (read_some _ _ _ Hj).
    rewrite Hpid. unfold bind at 1. fold v.
    rewrite create_one_eq; [|done|by eexists|by repeat split; simpl; lia].
    fold w1. unfold bind at 1. rewrite Hs. reflexivity. }
  assert (Hkeep : forall nj k, k <> next_job_id w ->
            jobs (upd (next_job_id w) nj w1) !! k = jobs w !! k).
  { intros nj k Hk. rewrite lookup_upd_ne by done.
    unfold w1, created_world. cbn [jobs]. by apply lookup_insert_ne. }
  destruct (active p) eqn:Ha.
  - set (nj := apply_vals cj [F_submitted_date (clock w); F_state queued]).
    exists nj, (upd (next_job_id w) nj w1). split.
    { apply (Hrun nj); [|apply lookup_upd].
      apply (submit_job_online w1 _ cj Hcj Hsub). by rewrite Hprinter. }
    split; [done|]. split; [apply lookup_upd|]. do 12 (split; [done|]). apply Hkeep.
  - set (nj := apply_vals cj
                 [F_submitted_date (clock w); F_state queued;
                  F_error_message (Some ("Printer " +:+ pr_name (printer_of w1 cj) +:+
                     " is offline. Job queued for later processing."))]).
    exists nj, (upd (next_job_id w) nj w1). split.
    { apply (Hrun nj); [|apply lookup_upd].
      apply (submit_job_offline w1 _ cj Hcj Hsub). by rewrite Hprinter. }
    split; [done|]. split; [apply lookup_upd|]. do 11 (split; [done|]).
    split; [split; discriminate|]. apply Hkeep.
Qed.

Lemma world_of_ids_below c j : ids_below_next (Sample.world_of c j).
Proof.
  intros i. unfold Sample.world_of. cbn [jobs next_job_id].
  rewrite lookup_singleton. case_decide; subst; [lia|]. by intros [? ?].
Qed.

Lemma resubmit_job_spec_witness :
  let j := Sample.with_state failed Sample.job0 in
  let w := Sample.world_of Sample.cfg j in
  (jobs w !! 7 = Some j /\ ids_below_next w /\ printers w !! 1 = Some Sample.office)
  /\ exists nj w',
       QZTrayController.resubmit_job 7 w
       = (QZTrayController.Success (QZTrayController.mkResubmitted 8 7), w')
       /\ jobs w' !! 8 = Some nj
       /\ state nj = queued
       /\ jobs w' !! 7 = Some j.
Proof.
  set (j := Sample.with_state failed Sample.job0).
  set (w := Sample.world_of Sample.cfg j).
  assert (Hj : jobs w !! 7 = Some j) by reflexivity.
  pose proof (world_of_ids_below Sample.cfg j) as Hb. fold w in Hb.
  assert (Hp : printers w !! 1 = Some Sample.office) by reflexivity.
  split; [exact (conj Hj (conj Hb Hp))|].
  destruct (resubmit_job_spec w 7 j 1 Sample.office Hj Hb eq_refl Hp)
    as (nj & w' & Hrun & _ & Hnj & Hs & _ & _ & _ & _ & _ & _ & _ & _ & _ & _ & _ & Hkeep);
    [by left|simpl; lia|simpl; lia|].
  exists nj, w'. split; [exact Hrun|]. split; [exact Hnj|]. split; [exact Hs|].
  rewrite Hkeep; [exact Hj|discriminate].
Defined.

(** The job endpoints reply [success] whenever the model method returns,
    also when it returns [False]: cancelling a job that is completed or
    cancelled, and retrying a job that has not failed, are answered with
    success although nothing was done. *)
Theorem endpoints_succeed_on_refusal w i j :
  jobs w !! i = Some j ->
  (state j = completed \/ state j = cancelled ->
   QZTrayController.cancel_job i w = (QZTrayController.Success tt, w))
  /\ (state j <> failed ->
      QZTrayController.retry_job i w = (QZTrayController.Success tt, w)).
Proof.
  intros Hj. split; intros Hs.
  - unfold QZTrayController.cancel_job, QZTrayController.catching, bind at 1, get_world at 1.
    rewrite (bool_decide_eq_true_2 (is_Some (jobs w !! i))) by (by eexists).
    cbn [negb]. unfold bind. by rewrite (cancel_job_terminal w i j Hj Hs).
  - unfold QZTrayController.retry_job, QZTrayController.catching, bind at 1, get_world at 1.
    rewrite (bool_decide_eq_true_2 (is_Some (jobs w !! i))) by (by eexists).
    cbn [negb]. unfold bind. by rewrite (retry_job_not_failed w i j Hj Hs).
Qed.

Lemma endpoints_succeed_on_refusal_witness :
  let j := Sample.with_state completed Sample.job0 in
  let w := Sample.world_of Sample.cfg j in
  jobs w !! 7 = Some j
  /\ QZTrayController.cancel_job 7 w = (QZTrayController.Success tt, w)
  /\ QZTrayController.retry_job 7 w = (QZTrayController.Success tt, w).
Proof.
  set (j := Sample.with_state completed Sample.job0).
  set (w := Sample.world_of Sample.cfg j).
  assert (Hj : jobs w !! 7 = Some j) by reflexivity.
  split; [exact Hj|].
  destruct (endpoints_succeed_on_refusal w 7 j Hj) as [Hc Hr].
  split; [apply Hc; by left|apply Hr; discriminate].
Defined.

(** Resuming a paused printer always reports an empty queue: the write
    that activates the printer has processed every job queued for it
    before the endpoint counts them. *)
Theorem resume_printer_reports_empty w pid p :
  printers w !! pid = Some p ->
  active p = false ->
  exists w',
    QZTrayController.resume_printer pid w
    = (QZTrayController.Success (QZTrayController.mkResumed pid "active" 0), w')
    /\ printers w' !! pid = Some (set_printer_field p (P_active true))
    /\ forall i j, jobs w' !! i = Some j -> printer_id j = Some pid -> state j <> queued.
Proof.
  intros Hp Ha.
  destruct (printer_write_activates w pid p Hp Ha) as (w' & Hrun & Hpr & _ & _ & Hnone).
  exists w'. split; [|split].
  - unfold QZTrayController.resume_printer, QZTrayController.catching,
      bind at 1, get_world at 1.
    rewrite (bool_decide_eq_true_2 (is_Some (printers w !! pid))) by (by eexists).
    cbn [negb]. unfold bind at 1. rewrite Hrun. unfold bind, get_world.
    rewrite Hnone. reflexivity.
  - rewrite Hpr. apply lookup_insert_eq.
  - intros i j Hj Hpj Hs.
    assert (i ∈ search_queued_jobs w' pid) as Hin
      by (apply elem_of_search_queued_jobs; by exists j).
    rewrite Hnone in Hin. by apply not_elem_of_nil in Hin.
Qed.

Lemma resume_printer_reports_empty_witness :
  let j := Sample.with_state queued (Sample.on_printer 2 Sample.job0) in
  let w := Sample.world_of Sample.cfg j in
  (printers w !! 2 = Some Sample.paused /\ active Sample.paused = false)
  /\ exists w',
       QZTrayController.resume_printer 2 w
       = (QZTrayController.Success (QZTrayController.mkResumed 2 "active" 0), w').
Proof.
  set (j := Sample.with_state queued (Sample.on_printer 2 Sample.job0)).
  set (w := Sample.world_of Sample.cfg j).
  assert (Hp : printers w !! 2 = Some Sample.paused) by reflexivity.
  assert (Ha : active Sample.paused = false) by reflexivity.
  split; [exact (conj Hp Ha)|].
  destruct (resume_printer_reports_empty w 2 Sample.paused Hp Ha) as (w' & Hrun & _).
  by exists w'.
Defined.

(** ** Printer discovery *)

Lemma name_taken_spec w n :
  name_taken w n = true <-> exists k q, printers w !! k = Some q /\ p_name q = n.
Proof.
  unfold name_taken. rewrite existsb_exists. split.
  - intros ([k q] & Hin & He). exists k, q. split.
    + by apply elem_of_map_to_list, list_elem_of_In.
    + by apply String.eqb_eq.
  - intros (k & q & Hq & Hn). exists (k, q). split.
    + by apply list_elem_of_In, elem_of_map_to_list.
    + by apply String.eqb_eq.
Qed.

Lemma search_system_name_stored r n pid p :
  search_system_name r n = Some (pid, p) ->
  printers (db r) !! pid = Some p /\ active p = true /\ system_name r !! pid = Some n.
Proof.
  intros H. apply head_sort_by_elem, list_elem_of_filter in H as [[Ha Hs] H].
  by apply elem_of_map_to_list in H.
Qed.

Lemma search_system_name_none r n :
  search_system_name r n = None
  <-> forall k q, printers (db r) !! k = Some q -> system_name r !! k = Some n ->
                  active q = false.
Proof.
  split.
  - intros H%head_sort_by_none k q Hq Hs. destruct (active q) eqn:Ha; [|done].
    assert ((k, q) ∈ @nil (Z * Printer)) as Hin; [|by apply not_elem_of_nil in Hin].
    rewrite <- H. apply list_elem_of_filter. split; [done|]. by apply elem_of_map_to_list.
  - intros Hall. destruct (search_system_name r n) as [[k q]|] eqn:E; [|done].
    apply search_system_name_stored in E as (Hq & Ha & Hs).
    rewrite (Hall k q Hq Hs) in Ha. discriminate.
Qed.

Lemma with_printers_id w : with_printers (printers w) w = w.
Proof. by destruct w. Qed.

(** Writing [active] on a printer that is active already changes nothing. *)
Lemma printer_write_active_noop w pid p :
  printers w !! pid = Some p -> active p = true ->
  printer_write [pid] [P_active true] w = (Ok true, w).
Proof.
  intros Hp Ha. unfold printer_write, bind. cbn [printers_coming_online].
  unfold bind, read_printer, ret. rewrite Hp. rewrite Ha. rewrite andb_false_r.
  cbn [forM]. unfold bind, base_write_printer, bind, read_printer. rewrite Hp.
  cbn [existsb writes_priority orb apply_printer_vals fold_left]. unfold ret.
  cbn [uniq forM]. unfold ret.
  replace (set_printer_field p (P_active true)) with p
    by (destruct p; simpl in *; by subst).
  by rewrite (insert_id _ _ _ Hp), with_printers_id.
Qed.

(** The outcomes of [create] on a printer with the default priority. *)
Lemma create_new_printer w n t :
  create_printer (new_printer n t) w
  = if name_taken w n then (Raise (IntegrityError "Printer name must be unique!"), w)
    else if (negb (PyStr.truthy (Some n)) || blank n)%bool
    then (Raise (ValidationError "Printer name cannot be empty"), w)
    else (Ok (next_printer_id w),
          mkWorld (jobs w) (<[next_printer_id w := new_printer n t]> (printers w))
                  (config w) (clock w) (uid w) (next_job_id w) (next_printer_id w + 1)
                  (job_sequence w) (admin_calls w) (mail_stage w)).
Proof.
  unfold create_printer, bind, get_world, raise. cbn [p_name new_printer].
  destruct (name_taken w n); [done|]. unfold _check_name_not_empty. cbn [p_name new_printer].
  by destruct (negb (PyStr.truthy (Some n)) || blank n)%bool.
Qed.

(** The loop of the discovery writes to no job and to no printer record
    that exists already. *)
Lemma discover_each_frame l :
  forall r c u res r',
    printer_ids_below_next (db r) ->
    discover_each l c u r = (res, r') ->
    jobs (db r') = jobs (db r)
    /\ forall i p, printers (db r) !! i = Some p ->
         printers (db r') !! i = Some p /\ system_name r' !! i = system_name r !! i.
Proof.
  induction l as [|n l IH]; intros r c u res r' Hb; cbn [discover_each].
  { by intros [= <- <-]. }
  destruct (search_system_name r n) as [[pid p]|] eqn:Es.
  - apply search_system_name_stored in Es as (Hp & Ha & _).
    rewrite (printer_write_active_noop _ _ _ Hp Ha).
    replace (mkRegistry (db r) (system_name r)) with r by (by destruct r).
    by apply IH.
  - rewrite create_new_printer.
    destruct (name_taken (db r) n); [by intros [= <- <-]|].
    destruct (negb (PyStr.truthy (Some n)) || blank n)%bool; [by intros [= <- <-]|].
    intros Hrun. apply IH in Hrun as [Hj Hk].
    + split; [done|]. intros i p Hp.
      assert (i <> next_printer_id (db r)).
      { assert (i < next_printer_id (db r)) by (apply Hb; by eexists). lia. }
      destruct (Hk i p) as [H1 H2].
      { cbn [db printers]. by rewrite lookup_insert_ne. }
      split; [done|]. rewrite H2. cbn [system_name]. by rewrite lookup_insert_ne.
    + intros i. cbn [db printers next_printer_id]. rewrite lookup_insert.
      case_decide; [lia|]. intros Hi. apply Hb in Hi. lia.
Qed.

(** Discovery changes no job and no printer record that exists already,
    whatever the list and whether the run returns or raises: in
    particular it never brings a paused printer back online, as the
    search for a known printer sees the active records only. *)
Theorem discovery_frame l r res r' :
  printer_ids_below_next (db r) ->
  process_discovered_printers l r = (res, r') ->
  jobs (db r') = jobs (db r)
  /\ forall i p, printers (db r) !! i = Some p ->
       printers (db r') !! i = Some p /\ system_name r' !! i = system_name r !! i.
Proof.
  intros Hb. unfold process_discovered_printers.
  destruct l as [|n l]; [by intros [= <- <-]|].
  destruct (discover_each (n :: l) [] [] r) as [[[c u]|e] r1] eqn:E;
    intros [= <- <-]; by apply (discover_each_frame _ _ _ _ _ _ Hb E).
Qed.

(** A printer that was discovered and then paused makes the next
    discovery raise: its record is not seen by the search, and the
    record created in its place breaks the uniqueness of names.  Nothing
    is written. *)
Theorem rediscovery_of_paused_raises n rest r i p :
  printers (db r) !! i = Some p ->
  p_name p = n ->
  (forall k q, printers (db r) !! k = Some q -> system_name r !! k = Some n ->
               active q = false) ->
  process_discovered_printers (n :: rest) r
  = (Raise (IntegrityError "Printer name must be unique!"), r).
Proof.
  intros Hp Hn Hnone. unfold process_discovered_printers. cbn [discover_each].
  rewrite (proj2 (search_system_name_none r n) Hnone), create_new_printer.
  rewrite (proj2 (name_taken_spec (db r) n)) by (by exists i, p).
  by destruct r.
Qed.

Lemma discover_each_known l :
  forall r c u,
    Forall (fun n => exists k q, printers (db r) !! k = Some q /\ active q = true
                                 /\ system_name r !! k = Some n) l ->
    exists names, discover_each l c u r = (Ok (c, u ++ names), r)
                  /\ length names = length l.
Proof.
  induction l as [|n l IH]; intros r c u Hall; cbn [discover_each].
  { exists []. by rewrite app_nil_r. }
  apply Forall_cons in Hall as [(k & q & Hq & Ha & Hs) Hall].
  destruct (search_system_name r n) as [[pid p]|] eqn:Es.
  - apply search_system_name_stored in Es as (Hp & Hap & _).
    rewrite (printer_write_active_noop _ _ _ Hp Hap).
    replace (mkRegistry (db r) (system_name r)) with r by (by destruct r).
    destruct (IH r c (u ++ [p_name p]) Hall) as (names & Hrun & Hlen).
    exists (p_name p :: names). rewrite Hrun, <- app_assoc. split; [done|].
    simpl. by rewrite Hlen.
  - rewrite search_system_name_none in Es. rewrite (Es k q Hq Hs) in Ha. discriminate.
Qed.

Lemma discover_each_fresh l :
  forall r c u,
    NoDup l -> Forall (unknown_name r) l -> printer_ids_below_next (db r) ->
    exists r',
      discover_each l c u r = (Ok (c ++ l, u), r')
      /\ forall n, n ∈ l ->
           exists pid, printers (db r') !! pid = Some (new_printer n (_detect_printer_type n))
                       /\ system_name r' !! pid = Some n.
Proof.
  induction l as [|n l IH]; intros r c u Hnd Hall Hb; cbn [discover_each].
  { exists r. rewrite app_nil_r. split; [done|]. by intros n ?%not_elem_of_nil. }
  apply NoDup_cons in Hnd as [Hn Hnd].
  apply Forall_cons in Hall as [[Hblank Hnew] Hall].
  rewrite (proj2 (search_system_name_none r n))
    by (intros k q Hq Hs; by destruct (Hnew k q Hq)).
  rewrite create_new_printer.
  destruct (name_taken (db r) n) eqn:Ht.
  { apply name_taken_spec in Ht as (k & q & Hq & Hname). by destruct (Hnew k q Hq). }
  replace (PyStr.truthy (Some n)) with true by (by destruct n).
  rewrite Hblank. cbn [negb orb].
  set (pid := next_printer_id (db r)).
  set (p := new_printer n (_detect_printer_type n)).
  set (r1 := mkRegistry _ _).
  assert (Hb1 : printer_ids_below_next (db r1)).
  { intros i. unfold r1. cbn [db printers next_printer_id]. rewrite lookup_insert.
    case_decide; [lia|]. intros Hi. apply Hb in Hi. lia. }
  destruct (IH r1 (c ++ [p_name p]) u Hnd) as (r' & Hrun & Hmem); [|done|].
  { rewrite Forall_forall in Hall. apply Forall_forall. intros n' Hn'.
    destruct (Hall n' Hn') as [Hbl' Hnew']. split; [done|]. intros k q.
    unfold r1. cbn [db printers system_name]. rewrite !lookup_insert.
    case_decide; [|by apply Hnew'].
    intros [= <-]. cbn [p p_name new_printer]. split; [by intros ->|by intros [= ->]]. }
  exists r'. rewrite Hrun, <- app_assoc. split; [done|].
  intros n' [->|Hn']%elem_of_cons; [|by apply Hmem].
  exists pid.
  apply (discover_each_frame _ _ _ _ _ _ Hb1) in Hrun as [_ Hkeep].
  destruct (Hkeep pid p) as [H1 H2].
  { unfold r1. cbn [db printers]. apply lookup_insert_eq. }
  split; [done|]. rewrite H2. unfold r1. cbn [system_name]. apply lookup_insert_eq.
Qed.

(** A first discovery and the next one.  Names that no printer bears yet
    are each given a record: active, of the type read off the name, with
    the default capabilities (PDF and HTML, neither ESC/POS nor ZPL); the
    report counts them as created.  Discovering the same names again
    changes nothing and reports them as updated. *)
Theorem discovery_creates_then_updates l r :
  l <> [] ->
  NoDup l ->
  Forall (unknown_name r) l ->
  printer_ids_below_next (db r) ->
  exists report r' again,
    process_discovered_printers l r = (Ok report, r')
    /\ d_success report = true
    /\ created_count report = Some (Z.of_nat (length l))
    /\ updated_count report = Some 0
    /\ (forall n, n ∈ l ->
          exists pid, printers (db r') !! pid = Some (new_printer n (_detect_printer_type n))
                      /\ system_name r' !! pid = Some n)
    /\ process_discovered_printers l r' = (Ok again, r')
    /\ created_count again = Some 0
    /\ updated_count again = Some (Z.of_nat (length l)).
Proof.
  intros Hne Hnd Hall Hb.
  destruct (discover_each_fresh l r [] [] Hnd Hall Hb) as (r' & Hrun & Hmem).
  destruct (discover_each_known l r' [] []) as (names & Hrun2 & Hlen).
  { apply Forall_forall. intros n Hn. destruct (Hmem n Hn) as (pid & Hp & Hs).
    by exists pid, (new_printer n (_detect_printer_type n)). }
  cbn [app] in Hrun, Hrun2.
  destruct l as [|n l]; [done|].
  eexists _, r', _. split.
  { unfold process_discovered_printers. rewrite Hrun. reflexivity. }
  do 4 (split; [done|]). split.
  { unfold process_discovered_printers. rewrite Hrun2. reflexivity. }
  split; [done|]. cbn [updated_count]. by rewrite Hlen.
Qed.

(** Receipt keywords come first: a name that holds one of them, anywhere
    and inside any other word, is taken for a receipt printer, also when
    it holds keywords of label or document printers. *)
Theorem detect_receipt_first a k b :
  k ∈ receipt_keywords -> _detect_printer_type (a +:+ k +:+ b) = receipt.
Proof.
  intros Hk. unfold _detect_printer_type. cbn zeta.
  assert (existsb (fun keyword => PyStr.contains keyword (PyStr.lower (a +:+ k +:+ b)))
                  receipt_keywords = true) as ->; [|done].
  apply existsb_exists. exists k. split; [by apply list_elem_of_In|].
  rewrite !lower_append. apply contains_append_r, contains_append_l.
  unfold receipt_keywords in Hk.
  repeat (apply elem_of_cons in Hk as [->|Hk]; [reflexivity|]).
  by apply not_elem_of_nil in Hk.
Qed.

Lemma detect_receipt_first_witness :
  "thermal"%string ∈ receipt_keywords
  /\ _detect_printer_type "Zebra thermal label printer" = receipt.
Proof.
  assert (H : "thermal"%string ∈ receipt_keywords) by (do 2 right; left).
  split; [exact H|].
  exact (detect_receipt_first "Zebra " "thermal" " label printer" H).
Defined.

Lemma sync_each_updated l :
  forall r n u n' u' r',
    QZTrayController.sync_each l n u r = (Ok (n', u'), r') -> u' = u.
Proof.
  induction l as [|name l IH]; intros r n u n' u' r'; cbn [QZTrayController.sync_each].
  { by intros [= _ <- _]. }
  destruct (search_system_name r name) as [[pid p]|] eqn:Es.
  - apply search_system_name_stored in Es as (_ & -> & _). cbn [negb]. apply IH.
  - destruct (create_printer _ _) as [[pid|e] w]; [apply IH|discriminate].
Qed.

(** [sync_printers] never reports an update: the record it finds for a
    known name is an active one, so that the branch that reactivates a
    printer and counts it is never taken. *)
Theorem sync_never_updates l r s r' :
  QZTrayController.sync_printers l r = (QZTrayController.Success s, r') ->
  QZTrayController.synced_updated_count s = 0.
Proof.
  unfold QZTrayController.sync_printers. destruct l as [|n l]; [discriminate|].
  destruct (QZTrayController.sync_each (n :: l) 0 0 r) as [[[n' u']|e] r1] eqn:E;
    [|discriminate].
  intros [= <- <-]. cbn [QZTrayController.synced_updated_count].
  by apply sync_each_updated in E.
Qed.

Lemma label_shop_printer_ids_below prio : printer_ids_below_next (Sample.label_shop prio).
Proof.
  intros i. unfold Sample.label_shop. cbn [printers next_printer_id].
  rewrite lookup_insert, lookup_singleton.
  repeat case_decide; subst; try lia. by intros [? ?].
Qed.

Lemma shop_registry_unknown n :
  blank n = false ->
  n <> "Default Label Printer"%string -> n <> "High Priority Printer"%string ->
  unknown_name Sample.shop_registry n.
Proof.
  intros Hb H1 H2. split; [done|]. intros k q.
  unfold Sample.shop_registry, Sample.label_shop. cbn [db printers system_name].
  rewrite lookup_insert, lookup_singleton, lookup_empty.
  repeat case_decide; intros [= <-] || intros [=]; (split; [|done]);
    cbn [p_name Sample.default_label Sample.plain_label]; congruence.
Qed.

Lemma discovery_frame_witness :
  let r := Sample.shop_registry in
  let out := process_discovered_printers ["Zebra ZT410"%string] r in
  printer_ids_below_next (db r)
  /\ jobs (db (snd out)) = jobs (db r)
  /\ printers (db (snd out)) !! 1 = Some Sample.default_label.
Proof.
  set (r := Sample.shop_registry).
  pose proof (label_shop_printer_ids_below 5) as Hb.
  split; [exact Hb|].
  destruct (discovery_frame ["Zebra ZT410"%string] r _ _ Hb (surjective_pairing _))
    as [Hj Hk].
  split; [exact Hj|]. by destruct (Hk 1 Sample.default_label eq_refl).
Defined.

Lemma rediscovery_of_paused_raises_witness :
  let r := Sample.paused_registry in
  (printers (db r) !! 2 = Some Sample.paused /\ p_name Sample.paused = "Spare"%string)
  /\ process_discovered_printers ["Spare"%string] r
     = (Raise (IntegrityError "Printer name must be unique!"), r).
Proof.
  set (r := Sample.paused_registry).
  assert (Hp : printers (db r) !! 2 = Some Sample.paused) by reflexivity.
  assert (Hn : p_name Sample.paused = "Spare"%string) by reflexivity.
  split; [exact (conj Hp Hn)|].
  apply (rediscovery_of_paused_raises "Spare" [] r 2 Sample.paused Hp Hn).
  intros k q Hq Hs.
  change (system_name r) with ({[ 2 := "Spare"%string ]} : gmap Z string) in Hs.
  apply lookup_singleton_Some in Hs as [<- _].
  rewrite Hp in Hq. by injection Hq as <-.
Defined.

Lemma discovery_creates_then_updates_witness :
  let r := Sample.shop_registry in
  let l := ["Zebra ZT410"; "Office Laser"]%string in
  (NoDup l /\ Forall (unknown_name r) l /\ printer_ids_below_next (db r))
  /\ exists report r' again,
       process_discovered_printers l r = (Ok report, r')
       /\ created_count report = Some 2
       /\ (exists pid, printers (db r') !! pid = Some (new_printer "Zebra ZT410" label))
       /\ process_discovered_printers l r' = (Ok again, r')
       /\ updated_count again = Some 2.
Proof.
  set (r := Sample.shop_registry). set (l := ["Zebra ZT410"; "Office Laser"]%string).
  assert (Hnd : NoDup l).
  { repeat constructor; rewrite ?elem_of_cons; try apply not_elem_of_nil.
    intros [[=]|H]; by apply not_elem_of_nil in H. }
  assert (Hall : Forall (unknown_name r) l)
    by (constructor; [by apply shop_registry_unknown|];
        constructor; [by apply shop_registry_unknown|constructor]).
  pose proof (label_shop_printer_ids_below 5) as Hb.
  split; [exact (conj Hnd (conj Hall Hb))|].
  destruct (discovery_creates_then_updates l r) as
    (report & r' & again & Hrun & _ & Hc & _ & Hmem & Hrun2 & _ & Hu); [done..|].
  exists report, r', again. split; [exact Hrun|]. split; [exact Hc|]. split.
  { destruct (Hmem "Zebra ZT410"%string) as (pid & Hp & _); [by left|]. by exists pid. }
  split; [exact Hrun2|exact Hu].
Defined.

Lemma sync_never_updates_witness :
  let r := Sample.shop_registry in
  let out := QZTrayController.sync_printers ["Zebra ZT410"%string] r in
  fst out = QZTrayController.Success (QZTrayController.mkSynced 1 0 1)
  /\ QZTrayController.synced_updated_count (QZTrayController.mkSynced 1 0 1) = 0.
Proof.
  set (r := Sample.shop_registry).
  assert (H : fst (QZTrayController.sync_printers ["Zebra ZT410"%string] r)
              = QZTrayController.Success (QZTrayController.mkSynced 1 0 1))
    by (vm_compute; reflexivity).
  split; [exact H|].
  apply (sync_never_updates ["Zebra ZT410"%string] r _
           (snd (QZTrayController.sync_printers ["Zebra ZT410"%string] r))).
  rewrite <- H. apply surjective_pairing.
Defined.
